(** * Two-stage generation server: conversation buffer, history formatter,
      task registry and task pipeline

    Shallow embedding of the TypeScript sources:
    - [types.ts] (the shared records),
    - [ConversationManager] (the class owning the rolling context buffer
      and the validated history formatter),
    - [TaskManager] (the class owning the task registry),
    - [index.ts], the server written on the raw protocol handler
      (module [Index]),
    - the same server written with declarative tool registration
      (module [McpIndex]).
    The methods [addToContext], [formatContextForPrompt], [processTask],
    [getDeepseekReasoning] and [getFinalResponse] of [class
    DeepseekClaudeServer] have the same text in both server files; they
    are embedded once, in module [DeepseekClaudeServer], over the
    module-level formatter of the file they are read in.

    Conventions.  A JavaScript string is a Rocq [string]; every [ascii]
    stands for one UTF-16 code unit below 256, so [String.length] is the
    [length] property.  A JavaScript number that the program uses as a
    count, a bound or a clock reading is a [Z].  An optional property is
    an [option]: [None] is [undefined].  A function that can throw
    returns a sum whose left side is the thrown value. *)

From Stdlib Require Import ZArith Ascii String Lia.
From stdpp Require Import base option list strings gmap.

Local Open Scope Z_scope.

(** ** JavaScript string primitives *)

Module JS.

(** The line feed written ['\n'] in the sources. *)
Definition LF : string := String (ascii_of_nat 10) EmptyString.

(** [s.length]. *)
Definition length (s : string) : Z := Z.of_nat (String.length s).

(** [parts.join(sep)] on an array of strings. *)
Definition join (sep : string) (parts : list string) : string :=
  String.concat sep parts.

(** Truthiness of a string: only [''] is falsy. *)
Definition truthy (s : string) : bool :=
  match s with
  | EmptyString => false
  | String _ _ => true
  end.

(** White space and line terminators that [trim] strips, among the code
    units below 256: TAB, LF, VT, FF, CR, SP and NBSP. *)
Definition isWhiteSpace (c : ascii) : bool :=
  match nat_of_ascii c with
  | 9%nat | 10%nat | 11%nat | 12%nat | 13%nat | 32%nat | 160%nat => true
  | _ => false
  end.

Fixpoint trimStart (s : string) : string :=
  match s with
  | EmptyString => EmptyString
  | String c rest => if isWhiteSpace c then trimStart rest else s
  end.

Fixpoint trimEnd (s : string) : string :=
  match s with
  | EmptyString => EmptyString
  | String c rest =>
      match trimEnd rest with
      | EmptyString => if isWhiteSpace c then EmptyString else String c EmptyString
      | kept => String c kept
      end
  end.

(** [s.trim()]. *)
Definition trim (s : string) : string := trimEnd (trimStart s).

(** A string of [n] copies of one code unit (used to build inputs). *)
Fixpoint repeat (c : ascii) (n : nat) : string :=
  match n with
  | O => EmptyString
  | S k => String c (repeat c k)
  end.

(** Every code unit of [s] is white space. *)
Fixpoint allWhiteSpace (s : string) : bool :=
  match s with
  | EmptyString => true
  | String c rest => isWhiteSpace c && allWhiteSpace rest
  end.

End JS.

(** ** Shared records ([types.ts]) *)

Inductive TaskStatus := Pending | Reasoning | Responding | Complete | Error.

Global Instance TaskStatus_eq_dec : EqDecision TaskStatus.
Proof. solve_decision. Defined.

(** [interface TaskInfo] (called [TaskStatus] inside the two servers, with
    the same seven properties). *)
Module TaskInfo.
Record t := mk {
  status : TaskStatus;
  prompt : string;
  showReasoning : option bool;
  reasoning : option string;
  response : option string;
  error : option string;
  timestamp : Z
}.
End TaskInfo.

(** [interface ConversationEntry]. *)
Module ConversationEntry.
Record t := mk {
  timestamp : Z;
  prompt : string;
  reasoning : string;
  response : string;
  model : string
}.
End ConversationEntry.

(** [interface ConversationContext]. *)
Record ConversationContext := {
  entries : list ConversationEntry.t;
  maxEntries : Z
}.

(** [interface ClaudeContentPart].  The run-time validator of
    [ConversationManager] tests [typeof c.type] and [typeof c.text], so
    both properties may be missing in a value that reaches it. *)
Record ClaudeContentPart := {
  part_type : option string;
  part_text : option string
}.

Inductive MessageContent :=
| Text (s : string)
| Parts (ps : list ClaudeContentPart).

(** [interface ClaudeMessage].  The role is kept as the string found in the
    history file: the formatters compare it with ['user'] only. *)
Record ClaudeMessage := {
  role : string;
  content : MessageContent
}.

(** [msg.content.map(c => c.text).join('\n')]: [join] renders a missing
    text as the empty string. *)
Definition partsText (ps : list ClaudeContentPart) : string :=
  JS.join JS.LF (map (fun c => default EmptyString (part_text c)) ps).

Definition contentText (c : MessageContent) : string :=
  match c with
  | Text s => s
  | Parts ps => partsText ps
  end.

(** The template literal shared by the three formatters. *)
Definition roleLabel (r : string) : string :=
  if String.eqb r "user" then "Human" else "Assistant".

(** The separator ['\n\n'] between rendered messages. *)
Definition blankLine : string := JS.LF +:+ JS.LF.

(** ** [ConversationManager]: the buffer and the validated formatter *)

Module ConversationManager.

(** [class ConversationError extends Error]: the message it carries. *)
Record ConversationError := Throw { message : string }.

Definition DEFAULT_MAX_ENTRIES : Z := 10.
Definition DEEPSEEK_MAX_LENGTH : Z := 50000.
Definition CLAUDE_MAX_LENGTH : Z := 600000.

(** [Number.isInteger] holds of every [Z]; the test left is [<= 0]. *)
Definition validateMaxEntries (maxEntries : Z) : ConversationError + unit :=
  if maxEntries <=? 0 then inl (Throw "Max entries must be a positive integer")
  else inr tt.

(** [constructor(maxEntries)]. *)
Definition new (maxEntries : Z) : ConversationError + ConversationContext :=
  match validateMaxEntries maxEntries with
  | inl e => inl e
  | inr _ => inr {| entries := []; maxEntries := maxEntries |}
  end.

(** The object handed to [addEntry] at run time: each of the five
    properties may be absent ([None]); the argument itself may be
    [null] (an absent object). *)
Record EntryObject := {
  o_timestamp : option Z;
  o_prompt : option string;
  o_reasoning : option string;
  o_response : option string;
  o_model : option string
}.

(** [validateEntry]: the required fields are looked up in the order
    [timestamp, prompt, reasoning, response, model]; the first one
    missing names the error. *)
Definition validateEntry (entry : option EntryObject)
    : ConversationError + ConversationEntry.t :=
  match entry with
  | None => inl (Throw "Invalid conversation entry")
  | Some o =>
      match o_timestamp o with
      | None => inl (Throw "Missing required field: timestamp")
      | Some ts =>
      match o_prompt o with
      | None => inl (Throw "Missing required field: prompt")
      | Some p =>
      match o_reasoning o with
      | None => inl (Throw "Missing required field: reasoning")
      | Some r =>
      match o_response o with
      | None => inl (Throw "Missing required field: response")
      | Some a =>
      match o_model o with
      | None => inl (Throw "Missing required field: model")
      | Some m => inr (ConversationEntry.mk ts p r a m)
      end end end end end
  end.

(** [entries.push(entry)] followed by the conditional [entries.shift()]. *)
Definition pushBounded (ctx : ConversationContext) (e : ConversationEntry.t)
    : ConversationContext :=
  let pushed := entries ctx ++ [e] in
  if Z.of_nat (length pushed) >? maxEntries ctx
  then {| entries := tail pushed; maxEntries := maxEntries ctx |}
  else {| entries := pushed; maxEntries := maxEntries ctx |}.

Definition addEntry (ctx : ConversationContext) (entry : option EntryObject)
    : ConversationError + ConversationContext :=
  match validateEntry entry with
  | inl e => inl e
  | inr e => inr (pushBounded ctx e)
  end.

Definition clearContext (ctx : ConversationContext) : ConversationContext :=
  {| entries := []; maxEntries := maxEntries ctx |}.

Definition getEntries (ctx : ConversationContext) : list ConversationEntry.t :=
  entries ctx.

(** A run of [addEntry] calls; the first throwing call ends the run. *)
Fixpoint addEntries (ctx : ConversationContext)
    (calls : list (option EntryObject)) : ConversationError + ConversationContext :=
  match calls with
  | [] => inr ctx
  | entry :: later =>
      match addEntry ctx entry with
      | inl e => inl e
      | inr ctx' => addEntries ctx' later
      end
  end.

Definition formatEntry (entry : ConversationEntry.t) : string :=
  "Question: " +:+ ConversationEntry.prompt entry +:+ JS.LF +:+
  "Reasoning: " +:+ ConversationEntry.reasoning entry +:+ JS.LF +:+
  "Answer: " +:+ ConversationEntry.response entry.

Definition formatContextForPrompt (ctx : ConversationContext) : string :=
  match entries ctx with
  | [] => EmptyString
  | es => JS.join blankLine (map formatEntry es)
  end.

Definition formatMessage (msg : ClaudeMessage) : string :=
  let content :=
    match content msg with
    | Parts ps => partsText ps
    | Text s => s
    end in
  roleLabel (role msg) +:+ ": " +:+ content.

(** The loop of [formatMessagesWithinLimit], before the final reverse. *)
Fixpoint withinLimitLoop (maxLength : Z) (pending : list ClaudeMessage)
    (formattedMessages : list string) (totalLength : Z) : list string :=
  match pending with
  | [] => formattedMessages
  | msg :: older =>
      let formattedMsg := formatMessage msg in
      if totalLength + JS.length formattedMsg >? maxLength
      then formattedMessages
      else withinLimitLoop maxLength older (formattedMessages ++ [formattedMsg])
                           (totalLength + JS.length formattedMsg)
  end.

Definition formatMessagesWithinLimit (history : list ClaudeMessage)
    (maxLength : Z) : list string :=
  reverse (withinLimitLoop maxLength (reverse history) [] 0).

Definition isValidContentPart (c : ClaudeContentPart) : bool :=
  bool_decide (is_Some (part_type c)) && bool_decide (is_Some (part_text c)).

Definition isValidClaudeMessage (msg : ClaudeMessage) : bool :=
  (String.eqb (role msg) "user" || String.eqb (role msg) "assistant")
  && match content msg with
     | Text _ => true
     | Parts ps => forallb isValidContentPart ps
     end.

(** [validateHistory]: [history.some(msg => !isValidClaudeMessage(msg))]. *)
Definition validateHistory (history : list ClaudeMessage)
    : ConversationError + unit :=
  if existsb (fun msg => negb (isValidClaudeMessage msg)) history
  then inl (Throw "Invalid message format in history")
  else inr tt.

Definition formatHistoryForModel (history : list ClaudeMessage)
    (isDeepSeek : bool) : ConversationError + string :=
  match validateHistory history with
  | inl e => inl e
  | inr _ =>
      let maxLength :=
        if isDeepSeek then DEEPSEEK_MAX_LENGTH else CLAUDE_MAX_LENGTH in
      let formattedMessages := formatMessagesWithinLimit history maxLength in
      inr (JS.join blankLine formattedMessages)
  end.

End ConversationManager.

(** ** [TaskManager]: the task registry *)

(** [Partial<TaskInfo>]: every property may be left out ([None]); an
    optional property that is given may itself be [undefined]. *)
Module PartialTaskInfo.
Record t := mk {
  status : option TaskStatus;
  prompt : option string;
  showReasoning : option (option bool);
  reasoning : option (option string);
  response : option (option string);
  error : option (option string);
  timestamp : option Z
}.

(** The empty object [{}]. *)
Definition empty : t := mk None None None None None None None.
End PartialTaskInfo.

(** The object spread [{ ...task, ...updates }]. *)
Definition spread (task : TaskInfo.t) (updates : PartialTaskInfo.t) : TaskInfo.t :=
  TaskInfo.mk
    (default (TaskInfo.status task) (PartialTaskInfo.status updates))
    (default (TaskInfo.prompt task) (PartialTaskInfo.prompt updates))
    (default (TaskInfo.showReasoning task) (PartialTaskInfo.showReasoning updates))
    (default (TaskInfo.reasoning task) (PartialTaskInfo.reasoning updates))
    (default (TaskInfo.response task) (PartialTaskInfo.response updates))
    (default (TaskInfo.error task) (PartialTaskInfo.error updates))
    (default (TaskInfo.timestamp task) (PartialTaskInfo.timestamp updates)).

Definition withStatus (s : TaskStatus) (task : TaskInfo.t) : TaskInfo.t :=
  TaskInfo.mk s (TaskInfo.prompt task) (TaskInfo.showReasoning task)
    (TaskInfo.reasoning task) (TaskInfo.response task) (TaskInfo.error task)
    (TaskInfo.timestamp task).

Definition withReasoning (r : option string) (task : TaskInfo.t) : TaskInfo.t :=
  TaskInfo.mk (TaskInfo.status task) (TaskInfo.prompt task)
    (TaskInfo.showReasoning task) r (TaskInfo.response task)
    (TaskInfo.error task) (TaskInfo.timestamp task).

Definition withResponse (r : option string) (task : TaskInfo.t) : TaskInfo.t :=
  TaskInfo.mk (TaskInfo.status task) (TaskInfo.prompt task)
    (TaskInfo.showReasoning task) (TaskInfo.reasoning task) r
    (TaskInfo.error task) (TaskInfo.timestamp task).

Definition withError (e : option string) (task : TaskInfo.t) : TaskInfo.t :=
  TaskInfo.mk (TaskInfo.status task) (TaskInfo.prompt task)
    (TaskInfo.showReasoning task) (TaskInfo.reasoning task)
    (TaskInfo.response task) e (TaskInfo.timestamp task).

Definition withTimestamp (ts : Z) (task : TaskInfo.t) : TaskInfo.t :=
  TaskInfo.mk (TaskInfo.status task) (TaskInfo.prompt task)
    (TaskInfo.showReasoning task) (TaskInfo.reasoning task)
    (TaskInfo.response task) (TaskInfo.error task) ts.

(** [['complete', 'error'].includes(status)]. *)
Definition isTerminal (status : TaskStatus) : bool :=
  match status with
  | Complete | Error => true
  | _ => false
  end.

(** What a task map looks like while a caller waits for a change: its
    contents at each firing of the [setInterval] callback that precedes the
    [setTimeout] callback, and its contents when the timeout fires. *)
Record Future := {
  ticks : list (gmap string TaskInfo.t);
  atTimeout : gmap string TaskInfo.t
}.

(** Whether a status call returned before building the polling promise or
    after awaiting it. *)
Inductive Path := Immediate | Polled.

Module TaskManager.

(** [class TaskError extends Error]. *)
Record TaskError := Throw { message : string }.

(** How the promise built by [waitForTaskUpdate] settles. *)
Inductive Settled :=
| Rejected (e : TaskError)
| Resolved (tasks : gmap string TaskInfo.t).

Definition POLL_INTERVAL : Z := 100.

Definition validateTaskId (taskId : string) : TaskError + unit :=
  if JS.truthy taskId then inr tt else inl (Throw "Invalid task ID").

(** [Number.isFinite] holds of every [Z]. *)
Definition validateTimeout (timeout : Z) : TaskError + unit :=
  if timeout <=? 0 then inl (Throw "Timeout must be a positive number")
  else inr tt.

Definition isTaskComplete (status : TaskStatus) : bool := isTerminal status.

(** [createTask]: [uuid] is the value [uuidv4()] returns and [now] the
    value [Date.now()] returns during the call. *)
Definition createTask (tasks : gmap string TaskInfo.t) (prompt : string)
    (showReasoning : option bool) (uuid : string) (now : Z)
    : TaskError + (string * gmap string TaskInfo.t) :=
  if negb (JS.truthy (JS.trim prompt))
  then inl (Throw "Prompt cannot be empty")
  else
    let taskId := uuid in
    inr (taskId,
         <[taskId := TaskInfo.mk Pending prompt showReasoning None None None now]>
           tasks).

Definition getTask (tasks : gmap string TaskInfo.t) (taskId : string)
    : TaskError + option TaskInfo.t :=
  match validateTaskId taskId with
  | inl e => inl e
  | inr _ => inr (tasks !! taskId)
  end.

Definition updateTask (tasks : gmap string TaskInfo.t) (taskId : string)
    (updates : PartialTaskInfo.t) (now : Z)
    : TaskError + gmap string TaskInfo.t :=
  match validateTaskId taskId with
  | inl e => inl e
  | inr _ =>
      match tasks !! taskId with
      | None => inl (Throw ("Task " +:+ taskId +:+ " not found"))
      | Some task =>
          inr (<[taskId := withTimestamp now (spread task updates)]> tasks)
      end
  end.

Definition setTaskStatus (tasks : gmap string TaskInfo.t) (taskId : string)
    (status : TaskStatus) (additionalInfo : PartialTaskInfo.t) (now : Z)
    : TaskError + gmap string TaskInfo.t :=
  match validateTaskId taskId with
  | inl e => inl e
  | inr _ =>
      match tasks !! taskId with
      | None => inl (Throw ("Task " +:+ taskId +:+ " not found"))
      | Some task =>
          inr (<[taskId :=
                   withTimestamp now (withStatus status (spread task additionalInfo))]>
                 tasks)
      end
  end.

(** The [setInterval] callback, fired once per element of [ticks]. *)
Fixpoint poll (taskId : string) (initialStatus : TaskStatus)
    (ticks : list (gmap string TaskInfo.t))
    (atTimeout : gmap string TaskInfo.t) : Settled :=
  match ticks with
  | [] => Resolved atTimeout
  | tasks :: later =>
      match tasks !! taskId with
      | None => Rejected (Throw ("Task " +:+ taskId +:+ " no longer exists"))
      | Some currentTask =>
          if bool_decide (TaskInfo.status currentTask ≠ initialStatus)
             || isTaskComplete (TaskInfo.status currentTask)
          then Resolved tasks
          else poll taskId initialStatus later atTimeout
      end
  end.

Definition waitForTaskUpdate (tasks : gmap string TaskInfo.t)
    (taskId : string) (timeout : Z) (future : Future)
    : Path * (TaskError + TaskInfo.t) :=
  match validateTaskId taskId with
  | inl e => (Immediate, inl e)
  | inr _ =>
  match validateTimeout timeout with
  | inl e => (Immediate, inl e)
  | inr _ =>
  match tasks !! taskId with
  | None => (Immediate, inl (Throw ("Task " +:+ taskId +:+ " not found")))
  | Some task =>
      if isTaskComplete (TaskInfo.status task) then (Immediate, inr task)
      else
        let initialStatus := TaskInfo.status task in
        match poll taskId initialStatus (ticks future) (atTimeout future) with
        | Rejected e => (Polled, inl e)
        | Resolved tasks' =>
            match tasks' !! taskId with
            | None =>
                (Polled, inl (Throw ("Task " +:+ taskId +:+ " no longer exists")))
            | Some finalTask => (Polled, inr finalTask)
            end
        end
  end end end.

(** The default argument [timeout = 10000]. *)
Definition DEFAULT_TIMEOUT : Z := 10000.

End TaskManager.

(** ** The remote completion service and the history source *)

(** A thrown value or a promise's rejection reason: an [Error] object with
    its [message]; a value that is not an [Error] and is neither [null]
    nor [undefined] (a string, a number, a plain object), with what
    reading its [message] property gives, [undefined] or a string;
    [null]; [undefined]. *)
Inductive Fault :=
| ErrorObject (message : string)
| NonError (message : option string)
| NullThrown
| UndefinedThrown.

(** The part of a chat completion the servers read.  Every level may be
    missing in the JSON the service returns. *)
Module Completion.
Record Message := {
  reasoning : option string;
  content : option string
}.
Record Choice := { message : option Message }.
Record t := { choices : option (list Choice) }.
End Completion.

(** One element of the [messages] array of a completion request. *)
Record ChatMessage := {
  chat_role : string;
  chat_content : string
}.

(** What lies outside the process during one task run: the history file
    reader ([findActiveConversation] catches every fault and returns
    [null]), the two model endpoints as functions of the request they
    receive, and the milliseconds that pass while each is awaited.  Every
    awaited call settles: a request that is never answered, which would
    leave the task in the status it had when the request left, is outside
    what a [World] describes. *)
Record World := {
  findActiveConversation : option (list ClaudeMessage);
  deepseek : list ChatMessage -> Fault + Completion.t;
  claude : list ChatMessage -> Fault + Completion.t;
  historyLatency : Z;
  deepseekLatency : Z;
  claudeLatency : Z
}.

(** ** [class DeepseekClaudeServer]: the text common to both servers *)

(** Observable effects of the server on its two stores, each with the
    clock reading at which it happens. *)
Inductive Event :=
| TaskWritten (time : Z) (taskId : string) (record : TaskInfo.t)
| ContextCleared (time : Z)
| ContextAppended (time : Z) (entry : ConversationEntry.t)
| CompletionRequested (time : Z) (model : string) (messages : list ChatMessage)
    (answer : Fault + Completion.t)
| UnhandledRejection (time : Z) (reason : Fault).

(** [error instanceof Error ? error.message : 'Unknown error']. *)
Definition faultText (error : Fault) : string :=
  match error with
  | ErrorObject message => message
  | _ => "Unknown error"
  end.

(** [error.message]: reading a property of [null] or [undefined] throws a
    [TypeError] (the message is the one of V8). *)
Definition errorMessage (error : Fault) : Fault + option string :=
  match error with
  | ErrorObject message => inr (Some message)
  | NonError message => inr message
  | NullThrown =>
      inl (ErrorObject "Cannot read properties of null (reading 'message')")
  | UndefinedThrown =>
      inl (ErrorObject "Cannot read properties of undefined (reading 'message')")
  end.

Module DeepseekClaudeServer.

Definition DEEPSEEK_MODEL : string := "deepseek/deepseek-r1".
Definition CLAUDE_MODEL : string := "anthropic/claude-3.5-sonnet:beta".

(** The mutable fields of the class, the clock that [Date.now()] reads
    and the journal of effects so far (oldest first). *)
Record t := mk {
  context : ConversationContext;
  activeTasks : gmap string TaskInfo.t;
  clock : Z;
  journal : list Event
}.

(** The freshly constructed server. *)
Definition new (clock : Z) : t :=
  mk {| entries := []; maxEntries := 10 |} ∅ clock [].

(** Computations over the server state that may throw. *)
Definition M (A : Type) : Type := t -> (Fault + A) * t.

Definition ret {A} (x : A) : M A := fun s => (inr x, s).

Definition bind {A B} (m : M A) (k : A -> M B) : M B :=
  fun s =>
    match m s with
    | (inl e, s') => (inl e, s')
    | (inr x, s') => k x s'
    end.

Definition throw {A} (e : Fault) : M A := fun s => (inl e, s).

(** [try { body } catch (error) { handler }]. *)
Definition tryCatch {A} (body : M A) (handler : Fault -> M A) : M A :=
  fun s =>
    match body s with
    | (inl e, s') => handler e s'
    | (inr x, s') => (inr x, s')
    end.

Declare Scope server_scope.
Delimit Scope server_scope with server.
Notation "x <- m ;; k" := (bind m (fun x => k))
  (at level 100, m at next level, right associativity) : server_scope.
Notation "m ;;; k" := (bind m (fun _ => k))
  (at level 100, right associativity) : server_scope.
Local Open Scope server_scope.

(** [Date.now()].  The clock of the model is advanced by the awaited
    calls only: two reads with no [await] between them give the same
    value, where the real clock may have moved on by then. *)
Definition dateNow : M Z := fun s => (inr (clock s), s).

Definition getContext : M ConversationContext := fun s => (inr (context s), s).

Definition getActiveTasks : M (gmap string TaskInfo.t) :=
  fun s => (inr (activeTasks s), s).

(** [await] of a promise that settles after [ms] milliseconds. *)
Definition await {A} (ms : Z) (settled : Fault + A) : M A :=
  fun s => (settled, mk (context s) (activeTasks s) (clock s + ms) (journal s)).

(** [await this.openrouterClient.chat.completions.create({ model,
    messages, ... })]: the request leaves at the current clock reading
    and is answered [latency] milliseconds later. *)
Definition createCompletion (model : string) (messages : list ChatMessage)
    (endpoint : list ChatMessage -> Fault + Completion.t) (latency : Z)
    : M Completion.t :=
  fun s =>
    (endpoint messages,
     mk (context s) (activeTasks s) (clock s + latency)
        (journal s ++ [CompletionRequested (clock s) model messages
                         (endpoint messages)])).

(** A promise nobody awaits is rejected with [reason]: the rejection is
    recorded.  What the runtime then does with it (Node reports it, and
    by default ends the process from version 15 on) is outside the
    model. *)
Definition unhandledRejection (reason : Fault) : M unit :=
  fun s =>
    (inr tt,
     mk (context s) (activeTasks s) (clock s)
        (journal s ++ [UnhandledRejection (clock s) reason])).

(** [this.activeTasks.set(taskId, record)]. *)
Definition setTask (taskId : string) (record : TaskInfo.t) : M unit :=
  fun s =>
    (inr tt,
     mk (context s) (<[taskId := record]> (activeTasks s)) (clock s)
        (journal s ++ [TaskWritten (clock s) taskId record])).

(** [this.context.entries = []]. *)
Definition clearEntries : M unit :=
  fun s =>
    (inr tt,
     mk {| entries := []; maxEntries := maxEntries (context s) |}
        (activeTasks s) (clock s) (journal s ++ [ContextCleared (clock s)])).

(** [addToContext]: push, then shift when the capacity is exceeded. *)
Definition addToContext (entry : ConversationEntry.t) : M unit :=
  fun s =>
    let pushed := entries (context s) ++ [entry] in
    let kept :=
      if Z.of_nat (length pushed) >? maxEntries (context s)
      then tail pushed else pushed in
    (inr tt,
     mk {| entries := kept; maxEntries := maxEntries (context s) |}
        (activeTasks s) (clock s)
        (journal s ++ [ContextAppended (clock s) entry])).

Definition formatContextForPrompt (ctx : ConversationContext) : string :=
  JS.join blankLine
    (map (fun entry =>
            "Question: " +:+ ConversationEntry.prompt entry +:+ JS.LF +:+
            "Reasoning: " +:+ ConversationEntry.reasoning entry +:+ JS.LF +:+
            "Answer: " +:+ ConversationEntry.response entry)
         (entries ctx)).

(** [responseData.choices?.[0]?.message?.reasoning]. *)
Definition firstReasoning (responseData : Completion.t) : option string :=
  match Completion.choices responseData with
  | None => None
  | Some cs =>
      match cs !! 0%nat with
      | None => None
      | Some c =>
          match Completion.message c with
          | None => None
          | Some m => Completion.reasoning m
          end
      end
  end.

(** [response.choices[0].message.content]: reading a property of
    [undefined] throws a [TypeError] (the message is the one of V8). *)
Definition firstContent (response : Completion.t) : Fault + option string :=
  match Completion.choices response with
  | None => inl (ErrorObject "Cannot read properties of undefined (reading '0')")
  | Some cs =>
      match cs !! 0%nat with
      | None =>
          inl (ErrorObject "Cannot read properties of undefined (reading 'message')")
      | Some c =>
          match Completion.message c with
          | None =>
              inl (ErrorObject "Cannot read properties of undefined (reading 'content')")
          | Some m => inr (Completion.content m)
          end
      end
  end.

Section Run.

(** The module-level function [formatHistoryForModel] of the file the
    class lives in, and the world of this run. *)
Variable formatHistoryForModel : list ClaudeMessage -> bool -> string.
Variable world : World.

Definition getDeepseekReasoning (prompt : string) : M string :=
  ctx <- getContext ;;
  let contextPrompt :=
    if Z.of_nat (length (entries ctx)) >? 0
    then "Previous conversation:" +:+ JS.LF +:+ formatContextForPrompt ctx
         +:+ blankLine +:+ "New question: " +:+ prompt
    else prompt in
  tryCatch
    (response <- createCompletion DEEPSEEK_MODEL
                   [{| chat_role := "user"; chat_content := contextPrompt |}]
                   (deepseek world) (deepseekLatency world) ;;
     match firstReasoning response with
     | None => throw (ErrorObject "No reasoning received from DeepSeek")
     | Some r =>
         if JS.truthy r then ret r
         else throw (ErrorObject "No reasoning received from DeepSeek")
     end)
    (fun error => throw error).

Definition getFinalResponse (prompt reasoning : string) : M string :=
  tryCatch
    (let messages :=
       [ {| chat_role := "user"; chat_content := prompt |};
         {| chat_role := "assistant";
            chat_content := "<thinking>" +:+ reasoning +:+ "</thinking>" |} ] in
     ctx <- getContext ;;
     let messages :=
       if Z.of_nat (length (entries ctx)) >? 0
       then
         let contextMessages :=
           flat_map (fun entry =>
                       [ {| chat_role := "user";
                            chat_content := ConversationEntry.prompt entry |};
                         {| chat_role := "assistant";
                            chat_content := ConversationEntry.response entry |} ])
                    (entries ctx) in
         contextMessages ++ messages
       else messages in
     response <- createCompletion CLAUDE_MODEL messages
                   (claude world) (claudeLatency world) ;;
     match firstContent response with
     | inl typeError => throw typeError
     | inr (Some text) =>
         if JS.truthy text then ret text else ret "Error: No response content"
     | inr None => ret "Error: No response content"
     end)
    (fun error => throw error).

Definition processTask (taskId : string) (clearContext includeHistory : option bool)
    : M unit :=
  tasks <- getActiveTasks ;;
  match tasks !! taskId with
  | None => throw (ErrorObject ("No task found with ID: " +:+ taskId))
  | Some task =>
      tryCatch
        ((if default false clearContext then clearEntries else ret tt) ;;;
         setTask taskId (withStatus Reasoning task) ;;;
         history <-
           (if bool_decide (includeHistory ≠ Some false)
            then await (historyLatency world) (inr (findActiveConversation world))
            else ret None) ;;
         let reasoningHistory :=
           match history with
           | Some h => formatHistoryForModel h true
           | None => EmptyString
           end in
         let reasoningPrompt :=
           if JS.truthy reasoningHistory
           then reasoningHistory +:+ blankLine +:+ "New question: "
                +:+ TaskInfo.prompt task
           else TaskInfo.prompt task in
         reasoning <- getDeepseekReasoning reasoningPrompt ;;
         setTask taskId (withReasoning (Some reasoning) (withStatus Responding task)) ;;;
         let responseHistory :=
           match history with
           | Some h => formatHistoryForModel h false
           | None => EmptyString
           end in
         let fullPrompt :=
           if JS.truthy responseHistory
           then responseHistory +:+ blankLine +:+ "Current task: "
                +:+ TaskInfo.prompt task
           else TaskInfo.prompt task in
         response <- getFinalResponse fullPrompt reasoning ;;
         created <- dateNow ;;
         addToContext
           (ConversationEntry.mk created (TaskInfo.prompt task) reasoning response
              CLAUDE_MODEL) ;;;
         completed <- dateNow ;;
         setTask taskId
           (withTimestamp completed
              (withResponse (Some response)
                 (withReasoning (Some reasoning) (withStatus Complete task)))))
        (fun error =>
           failed <- dateNow ;;
           setTask taskId
             (withTimestamp failed
                (withError (Some (faultText error)) (withStatus Error task))) ;;;
           throw error)
  end.

End Run.

End DeepseekClaudeServer.

(** ** Tool arguments and results *)

(** A property of the [arguments] object of a tool call, as far as the
    [typeof] guards of the raw-protocol server tell values apart. *)
Inductive ArgValue :=
| Undefined
| StringValue (s : string)
| BooleanValue (b : bool)
| OtherValue.

(** The [arguments] object of a tool call before any validation. *)
Module ToolArguments.
Record t := {
  prompt : ArgValue;
  showReasoning : ArgValue;
  clearContext : ArgValue;
  includeHistory : ArgValue;
  taskId : ArgValue
}.
End ToolArguments.

(** [GenerateResponseArgs], the validated form. *)
Module GenerateResponseArgs.
Record t := {
  prompt : string;
  showReasoning : option bool;
  clearContext : option bool;
  includeHistory : option bool
}.
End GenerateResponseArgs.

(** The object that answers [check_response_status]; a property whose
    value is [undefined] is dropped when the object is sent as JSON. *)
Module StatusReport.
Record t := {
  status : TaskStatus;
  reasoning : option string;
  response : option string;
  error : option string
}.
End StatusReport.

Inductive ErrorCode := InvalidParams | InvalidRequest | MethodNotFound.

(** [new McpError(code, message)]. *)
Record McpError := { code : ErrorCode; mcp_message : string }.

Inductive ToolResult :=
| TaskIdResult (taskId : string)
| StatusResult (report : StatusReport.t).

(** ** The raw-protocol server ([index.ts]) *)

Module Index.

Import DeepseekClaudeServer.
Local Open Scope server_scope.

(** Body of the [for (let i = history.length - 1; i >= 0; i--)] loop.
    [pending] lists [history[i], history[i-1], ...]; [break] returns
    the array built so far. *)
Fixpoint formatLoop (maxLength : Z) (pending : list ClaudeMessage)
    (formattedMessages : list string) (totalLength : Z) : list string :=
  match pending with
  | [] => formattedMessages
  | msg :: older =>
      let content := contentText (content msg) in
      let formattedMsg := roleLabel (role msg) +:+ ": " +:+ content in
      let msgLength := JS.length formattedMsg in
      if totalLength + msgLength >? maxLength then formattedMessages
      else formatLoop maxLength older (formattedMessages ++ [formattedMsg])
                      (totalLength + msgLength)
  end.

Definition formatHistoryForModel (history : list ClaudeMessage)
    (isDeepSeek : bool) : string :=
  let maxLength := if isDeepSeek then 50000 else 600000 in
  let formattedMessages := formatLoop maxLength (reverse history) [] 0 in
  JS.join blankLine (reverse formattedMessages).

Definition processTask (world : World) :=
  DeepseekClaudeServer.processTask formatHistoryForModel world.

Definition optionalBoolean (v : ArgValue) : bool :=
  match v with
  | Undefined | BooleanValue _ => true
  | _ => false
  end.

(** [isValidGenerateResponseArgs]; [None] is an [arguments] value that
    is [null] or not an object. *)
Definition isValidGenerateResponseArgs (args : option ToolArguments.t) : bool :=
  match args with
  | None => false
  | Some a =>
      match ToolArguments.prompt a with StringValue _ => true | _ => false end
      && optionalBoolean (ToolArguments.showReasoning a)
      && optionalBoolean (ToolArguments.clearContext a)
      && optionalBoolean (ToolArguments.includeHistory a)
  end.

Definition isValidCheckResponseStatusArgs (args : option ToolArguments.t) : bool :=
  match args with
  | None => false
  | Some a => match ToolArguments.taskId a with StringValue _ => true | _ => false end
  end.

Definition asString (v : ArgValue) : string :=
  match v with StringValue s => s | _ => EmptyString end.

Definition asBoolean (v : ArgValue) : option bool :=
  match v with BooleanValue b => Some b | _ => None end.

(** The status object built by the [check_response_status] branch. *)
Definition statusReport (task : TaskInfo.t) : StatusReport.t :=
  {| StatusReport.status := TaskInfo.status task;
     StatusReport.reasoning :=
       if default false (TaskInfo.showReasoning task)
       then TaskInfo.reasoning task else None;
     StatusReport.response :=
       if bool_decide (TaskInfo.status task = Complete)
       then TaskInfo.response task else None;
     StatusReport.error := TaskInfo.error task |}.

(** The background promise [this.processTask(...).catch(error => ...)],
    which nobody awaits.  The record read back by the callback is the one
    the request handler or [processTask] stored under [taskId].  When
    [error] is [null] or [undefined] the callback throws at
    [error.message], before the call of [set]: nothing is stored and the
    promise returned by [catch] is rejected. *)
Definition background (world : World) (taskId : string)
    (clearContext includeHistory : option bool) : M unit :=
  tryCatch
    (tryCatch (processTask world taskId clearContext includeHistory)
       (fun error =>
          tasks <- getActiveTasks ;;
          match tasks !! taskId with
          | Some current =>
              match errorMessage error with
              | inr message =>
                  setTask taskId (withError message (withStatus Error current))
              | inl typeError => throw typeError
              end
          | None => ret tt
          end))
    unhandledRejection.

(** The [CallToolRequestSchema] handler.  [uuid] is the value of
    [uuidv4()].  The request is answered as soon as the task is
    registered; the background promise is run to its end here. *)
Definition callTool (world : World) (name : string)
    (arguments : option ToolArguments.t) (uuid : string)
    : M (McpError + ToolResult) :=
  if String.eqb name "generate_response" then
    if negb (isValidGenerateResponseArgs arguments)
    then ret (inl {| code := InvalidParams;
                     mcp_message := "Invalid generate_response arguments" |})
    else
      match arguments with
      | None => ret (inl {| code := InvalidParams;
                            mcp_message := "Invalid generate_response arguments" |})
      | Some a =>
          let taskId := uuid in
          let prompt := asString (ToolArguments.prompt a) in
          let showReasoning := asBoolean (ToolArguments.showReasoning a) in
          let clearContext := asBoolean (ToolArguments.clearContext a) in
          let includeHistory := asBoolean (ToolArguments.includeHistory a) in
          created <- dateNow ;;
          setTask taskId
            (TaskInfo.mk Pending prompt showReasoning None None None created) ;;;
          background world taskId clearContext includeHistory ;;;
          ret (inr (TaskIdResult taskId))
      end
  else if String.eqb name "check_response_status" then
    if negb (isValidCheckResponseStatusArgs arguments)
    then ret (inl {| code := InvalidParams;
                     mcp_message := "Invalid check_response_status arguments" |})
    else
      let taskId := asString (default Undefined (ToolArguments.taskId <$> arguments)) in
      tasks <- getActiveTasks ;;
      match tasks !! taskId with
      | None => ret (inl {| code := InvalidRequest;
                            mcp_message := "No task found with ID: " +:+ taskId |})
      | Some task => ret (inr (StatusResult (statusReport task)))
      end
  else ret (inl {| code := MethodNotFound;
                   mcp_message := "Unknown tool: " +:+ name |}).

End Index.

(** ** The declarative-tool server *)

Module McpIndex.

Import DeepseekClaudeServer.
Local Open Scope server_scope.

Fixpoint formatLoop (maxLength : Z) (pending : list ClaudeMessage)
    (formattedMessages : list string) (totalLength : Z) : list string :=
  match pending with
  | [] => formattedMessages
  | msg :: older =>
      let content := contentText (content msg) in
      let formattedMsg := roleLabel (role msg) +:+ ": " +:+ content in
      let msgLength := JS.length formattedMsg in
      if totalLength + msgLength >? maxLength then formattedMessages
      else formatLoop maxLength older (formattedMessages ++ [formattedMsg])
                      (totalLength + msgLength)
  end.

Definition formatHistoryForModel (history : list ClaudeMessage)
    (isDeepSeek : bool) : string :=
  let maxLength := if isDeepSeek then 50000 else 600000 in
  let formattedMessages := formatLoop maxLength (reverse history) [] 0 in
  JS.join blankLine (reverse formattedMessages).

Definition processTask (world : World) :=
  DeepseekClaudeServer.processTask formatHistoryForModel world.

(** [handleGenerateResponse]; the arguments were parsed by the schema
    [generateResponseSchema], whose [z.string()] accepts every string. *)
Definition handleGenerateResponse (world : World)
    (args : GenerateResponseArgs.t) (uuid : string) : M string :=
  let taskId := uuid in
  created <- dateNow ;;
  setTask taskId
    (TaskInfo.mk Pending (GenerateResponseArgs.prompt args)
       (GenerateResponseArgs.showReasoning args) None None None created) ;;;
  tryCatch
    (tryCatch
       (processTask world taskId (GenerateResponseArgs.clearContext args)
          (GenerateResponseArgs.includeHistory args))
       (fun error =>
          tasks <- getActiveTasks ;;
          match tasks !! taskId with
          | Some current =>
              match errorMessage error with
              | inr message =>
                  setTask taskId (withError message (withStatus Error current))
              | inl typeError => throw typeError
              end
          | None => ret tt
          end))
    unhandledRejection ;;;
  ret taskId.

Definition statusReport (task : TaskInfo.t) : StatusReport.t :=
  {| StatusReport.status := TaskInfo.status task;
     StatusReport.reasoning :=
       if default false (TaskInfo.showReasoning task)
       then TaskInfo.reasoning task else None;
     StatusReport.response :=
       if bool_decide (TaskInfo.status task = Complete)
       then TaskInfo.response task else None;
     StatusReport.error := TaskInfo.error task |}.

(** How the promise built by [handleCheckResponseStatus] settles. *)
Inductive Settled :=
| Rejected (e : Fault)
| Resolved (tasks : gmap string TaskInfo.t).

(** The [setInterval] callback, fired once per element of [ticks]. *)
Fixpoint poll (taskId : string) (initialStatus : TaskStatus)
    (ticks : list (gmap string TaskInfo.t))
    (atTimeout : gmap string TaskInfo.t) : Settled :=
  match ticks with
  | [] => Resolved atTimeout
  | tasks :: later =>
      match tasks !! taskId with
      | None => Rejected (ErrorObject ("Task " +:+ taskId +:+ " no longer exists"))
      | Some currentTask =>
          if bool_decide (TaskInfo.status currentTask ≠ initialStatus)
             || bool_decide (TaskInfo.status currentTask = Complete)
             || bool_decide (TaskInfo.status currentTask = Error)
          then Resolved tasks
          else poll taskId initialStatus later atTimeout
      end
  end.

Definition POLL_DELAY_MS : Z := 10000.

(** [handleCheckResponseStatus] on the task map [activeTasks]. *)
Definition handleCheckResponseStatus (activeTasks : gmap string TaskInfo.t)
    (taskId : string) (future : Future) : Path * (Fault + StatusReport.t) :=
  match activeTasks !! taskId with
  | None => (Immediate, inl (ErrorObject ("No task found with ID: " +:+ taskId)))
  | Some task =>
      if isTerminal (TaskInfo.status task)
      then (Immediate, inr (statusReport task))
      else
        let initialStatus := TaskInfo.status task in
        match poll taskId initialStatus (ticks future) (atTimeout future) with
        | Rejected e => (Polled, inl e)
        | Resolved tasks' =>
            match tasks' !! taskId with
            | None =>
                (Polled, inl (ErrorObject ("Task " +:+ taskId +:+ " no longer exists")))
            | Some finalTask => (Polled, inr (statusReport finalTask))
            end
        end
  end.

End McpIndex.

(** ** Reading the journal *)

(** Number of [addToContext] calls recorded in a journal. *)
Fixpoint appendCount (j : list Event) : nat :=
  match j with
  | [] => 0%nat
  | ContextAppended _ _ :: later => S (appendCount later)
  | _ :: later => appendCount later
  end.

(** The records stored under [taskId], oldest first, each with the clock
    reading of the write. *)
Fixpoint taskWrites (taskId : string) (j : list Event) : list (Z * TaskInfo.t) :=
  match j with
  | [] => []
  | TaskWritten time id record :: later =>
      if String.eqb id taskId then (time, record) :: taskWrites taskId later
      else taskWrites taskId later
  | _ :: later => taskWrites taskId later
  end.

(** The statuses stored under [taskId], oldest first. *)
Definition statusWrites (taskId : string) (j : list Event) : list TaskStatus :=
  map (fun w => TaskInfo.status (snd w)) (taskWrites taskId j).

(** Sum of the [length]s of an array of strings. *)
Definition totalLength (parts : list string) : Z :=
  foldr (fun s acc => JS.length s + acc) 0 parts.

(** A run of [addToContext] calls on a server. *)
Fixpoint addAllToContext (es : list ConversationEntry.t) : DeepseekClaudeServer.M unit :=
  match es with
  | [] => DeepseekClaudeServer.ret tt
  | e :: later =>
      DeepseekClaudeServer.bind (DeepseekClaudeServer.addToContext e)
        (fun _ => addAllToContext later)
  end.

(** What the reasoning stage makes of the endpoint's answer: the text under
    [choices[0].message.reasoning] when it is there and not empty, a fault
    otherwise. *)
Definition reasoningOf (answer : Fault + Completion.t) : Fault + string :=
  match answer with
  | inl fault => inl fault
  | inr completion =>
      match DeepseekClaudeServer.firstReasoning completion with
      | Some (String c rest) => inr (String c rest)
      | _ => inl (ErrorObject "No reasoning received from DeepSeek")
      end
  end.

(** What the response stage makes of the endpoint's answer: the text under
    [choices[0].message.content], the placeholder when that text is empty
    or missing, a fault when the path to it does not exist. *)
Definition responseOf (answer : Fault + Completion.t) : Fault + string :=
  match answer with
  | inl fault => inl fault
  | inr completion =>
      match DeepseekClaudeServer.firstContent completion with
      | inl typeError => inl typeError
      | inr (Some (String c rest)) => inr (String c rest)
      | inr _ => inr "Error: No response content"
      end
  end.

(** The record [processTask] stores when it catches [error] at clock
    reading [time]. *)
Definition failedRecord (task : TaskInfo.t) (error : Fault) (time : Z) : TaskInfo.t :=
  withTimestamp time (withError (Some (faultText error)) (withStatus Error task)).

(** The record stored once reasoning is available. *)
Definition respondingRecord (task : TaskInfo.t) (reasoning : string) : TaskInfo.t :=
  withReasoning (Some reasoning) (withStatus Responding task).

(** The record stored at the end of a successful run. *)
Definition completeRecord (task : TaskInfo.t) (reasoning response : string)
    (time : Z) : TaskInfo.t :=
  withTimestamp time
    (withResponse (Some response)
       (withReasoning (Some reasoning) (withStatus Complete task))).

(** The three ways a run of [processTask] on a registered task can go,
    with the journal it leaves behind.  [t0] is the clock reading when the
    reasoning request leaves, [t1] when its answer arrives, [t2] when the
    response request is answered. *)
Inductive ProcessTaskRun (world : World) (taskId : string) (task : TaskInfo.t)
    (clearContext : option bool) (srv : DeepseekClaudeServer.t)
    : Fault + unit -> DeepseekClaudeServer.t -> Prop :=
| ReasoningStageFailed (srv' : DeepseekClaudeServer.t)
    (msgs : list ChatMessage) (t0 t1 : Z) (error : Fault) :
    reasoningOf (deepseek world msgs) = inl error ->
    DeepseekClaudeServer.journal srv'
    = DeepseekClaudeServer.journal srv
      ++ (if default false clearContext
          then [ContextCleared (DeepseekClaudeServer.clock srv)] else [])
      ++ [ TaskWritten (DeepseekClaudeServer.clock srv) taskId
             (withStatus Reasoning task);
           CompletionRequested t0 DeepseekClaudeServer.DEEPSEEK_MODEL msgs
             (deepseek world msgs);
           TaskWritten t1 taskId (failedRecord task error t1) ] ->
    DeepseekClaudeServer.clock srv' = t1 ->
    DeepseekClaudeServer.activeTasks srv' !! taskId
    = Some (failedRecord task error t1) ->
    ProcessTaskRun world taskId task clearContext srv (inl error) srv'
| ResponseStageFailed (srv' : DeepseekClaudeServer.t)
    (msgs msgs' : list ChatMessage) (t0 t1 t2 : Z) (reasoning : string)
    (error : Fault) :
    reasoningOf (deepseek world msgs) = inr reasoning ->
    responseOf (claude world msgs') = inl error ->
    DeepseekClaudeServer.journal srv'
    = DeepseekClaudeServer.journal srv
      ++ (if default false clearContext
          then [ContextCleared (DeepseekClaudeServer.clock srv)] else [])
      ++ [ TaskWritten (DeepseekClaudeServer.clock srv) taskId
             (withStatus Reasoning task);
           CompletionRequested t0 DeepseekClaudeServer.DEEPSEEK_MODEL msgs
             (deepseek world msgs);
           TaskWritten t1 taskId (respondingRecord task reasoning);
           CompletionRequested t1 DeepseekClaudeServer.CLAUDE_MODEL msgs'
             (claude world msgs');
           TaskWritten t2 taskId (failedRecord task error t2) ] ->
    DeepseekClaudeServer.clock srv' = t2 ->
    DeepseekClaudeServer.activeTasks srv' !! taskId
    = Some (failedRecord task error t2) ->
    ProcessTaskRun world taskId task clearContext srv (inl error) srv'
| Completed (srv' : DeepseekClaudeServer.t)
    (msgs msgs' : list ChatMessage) (t0 t1 t2 : Z) (reasoning response : string) :
    reasoningOf (deepseek world msgs) = inr reasoning ->
    responseOf (claude world msgs') = inr response ->
    DeepseekClaudeServer.journal srv'
    = DeepseekClaudeServer.journal srv
      ++ (if default false clearContext
          then [ContextCleared (DeepseekClaudeServer.clock srv)] else [])
      ++ [ TaskWritten (DeepseekClaudeServer.clock srv) taskId
             (withStatus Reasoning task);
           CompletionRequested t0 DeepseekClaudeServer.DEEPSEEK_MODEL msgs
             (deepseek world msgs);
           TaskWritten t1 taskId (respondingRecord task reasoning);
           CompletionRequested t1 DeepseekClaudeServer.CLAUDE_MODEL msgs'
             (claude world msgs');
           ContextAppended t2
             (ConversationEntry.mk t2 (TaskInfo.prompt task) reasoning response
                DeepseekClaudeServer.CLAUDE_MODEL);
           TaskWritten t2 taskId (completeRecord task reasoning response t2) ] ->
    DeepseekClaudeServer.clock srv' = t2 ->
    DeepseekClaudeServer.activeTasks srv' !! taskId
    = Some (completeRecord task reasoning response t2) ->
    ProcessTaskRun world taskId task clearContext srv (inr tt) srv'.

(** The answers to the completion requests sent to [model], oldest
    first. *)
Fixpoint answersFrom (model : string) (j : list Event) : list (Fault + Completion.t) :=
  match j with
  | [] => []
  | CompletionRequested _ requested _ answer :: later =>
      if String.eqb requested model then answer :: answersFrom model later
      else answersFrom model later
  | _ :: later => answersFrom model later
  end.

(** The events a computation added to the journal. *)
Definition eventsSince (before after : DeepseekClaudeServer.t) : list Event :=
  drop (length (DeepseekClaudeServer.journal before))
       (DeepseekClaudeServer.journal after).

(** The reasons of the rejections nobody handled, oldest first. *)
Fixpoint unhandled (j : list Event) : list Fault :=
  match j with
  | [] => []
  | UnhandledRejection _ reason :: later => reason :: unhandled later
  | _ :: later => unhandled later
  end.

(** How the [catch] callback of a handler leaves the task whose run threw
    [error] after the statuses [before] had been stored under [taskId];
    [events] are the events since the handler was called and [final] is
    the server afterwards.  Either the callback reads [error.message] and
    stores it with the status [error] once more, in the place of the text
    [processTask] had stored; or that read throws, nothing more is stored,
    the text of [processTask] stays and the rejection goes unhandled. *)
Definition HandlerCaught (taskId : string) (before : list TaskStatus)
    (error : Fault) (events : list Event) (final : DeepseekClaudeServer.t) : Prop :=
  (TaskInfo.status <$> DeepseekClaudeServer.activeTasks final !! taskId) = Some Error
  /\ match errorMessage error with
     | inr message =>
         statusWrites taskId events = before ++ [Error; Error]
         /\ (TaskInfo.error <$> DeepseekClaudeServer.activeTasks final !! taskId)
            = Some message
         /\ unhandled events = []
     | inl typeError =>
         statusWrites taskId events = before ++ [Error]
         /\ (TaskInfo.error <$> DeepseekClaudeServer.activeTasks final !! taskId)
            = Some (Some (faultText error))
         /\ unhandled events = [typeError]
     end.

(** A run started by a handler, from the registration of the record
    [pending] under [taskId] on the server [before] to the end of the
    [catch] callback, which leaves the server [after]: every record stored
    under the id carries the prompt and the flag of [pending], the record
    left has the last status stored, one request went to the reasoning
    model and, if it gave a reasoning, one to the response model; the
    answers decide the statuses stored, the appends and how a fault is
    left behind. *)
Definition StartedRun (world : World) (taskId : string) (pending : TaskInfo.t)
    (before after : DeepseekClaudeServer.t) : Prop :=
  let events := eventsSince before after in
  Forall (fun w => TaskInfo.showReasoning (snd w) = TaskInfo.showReasoning pending
                   /\ TaskInfo.prompt (snd w) = TaskInfo.prompt pending)
    (taskWrites taskId events)
  /\ (exists record : TaskInfo.t,
        DeepseekClaudeServer.activeTasks after !! taskId = Some record
        /\ TaskInfo.showReasoning record = TaskInfo.showReasoning pending
        /\ TaskInfo.prompt record = TaskInfo.prompt pending
        /\ last (statusWrites taskId events) = Some (TaskInfo.status record))
  /\ exists msgs : list ChatMessage,
       answersFrom DeepseekClaudeServer.DEEPSEEK_MODEL events = [deepseek world msgs]
       /\ match reasoningOf (deepseek world msgs) with
          | inl error =>
              answersFrom DeepseekClaudeServer.CLAUDE_MODEL events = []
              /\ appendCount events = 0%nat
              /\ HandlerCaught taskId [Pending; Reasoning] error events after
          | inr reasoning =>
              exists msgs' : list ChatMessage,
                answersFrom DeepseekClaudeServer.CLAUDE_MODEL events
                = [claude world msgs']
                /\ match responseOf (claude world msgs') with
                   | inl error =>
                       appendCount events = 0%nat
                       /\ HandlerCaught taskId [Pending; Reasoning; Responding]
                            error events after
                   | inr response =>
                       appendCount events = 1%nat
                       /\ statusWrites taskId events
                          = [Pending; Reasoning; Responding; Complete]
                       /\ unhandled events = []
                       /\ DeepseekClaudeServer.activeTasks after !! taskId
                          = Some (completeRecord pending reasoning response
                                    (DeepseekClaudeServer.clock after))
                   end
          end.

(** The arguments of a raw [generate_response] call that pass
    [isValidGenerateResponseArgs], as the declarative-tool server receives
    them from its schema. *)
Definition parsedArgs (a : ToolArguments.t) : GenerateResponseArgs.t :=
  {| GenerateResponseArgs.prompt := Index.asString (ToolArguments.prompt a);
     GenerateResponseArgs.showReasoning :=
       Index.asBoolean (ToolArguments.showReasoning a);
     GenerateResponseArgs.clearContext :=
       Index.asBoolean (ToolArguments.clearContext a);
     GenerateResponseArgs.includeHistory :=
       Index.asBoolean (ToolArguments.includeHistory a) |}.

(** ** Sample inputs *)

(** A completion with one choice whose message carries the given texts. *)
Definition completion (reasoning content : option string) : Completion.t :=
  {| Completion.choices :=
       Some [ {| Completion.message :=
                   Some {| Completion.reasoning := reasoning;
                           Completion.content := content |} |} ] |}.

(** A world without stored conversation in which the reasoning endpoint
    answers [reasoning] after 4000 ms and the response endpoint answers
    [content] after 6000 ms; looking for the history takes 50 ms. *)
Definition answeringWorld (reasoning content : option string) : World :=
  {| findActiveConversation := None;
     deepseek := fun _ => inr (completion reasoning None);
     claude := fun _ => inr (completion None content);
     historyLatency := 50;
     deepseekLatency := 4000;
     claudeLatency := 6000 |}.


(** The arguments [{ prompt }] of a [generate_response] call. *)
Definition promptOnly (prompt : string) : ToolArguments.t :=
  {| ToolArguments.prompt := StringValue prompt;
     ToolArguments.showReasoning := Undefined;
     ToolArguments.clearContext := Undefined;
     ToolArguments.includeHistory := Undefined;
     ToolArguments.taskId := Undefined |}.

(** The arguments [{ taskId }] of a [check_response_status] call. *)
Definition taskIdOnly (taskId : string) : ToolArguments.t :=
  {| ToolArguments.prompt := Undefined;
     ToolArguments.showReasoning := Undefined;
     ToolArguments.clearContext := Undefined;
     ToolArguments.includeHistory := Undefined;
     ToolArguments.taskId := StringValue taskId |}.

(** A complete entry object whose prompt is [prompt], and the entry the
    buffer stores for it. *)
Definition entryObject (prompt : string) : option ConversationManager.EntryObject :=
  Some {| ConversationManager.o_timestamp := Some 1000;
          ConversationManager.o_prompt := Some prompt;
          ConversationManager.o_reasoning := Some "because";
          ConversationManager.o_response := Some "done";
          ConversationManager.o_model := Some "anthropic/claude-3.5-sonnet:beta" |}.

Definition storedEntry (prompt : string) : ConversationEntry.t :=
  ConversationEntry.mk 1000 prompt "because" "done"
    "anthropic/claude-3.5-sonnet:beta".

(** A task record in the given status, created at clock reading 1000. *)
Definition taskIn (status : TaskStatus) : TaskInfo.t :=
  TaskInfo.mk status "Explain the build" (Some true) (Some "think") (Some "answer")
    None 1000.

(** A server created at clock reading 1000 whose registry holds [task]
    under the id ["task-1"]. *)
Definition serverWith (task : TaskInfo.t) : DeepseekClaudeServer.t :=
  DeepseekClaudeServer.mk {| entries := []; maxEntries := 10 |}
    {[ "task-1" := task ]} 1000 [].

(** A user message whose text is [n] copies of the letter a; its
    rendering ["Human: aaa..."] has [n + 7] code units. *)
Definition longMessage (n : nat) : ClaudeMessage :=
  {| role := "user"; content := Text (JS.repeat "a"%char n) |}.

(** ** The history source *)

(** [interface UiMessage]. *)
Module UiMessage.
Record t := {
  ts : Z;
  type : string;
  say : option string;
  ask : option string;
  text : string;
  conversationHistoryIndex : Z
}.
End UiMessage.

(** The values of [process.platform]. *)
Inductive Platform :=
| Aix | Android | Darwin | Freebsd | Haiku | Linux | Openbsd | Sunos | Win32
| Cygwin | Netbsd.

(** What reading and parsing [api_conversation_history.json] gives:
    [readFile] throws an [Error] with a message, [JSON.parse] throws, or
    the text parses to an array of message objects (which may still fail
    the validator). *)
Inductive HistoryFile :=
| ReadFails (message : string)
| ParseFails
| Parsed (messages : list ClaudeMessage).

(** One entry of the tasks directory as the readers see it: its name, the
    modification time of its history file ([None] when [fs.stat] throws)
    and the array in its [ui_messages.json] ([None] when the file cannot
    be read or does not parse to an array of objects). *)
Record TaskFolder := {
  dir : string;
  mtime : option Z;
  uiMessages : option (list UiMessage.t)
}.

(** The tasks directory: absent, present but [readdir] throws, or listed;
    [history name] is what reading the history file of the folder [name]
    gives. *)
Inductive TasksDirectory :=
| Missing
| Unlistable (message : string)
| Listing (dirs : list TaskFolder) (history : string -> HistoryFile).

(** The objects [{ dir, mtime, hasEnded }] built per folder. *)
Record ConversationStats := {
  stats_dir : string;
  stats_mtime : Z;
  hasEnded : bool
}.

(** The body of the [dirs.map(async (dir) => ...)] callback, the same in
    both readers: [null] when the stat or the UI file fails. *)
Definition folderStats (folder : TaskFolder) : option ConversationStats :=
  match mtime folder with
  | None => None
  | Some modified =>
      match uiMessages folder with
      | None => None
      | Some messages =>
          Some {| stats_dir := dir folder;
                  stats_mtime := modified;
                  hasEnded :=
                    existsb (fun m => String.eqb (UiMessage.type m) "conversation_ended")
                            messages |}
      end
  end.

(** [stats.filter(stat => stat !== null && !stat.hasEnded)]. *)
Fixpoint activeStats (stats : list (option ConversationStats)) : list ConversationStats :=
  match stats with
  | [] => []
  | Some stat :: later =>
      if hasEnded stat then activeStats later else stat :: activeStats later
  | None :: later => activeStats later
  end.

(** [Array.prototype.sort] with the comparator [(a, b) => b.mtime -
    a.mtime]: the sort is stable, so an element goes before the first
    element that is not newer than it. *)
Fixpoint insertByMtime (stat : ConversationStats) (sorted : list ConversationStats)
    : list ConversationStats :=
  match sorted with
  | [] => [stat]
  | other :: later =>
      if stats_mtime other >? stats_mtime stat
      then other :: insertByMtime stat later
      else stat :: other :: later
  end.

Definition sortByMtime (stats : list ConversationStats) : list ConversationStats :=
  foldr insertByMtime [] stats.

(** The functions [getClaudePath] and [findActiveConversation] of
    [index.ts]. *)
Module IndexHistory.

(** The arguments handed to [path.join]. *)
Definition getClaudePath (homeDir : string) (platform : Platform) : list string :=
  match platform with
  | Win32 =>
      [homeDir; "AppData"; "Roaming"; "Code"; "User"; "globalStorage";
       "saoudrizwan.claude-dev"; "tasks"]
  | Darwin =>
      [homeDir; "Library"; "Application Support"; "Code"; "User"; "globalStorage";
       "saoudrizwan.claude-dev"; "tasks"]
  | _ =>
      [homeDir; ".config"; "Code"; "User"; "globalStorage";
       "saoudrizwan.claude-dev"; "tasks"]
  end.

(** [findActiveConversation]: every fault ends in the outer [catch], which
    returns [null]. *)
Definition findActiveConversation (tasks : TasksDirectory)
    : option (list ClaudeMessage) :=
  match tasks with
  | Missing | Unlistable _ => None
  | Listing dirs history =>
      let dirStats := map folderStats dirs in
      let sortedDirs := sortByMtime (activeStats dirStats) in
      match head sortedDirs with
      | None => None
      | Some first =>
          let latest := stats_dir first in
          if negb (JS.truthy latest) then None
          else
            match history latest with
            | Parsed messages => Some messages
            | _ => None
            end
      end
  end.

End IndexHistory.

(** The reader of [ConversationManager]. *)
Module ConversationHistory.

Definition getClaudePath (homeDir : string) (platform : Platform) : list string :=
  let paths :=
    match platform with
    | Win32 => Some ["AppData"; "Roaming"]
    | Darwin => Some ["Library"; "Application Support"]
    | Linux => Some [".config"]
    | _ => None
    end in
  let basePath := default [".config"] paths in
  [homeDir] ++ basePath
  ++ ["Code"; "User"; "globalStorage"; "saoudrizwan.claude-dev"; "tasks"].

(** [validateDirectoryExists]. *)
Definition validateDirectoryExists (path : string) (tasks : TasksDirectory)
    : ConversationManager.ConversationError + unit :=
  match tasks with
  | Missing => inl (ConversationManager.Throw ("Directory not found: " +:+ path))
  | _ => inr tt
  end.

Definition getConversationStats (dirs : list TaskFolder) : list ConversationStats :=
  sortByMtime (activeStats (map folderStats dirs)).

(** [parseClaudeMessages]: whatever goes wrong inside its [try], the error
    thrown is the same. *)
Definition parseClaudeMessages (file : HistoryFile)
    : ConversationManager.ConversationError + list ClaudeMessage :=
  match file with
  | Parsed messages =>
      match ConversationManager.validateHistory messages with
      | inr _ => inr messages
      | inl _ => inl (ConversationManager.Throw "Failed to parse Claude messages")
      end
  | _ => inl (ConversationManager.Throw "Failed to parse Claude messages")
  end.

(** [findMostRecentActiveConversation]; a failing [readFile] throws an
    [Error] that is not a [ConversationError], which the caller wraps
    keeping its message. *)
Definition findMostRecentActiveConversation (history : string -> HistoryFile)
    (dirStats : list ConversationStats)
    : ConversationManager.ConversationError + option (list ClaudeMessage) :=
  match head dirStats with
  | None => inr None
  | Some first =>
      let latest := stats_dir first in
      if negb (JS.truthy latest) then inr None
      else
        match history latest with
        | ReadFails message => inl (ConversationManager.Throw message)
        | file =>
            match parseClaudeMessages file with
            | inl e => inl e
            | inr messages => inr (Some messages)
            end
        end
  end.

Definition findActiveConversation (tasksPath : string) (tasks : TasksDirectory)
    : ConversationManager.ConversationError + option (list ClaudeMessage) :=
  match validateDirectoryExists tasksPath tasks with
  | inl e => inl e
  | inr _ =>
      match tasks with
      | Missing => inl (ConversationManager.Throw ("Directory not found: " +:+ tasksPath))
      | Unlistable message => inl (ConversationManager.Throw message)
      | Listing dirs history =>
          let dirStats := getConversationStats dirs in
          findMostRecentActiveConversation history dirStats
      end
  end.

End ConversationHistory.

(** ** Calls on the buffer of [ConversationManager] *)

(** A call that changes the buffer.  [addEntry] validates before it
    pushes, so a call that throws leaves the buffer as it found it. *)
Inductive BufferCall :=
| AddEntry (entry : option ConversationManager.EntryObject)
| ClearContext.

Definition bufferCall (ctx : ConversationContext) (call : BufferCall)
    : ConversationContext :=
  match call with
  | AddEntry entry =>
      match ConversationManager.addEntry ctx entry with
      | inr ctx' => ctx'
      | inl _ => ctx
      end
  | ClearContext => ConversationManager.clearContext ctx
  end.

Definition bufferCalls (ctx : ConversationContext) (calls : list BufferCall)
    : ConversationContext :=
  foldl bufferCall ctx calls.

(** A folder with a readable, not ended conversation. *)
Definition isActive (folder : TaskFolder) : Prop :=
  exists stat, folderStats folder = Some stat /\ hasEnded stat = false.

(** A UI message of the given type. *)
Definition uiMessage (type : string) : UiMessage.t :=
  {| UiMessage.ts := 0; UiMessage.type := type; UiMessage.say := None;
     UiMessage.ask := None; UiMessage.text := EmptyString;
     UiMessage.conversationHistoryIndex := 0 |}.

(** A tasks directory with an older active conversation, a newer active
    one, a still newer one that has ended, and a folder without files. *)
Definition sampleFolders : list TaskFolder :=
  [ {| dir := "older"; mtime := Some 100; uiMessages := Some [uiMessage "say"] |};
    {| dir := "ended"; mtime := Some 300;
       uiMessages := Some [uiMessage "say"; uiMessage "conversation_ended"] |};
    {| dir := "newer"; mtime := Some 200; uiMessages := Some [] |};
    {| dir := "empty"; mtime := None; uiMessages := None |} ].

Definition sampleHistory (name : string) : HistoryFile :=
  if String.eqb name "newer"
  then Parsed [ {| role := "user"; content := Text "List the files" |} ]
  else if String.eqb name "older"
  then Parsed [ {| role := "user"; content := Text "Earlier question" |} ]
  else if String.eqb name "ended"
  then Parsed [ {| role := "user"; content := Text "Closed question" |} ]
  else ReadFails "ENOENT: no such file or directory".

(** * Properties *)

(** ** Strings *)

Lemma JS_length_nonneg (s : string) : 0 <= JS.length s.
Proof. unfold JS.length. lia. Qed.

Lemma JS_length_append (s1 s2 : string) :
  JS.length (s1 +:+ s2) = JS.length s1 + JS.length s2.
Proof.
  unfold JS.length. rewrite <- Nat2Z.inj_add. f_equal.
  induction s1 as [|c s1 IH]; [reflexivity|].
  simpl. f_equal. exact IH.
Qed.

Lemma JS_length_repeat (c : ascii) (n : nat) :
  JS.length (JS.repeat c n) = Z.of_nat n.
Proof.
  unfold JS.length. f_equal.
  induction n as [|n IH]; simpl; congruence.
Qed.

Lemma totalLength_nonneg (parts : list string) : 0 <= totalLength parts.
Proof.
  induction parts as [|s parts IH]; simpl; [lia|].
  pose proof (JS_length_nonneg s). lia.
Qed.

Lemma totalLength_app (l1 l2 : list string) :
  totalLength (l1 ++ l2) = totalLength l1 + totalLength l2.
Proof. induction l1 as [|s l1 IH]; simpl; lia. Qed.

Lemma totalLength_reverse (l : list string) :
  totalLength (reverse l) = totalLength l.
Proof.
  induction l as [|s l IH]; [reflexivity|].
  rewrite reverse_cons, totalLength_app, IH. simpl. lia.
Qed.

(** The length of [parts.join(sep)]: the parts and one separator between
    each two neighbours. *)
Lemma JS_length_join (sep : string) (parts : list string) :
  JS.length (JS.join sep parts)
  = totalLength parts + JS.length sep * Z.of_nat (pred (length parts)).
Proof.
  unfold JS.join.
  induction parts as [|s parts IH]; [unfold JS.length; simpl; lia|].
  destruct parts as [|s' parts].
  - simpl. lia.
  - change (String.concat sep (s :: s' :: parts))
      with (s +:+ sep +:+ String.concat sep (s' :: parts)).
    rewrite !JS_length_append, IH.
    change (totalLength (s :: s' :: parts))
      with (JS.length s + totalLength (s' :: parts)).
    change (length (s :: s' :: parts)) with (S (length (s' :: parts))).
    change (length (s' :: parts)) with (S (length parts)).
    simpl pred. rewrite Nat2Z.inj_succ. lia.
Qed.

Lemma map_reverse {A B} (f : A -> B) (l : list A) :
  map f (reverse l) = reverse (map f l).
Proof.
  induction l as [|x l IH]; [reflexivity|].
  simpl. rewrite !reverse_cons, map_app, IH. reflexivity.
Qed.

(** ** The history formatters *)

(** The inlined rendering of the two servers is [formatMessage]. *)
Lemma Index_formatLoop_eq L pending acc total :
  Index.formatLoop L pending acc total
  = ConversationManager.withinLimitLoop L pending acc total.
Proof.
  revert acc total.
  induction pending as [|msg older IH]; intros acc total; [reflexivity|].
  simpl. unfold ConversationManager.formatMessage, contentText.
  destruct (content msg); simpl; rewrite IH; reflexivity.
Qed.

Lemma McpIndex_formatLoop_eq L pending acc total :
  McpIndex.formatLoop L pending acc total = Index.formatLoop L pending acc total.
Proof.
  revert acc total.
  induction pending as [|msg older IH]; intros acc total; [reflexivity|].
  simpl. rewrite IH. reflexivity.
Qed.

(** The loop accepts a prefix of the messages it walks, and the running
    total stays within the bound. *)
Lemma withinLimitLoop_prefix L pending acc total :
  exists k : nat,
    ConversationManager.withinLimitLoop L pending acc total
    = acc ++ map ConversationManager.formatMessage (take k pending)
    /\ (total <= L ->
        total + totalLength (map ConversationManager.formatMessage (take k pending))
        <= L).
Proof.
  revert acc total.
  induction pending as [|msg older IH]; intros acc total.
  - exists 0%nat. simpl. rewrite app_nil_r. split; [reflexivity|lia].
  - simpl.
    destruct (Z.gtb_spec (total + JS.length (ConversationManager.formatMessage msg)) L)
      as [Hover|Hfits].
    + exists 0%nat. simpl. rewrite app_nil_r. split; [reflexivity|lia].
    + destruct (IH (acc ++ [ConversationManager.formatMessage msg])
                   (total + JS.length (ConversationManager.formatMessage msg)))
        as (k & Heq & Hsum).
      exists (S k). simpl. rewrite Heq, <- app_assoc. simpl.
      split; [reflexivity|]. intros _. specialize (Hsum Hfits). lia.
Qed.

(** What [formatMessagesWithinLimit] returns: the renderings of a suffix
    of the history, whose lengths add up to at most the bound. *)
Lemma formatMessagesWithinLimit_suffix (history : list ClaudeMessage) (L : Z) :
  0 <= L ->
  exists kept : list ClaudeMessage,
    kept `suffix_of` history
    /\ ConversationManager.formatMessagesWithinLimit history L
       = map ConversationManager.formatMessage kept
    /\ totalLength (map ConversationManager.formatMessage kept) <= L.
Proof.
  intros HL. unfold ConversationManager.formatMessagesWithinLimit.
  destruct (withinLimitLoop_prefix L (reverse history) [] 0) as (k & Heq & Hsum).
  exists (drop (length history - k) history).
  split; [apply suffix_drop|].
  rewrite Heq. simpl.
  rewrite take_reverse in *.
  rewrite map_reverse in *. rewrite reverse_involutive.
  split; [reflexivity|].
  specialize (Hsum HL). rewrite totalLength_reverse in Hsum. lia.
Qed.

Lemma Index_formatHistoryForModel_eq (history : list ClaudeMessage) (isDeepSeek : bool) :
  Index.formatHistoryForModel history isDeepSeek
  = JS.join blankLine
      (ConversationManager.formatMessagesWithinLimit history
         (if isDeepSeek then 50000 else 600000)).
Proof.
  unfold Index.formatHistoryForModel, ConversationManager.formatMessagesWithinLimit.
  rewrite Index_formatLoop_eq. reflexivity.
Qed.

(** What does hold of the formatter: it renders a suffix of the history,
    the renderings add up to at most the bound, and the string returned
    is longer than that sum by two code units per separator. *)
Lemma formatHistoryForModel_kept (history : list ClaudeMessage) (isDeepSeek : bool) :
  let L := if isDeepSeek then 50000 else 600000 in
  exists kept : list ClaudeMessage,
    kept `suffix_of` history
    /\ Index.formatHistoryForModel history isDeepSeek
       = JS.join blankLine (map ConversationManager.formatMessage kept)
    /\ totalLength (map ConversationManager.formatMessage kept) <= L
    /\ JS.length (Index.formatHistoryForModel history isDeepSeek)
       = totalLength (map ConversationManager.formatMessage kept)
         + 2 * Z.of_nat (pred (length kept)).
Proof.
  intros L.
  destruct (formatMessagesWithinLimit_suffix history L) as (kept & Hsuf & Heq & Hsum).
  { subst L. destruct isDeepSeek; lia. }
  exists kept. rewrite Index_formatHistoryForModel_eq. fold L. rewrite Heq.
  repeat split; try assumption.
  rewrite JS_length_join, length_map. reflexivity.
Qed.

(** Two messages that fit the bound together are both rendered, with the
    separator between them. *)
Lemma formatHistoryForModel_pair (m1 m2 : ClaudeMessage) (isDeepSeek : bool) :
  JS.length (ConversationManager.formatMessage m1)
  + JS.length (ConversationManager.formatMessage m2)
  <= (if isDeepSeek then 50000 else 600000) ->
  Index.formatHistoryForModel [m1; m2] isDeepSeek
  = JS.join blankLine
      [ConversationManager.formatMessage m1; ConversationManager.formatMessage m2].
Proof.
  intros Hfit. rewrite Index_formatHistoryForModel_eq. f_equal.
  unfold ConversationManager.formatMessagesWithinLimit.
  change (reverse [m1; m2]) with [m2; m1].
  pose proof (JS_length_nonneg (ConversationManager.formatMessage m1)) as H1.
  pose proof (JS_length_nonneg (ConversationManager.formatMessage m2)) as H2.
  cbn [ConversationManager.withinLimitLoop].
  destruct (Z.gtb_spec (0 + JS.length (ConversationManager.formatMessage m2))
              (if isDeepSeek then 50000 else 600000)) as [Hover|_]; [lia|].
  destruct (Z.gtb_spec (0 + JS.length (ConversationManager.formatMessage m2)
                        + JS.length (ConversationManager.formatMessage m1))
              (if isDeepSeek then 50000 else 600000)) as [Hover|_]; [lia|].
  reflexivity.
Qed.

Lemma longMessage_length (n : nat) :
  JS.length (ConversationManager.formatMessage (longMessage n)) = Z.of_nat n + 7.
Proof.
  unfold ConversationManager.formatMessage, longMessage. simpl.
  change (roleLabel "user") with "Human".
  rewrite !JS_length_append, JS_length_repeat.
  change (JS.length "Human") with 5. change (JS.length ": ") with 2. lia.
Qed.

(** C1, at a history the bound does not hold for: two user messages of
    24993 letters each are rendered as 25000 code units each, which add up
    to exactly 50000, so both are accepted under the reasoning-stage bound;
    the string returned joins them with a blank line and has 50002 code
    units.  The same happens under the response-stage bound with two
    messages of 299993 letters (600002 code units returned), and in the
    formatter of [ConversationManager]. *)
Theorem formatHistoryForModel_exceeds_bound :
  JS.length
    (Index.formatHistoryForModel
       [longMessage (Z.to_nat 24993); longMessage (Z.to_nat 24993)] true)
  = 50002
  /\ JS.length
       (Index.formatHistoryForModel
          [longMessage (Z.to_nat 299993); longMessage (Z.to_nat 299993)] false)
     = 600002
  /\ exists s : string,
       ConversationManager.formatHistoryForModel
         [longMessage (Z.to_nat 24993); longMessage (Z.to_nat 24993)] true
       = inr s
       /\ JS.length s = 50002.
Proof.
  assert (Hpair : forall (n : Z) (b : bool),
             0 <= n -> 2 * (n + 7) <= (if b then 50000 else 600000) ->
             JS.length
               (Index.formatHistoryForModel
                  [longMessage (Z.to_nat n); longMessage (Z.to_nat n)] b)
             = 2 * (n + 7) + 2).
  { intros n b Hn Hfit.
    rewrite formatHistoryForModel_pair
      by (rewrite !longMessage_length, Z2Nat.id by lia; lia).
    rewrite JS_length_join. simpl totalLength. simpl length.
    rewrite !longMessage_length, Z2Nat.id by lia.
    change (JS.length blankLine) with 2. simpl pred. lia. }
  split; [|split].
  - rewrite (Hpair 24993 true) by lia. reflexivity.
  - rewrite (Hpair 299993 false) by lia. reflexivity.
  - eexists. split.
    + unfold ConversationManager.formatHistoryForModel.
      change (ConversationManager.validateHistory
                [longMessage (Z.to_nat 24993); longMessage (Z.to_nat 24993)])
        with (@inr ConversationManager.ConversationError unit tt).
      cbv iota. reflexivity.
    + change ConversationManager.DEEPSEEK_MAX_LENGTH with 50000.
      rewrite <- (Index_formatHistoryForModel_eq _ true).
      rewrite (Hpair 24993 true) by lia. reflexivity.
Qed.

Lemma McpIndex_formatHistoryForModel_eq (history : list ClaudeMessage)
    (isDeepSeek : bool) :
  McpIndex.formatHistoryForModel history isDeepSeek
  = Index.formatHistoryForModel history isDeepSeek.
Proof.
  unfold McpIndex.formatHistoryForModel, Index.formatHistoryForModel.
  rewrite McpIndex_formatLoop_eq. reflexivity.
Qed.

(** [processTask] depends on the formatter of its file only through the
    strings the formatter returns. *)
Lemma processTask_ext fmt1 fmt2 (world : World) (taskId : string)
    (cc ih : option bool) (s : DeepseekClaudeServer.t) :
  (forall h b, fmt1 h b = fmt2 h b) ->
  DeepseekClaudeServer.processTask fmt1 world taskId cc ih s
  = DeepseekClaudeServer.processTask fmt2 world taskId cc ih s.
Proof.
  intros Hfmt. unfold DeepseekClaudeServer.processTask.
  cbv [DeepseekClaudeServer.bind DeepseekClaudeServer.getActiveTasks].
  destruct (DeepseekClaudeServer.activeTasks s !! taskId) as [task|]; [|reflexivity].
  cbv [DeepseekClaudeServer.tryCatch DeepseekClaudeServer.bind].
  destruct ((if default false cc then DeepseekClaudeServer.clearEntries
             else DeepseekClaudeServer.ret tt) s) as [[e|[]] s1];
    [reflexivity|].
  destruct (DeepseekClaudeServer.setTask taskId (withStatus Reasoning task) s1)
    as [[e|[]] s2]; [reflexivity|].
  match goal with
  | |- context [(if bool_decide (ih ≠ Some false) then ?a else ?b) s2] =>
      destruct ((if bool_decide (ih ≠ Some false) then a else b) s2) as [[e|h] s3]
  end; [reflexivity|].
  destruct h as [h|]; rewrite ?Hfmt; reflexivity.
Qed.

(** ** The rolling context buffer *)

(** The last [k] elements of a list (all of it when it is shorter). *)
Lemma last_window_snoc {A} (k : nat) (l : list A) (x : A) :
  (0 < k)%nat ->
  let pushed := drop (length l - k) l ++ [x] in
  (if Z.of_nat (length pushed) >? Z.of_nat k then tail pushed else pushed)
  = drop (length (l ++ [x]) - k) (l ++ [x]).
Proof.
  intros Hk pushed. subst pushed.
  rewrite !length_app, length_drop. simpl length.
  destruct (decide (length l < k)%nat) as [Hshort|Hfull].
  - replace (length l - k)%nat with 0%nat by lia.
    replace (length l + 1 - k)%nat with 0%nat by lia.
    simpl drop.
    destruct (Z.gtb_spec (Z.of_nat (length l - 0 + 1)) (Z.of_nat k)); [lia|reflexivity].
  - destruct (Z.gtb_spec (Z.of_nat (length l - (length l - k) + 1)) (Z.of_nat k));
      [|lia].
    replace (length l + 1 - k)%nat with (S (length l - k)) by lia.
    rewrite drop_app_le by lia.
    destruct (drop (length l - k) l) as [|y rest] eqn:Hdrop.
    + apply (f_equal length) in Hdrop. rewrite length_drop in Hdrop. simpl in Hdrop. lia.
    + simpl tail. f_equal.
      replace (S (length l - k)) with (length l - k + 1)%nat by lia.
      rewrite <- drop_drop, Hdrop. reflexivity.
Qed.

Lemma pushBounded_window (K : Z) (seen : list ConversationEntry.t)
    (e : ConversationEntry.t) :
  0 < K ->
  ConversationManager.pushBounded
    {| entries := drop (length seen - Z.to_nat K) seen; maxEntries := K |} e
  = {| entries := drop (length (seen ++ [e]) - Z.to_nat K) (seen ++ [e]);
       maxEntries := K |}.
Proof.
  intros HK. unfold ConversationManager.pushBounded. cbn [entries maxEntries].
  pose proof (last_window_snoc (Z.to_nat K) seen e ltac:(lia)) as Hwin.
  cbv zeta in Hwin. rewrite Z2Nat.id in Hwin by lia.
  destruct (Z.of_nat (length (drop (length seen - Z.to_nat K) seen ++ [e])) >? K);
    rewrite Hwin; reflexivity.
Qed.

Lemma addEntries_window (K : Z) (seen : list ConversationEntry.t)
    (calls : list (option ConversationManager.EntryObject))
    (es : list ConversationEntry.t) :
  0 < K ->
  Forall2 (fun call e => ConversationManager.validateEntry call = inr e) calls es ->
  ConversationManager.addEntries
    {| entries := drop (length seen - Z.to_nat K) seen; maxEntries := K |} calls
  = inr {| entries := drop (length (seen ++ es) - Z.to_nat K) (seen ++ es);
           maxEntries := K |}.
Proof.
  intros HK Hvalid. revert seen.
  induction Hvalid as [|call e calls es Hcall _ IH]; intros seen.
  - rewrite app_nil_r. reflexivity.
  - simpl. unfold ConversationManager.addEntry. rewrite Hcall.
    rewrite pushBounded_window by assumption.
    rewrite IH, <- app_assoc. reflexivity.
Qed.

Lemma addAllToContext_window (es seen : list ConversationEntry.t)
    (tasks : gmap string TaskInfo.t) (clock : Z) (j : list Event) :
  exists j' : list Event,
    addAllToContext es
      (DeepseekClaudeServer.mk
         {| entries := drop (length seen - 10) seen; maxEntries := 10 |}
         tasks clock j)
    = (inr tt,
       DeepseekClaudeServer.mk
         {| entries := drop (length (seen ++ es) - 10) (seen ++ es);
            maxEntries := 10 |}
         tasks clock j').
Proof.
  revert seen j.
  induction es as [|e es IH]; intros seen j.
  - exists j. rewrite app_nil_r. reflexivity.
  - cbn [addAllToContext]. unfold DeepseekClaudeServer.bind.
    unfold DeepseekClaudeServer.addToContext at 1.
    cbn [DeepseekClaudeServer.context DeepseekClaudeServer.activeTasks
         DeepseekClaudeServer.clock DeepseekClaudeServer.journal entries maxEntries].
    pose proof (last_window_snoc 10 seen e ltac:(lia)) as Hwin.
    cbv zeta in Hwin. change (Z.of_nat 10) with 10 in Hwin. rewrite Hwin.
    destruct (IH (seen ++ [e]) (j ++ [ContextAppended clock e])) as (j' & Hrun).
    exists j'. rewrite Hrun, <- app_assoc. reflexivity.
Qed.

(** Neither an append nor a clear takes a buffer over its capacity. *)
Lemma pushBounded_within_capacity (ctx : ConversationContext)
    (e : ConversationEntry.t) :
  Z.of_nat (length (entries ctx)) <= maxEntries ctx ->
  Z.of_nat (length (entries (ConversationManager.pushBounded ctx e)))
  <= maxEntries ctx
  /\ maxEntries (ConversationManager.pushBounded ctx e) = maxEntries ctx
  /\ entries (ConversationManager.clearContext ctx) = [].
Proof.
  intros Hwithin. unfold ConversationManager.pushBounded.
  destruct (Z.gtb_spec (Z.of_nat (length (entries ctx ++ [e]))) (maxEntries ctx))
    as [Hover|Hfits]; cbn [entries maxEntries].
  - split; [|split; reflexivity].
    rewrite length_app in *. simpl length in *.
    destruct (entries ctx) as [|x rest]; simpl in *; [lia|].
    rewrite length_app. simpl. lia.
  - split; [exact Hfits|split; reflexivity].
Qed.

(** C2: a buffer built with capacity [K > 0] that receives [N] valid
    [addEntry] calls holds the last [min N K] entries passed, oldest
    first, and never more than [K]; the server's buffer (capacity 10)
    behaves the same under [addToContext]; and from any buffer within
    its capacity one more append or a clear stays within it. *)
Theorem capacity_invariant (K : Z)
    (calls : list (option ConversationManager.EntryObject))
    (es : list ConversationEntry.t) :
  0 < K ->
  Forall2 (fun call e => ConversationManager.validateEntry call = inr e) calls es ->
  (exists ctx0 ctx : ConversationContext,
      ConversationManager.new K = inr ctx0
      /\ entries ctx0 = []
      /\ ConversationManager.addEntries ctx0 calls = inr ctx
      /\ ConversationManager.getEntries ctx = drop (length es - Z.to_nat K) es
      /\ length (ConversationManager.getEntries ctx)
         = Nat.min (length es) (Z.to_nat K)
      /\ Z.of_nat (length (ConversationManager.getEntries ctx)) <= K)
  /\ (forall clock : Z,
        exists srv : DeepseekClaudeServer.t,
          addAllToContext es (DeepseekClaudeServer.new clock) = (inr tt, srv)
          /\ entries (DeepseekClaudeServer.context srv) = drop (length es - 10) es
          /\ length (entries (DeepseekClaudeServer.context srv))
             = Nat.min (length es) 10)
  /\ (forall (ctx : ConversationContext) (e : ConversationEntry.t),
        Z.of_nat (length (entries ctx)) <= maxEntries ctx ->
        Z.of_nat (length (entries (ConversationManager.pushBounded ctx e)))
        <= maxEntries ctx
        /\ entries (ConversationManager.clearContext ctx) = []).
Proof.
  intros HK Hvalid. split; [|split].
  3: { intros ctx e Hwithin.
       destruct (pushBounded_within_capacity ctx e Hwithin) as (Hpush & _ & Hclear).
       split; assumption. }
  - exists {| entries := []; maxEntries := K |},
           {| entries := drop (length es - Z.to_nat K) es; maxEntries := K |}.
    split.
    { unfold ConversationManager.new, ConversationManager.validateMaxEntries.
      destruct (Z.leb_spec K 0); [lia|reflexivity]. }
    split; [reflexivity|]. split.
    { apply (addEntries_window K [] calls es HK Hvalid). }
    unfold ConversationManager.getEntries. cbn [entries].
    rewrite length_drop. repeat split; lia.
  - intros clock.
    destruct (addAllToContext_window es [] ∅ clock []) as (j' & Hrun).
    eexists. split; [exact Hrun|].
    cbn [DeepseekClaudeServer.context entries]. rewrite app_nil_l, length_drop.
    split; [reflexivity|lia].
Qed.

(** ** The task pipeline *)

Section Pipeline.

Import DeepseekClaudeServer.

(** The reasoning stage sends one request and returns what [reasoningOf]
  makes of the answer. *)
Lemma getDeepseekReasoning_run (world : World) (prompt : string) (s : t) :
exists msgs : list ChatMessage,
  getDeepseekReasoning world prompt s
  = (reasoningOf (deepseek world msgs),
     mk (context s) (activeTasks s) (clock s + deepseekLatency world)
        (journal s ++ [CompletionRequested (clock s) DEEPSEEK_MODEL msgs
                         (deepseek world msgs)])).
Proof.
unfold getDeepseekReasoning.
cbv [bind getContext tryCatch createCompletion throw ret].
match goal with
| |- context [deepseek world (?m :: ?l)] => exists (m :: l); set (msgs := m :: l)
end.
unfold reasoningOf.
destruct (deepseek world msgs) as [fault|completion]; [reflexivity|].
destruct (firstReasoning completion) as [[|c rest]|]; reflexivity.
Qed.

(** The response stage sends one request and returns what [responseOf]
  makes of the answer. *)
Lemma getFinalResponse_run (world : World) (prompt reasoning : string) (s : t) :
exists msgs : list ChatMessage,
  getFinalResponse world prompt reasoning s
  = (responseOf (claude world msgs),
     mk (context s) (activeTasks s) (clock s + claudeLatency world)
        (journal s ++ [CompletionRequested (clock s) CLAUDE_MODEL msgs
                         (claude world msgs)])).
Proof.
unfold getFinalResponse.
cbv [bind getContext tryCatch createCompletion throw ret].
match goal with
| |- context [claude world (if ?b then ?x else ?y)] =>
    exists (if b then x else y); set (msgs := if b then x else y)
end.
unfold responseOf.
destruct (claude world msgs) as [fault|completion]; [reflexivity|].
destruct (firstContent completion) as [typeError|[[|c rest]|]]; reflexivity.
Qed.

(** Every run of [processTask] on a registered task has one of the three
  shapes of [ProcessTaskRun]. *)
Lemma processTask_run fmt world taskId cc ih srv task :
activeTasks srv !! taskId = Some task ->
ProcessTaskRun world taskId task cc srv
  (processTask fmt world taskId cc ih srv).1
  (processTask fmt world taskId cc ih srv).2.
Proof.
intros Htask.
unfold processTask.
cbv [bind getActiveTasks]. rewrite Htask.
cbv [tryCatch bind ret throw clearEntries setTask dateNow addToContext await].
set (history := if bool_decide (ih ≠ Some false) then _ else _).
assert (Hhistory : forall s : t, exists (h : option (list ClaudeMessage)) (ms : Z),
           history s = (inr h, mk (context s) (activeTasks s) (clock s + ms) (journal s))).
{ intros [c a k j]. subst history. destruct (bool_decide (ih ≠ Some false)).
  - eexists _, _. reflexivity.
  - exists None, 0. cbn. rewrite Z.add_0_r. reflexivity. }
clearbody history.
destruct (default false cc) eqn:Hcc.
all: cbv beta iota.
all: match goal with
     | Hh : (forall s : t, exists h ms, ?f s = _) |- context [?f ?s0] =>
         destruct (Hh s0) as (h & ms & ->)
     end.
all: cbv beta iota; cbn [context activeTasks clock journal].
all: match goal with
     | |- context [getDeepseekReasoning ?w ?p ?s] =>
         destruct (getDeepseekReasoning_run w p s) as (msgs & ->)
     end.
all: cbn [context activeTasks clock journal].
all: destruct (reasoningOf (deepseek world msgs)) as [error|reasoning] eqn:Hreasoning.
all: try (cbn [fst snd context activeTasks clock journal];
          eapply ReasoningStageFailed with (msgs := msgs);
          [ exact Hreasoning
          | cbn [journal]; rewrite Hcc, <- ?app_assoc; reflexivity
          | reflexivity
          | cbn [activeTasks]; apply lookup_insert_eq ]).
all: match goal with
     | |- context [getFinalResponse ?w ?p ?r ?s] =>
         destruct (getFinalResponse_run w p r s) as (msgs' & ->)
     end.
all: cbn [context activeTasks clock journal].
all: destruct (responseOf (claude world msgs')) as [error|response] eqn:Hresponse.
all: cbn [fst snd context activeTasks clock journal].
all: try (eapply ResponseStageFailed with (msgs := msgs) (msgs' := msgs');
          [ exact Hreasoning | exact Hresponse
          | cbn [journal]; rewrite Hcc, <- ?app_assoc; reflexivity
          | reflexivity
          | cbn [activeTasks]; apply lookup_insert_eq ]).
all: eapply Completed with (msgs := msgs) (msgs' := msgs');
     [ exact Hreasoning | exact Hresponse
     | cbn [journal]; rewrite Hcc, <- ?app_assoc; reflexivity
     | reflexivity
     | cbn [activeTasks]; apply lookup_insert_eq ].
Qed.

End Pipeline.

(** ** The task registry *)

Lemma trimStart_allWhiteSpace (s : string) :
  JS.allWhiteSpace s = true -> JS.trimStart s = EmptyString.
Proof.
  induction s as [|c s IH]; [reflexivity|].
  simpl. intros [Hc Hs]%andb_prop. rewrite Hc. exact (IH Hs).
Qed.

(** [trim] of a string made of white space only is the empty string. *)
Lemma trim_allWhiteSpace (s : string) :
  JS.allWhiteSpace s = true -> JS.trim s = EmptyString.
Proof.
  intros Hs. unfold JS.trim. rewrite trimStart_allWhiteSpace by assumption.
  reflexivity.
Qed.

(** [TaskManager.createTask] throws on every blank prompt, and so leaves
    the registry as it was. *)
Lemma createTask_rejects_blank (tasks : gmap string TaskInfo.t) (prompt : string)
    (showReasoning : option bool) (uuid : string) (now : Z) :
  JS.allWhiteSpace prompt = true ->
  TaskManager.createTask tasks prompt showReasoning uuid now
  = inl (TaskManager.Throw "Prompt cannot be empty").
Proof.
  intros Hblank. unfold TaskManager.createTask.
  rewrite trim_allWhiteSpace by assumption. reflexivity.
Qed.

(** C5, at the input on which the two servers part from [TaskManager]:
    [TaskManager.createTask] throws on [""] and on two spaces, but the
    [generate_response] handler of the raw-protocol server called with the
    prompt [""] returns a task id and stores a pending record with that
    prompt, and [handleGenerateResponse] of the declarative-tool server
    does the same with a prompt of two spaces. *)
Theorem generate_response_registers_blank_prompt :
  TaskManager.createTask ∅ "" None "task-1" 1000
  = inl (TaskManager.Throw "Prompt cannot be empty")
  /\ TaskManager.createTask ∅ "  " None "task-1" 1000
     = inl (TaskManager.Throw "Prompt cannot be empty")
  /\ (let run :=
        Index.callTool (answeringWorld (Some "think") (Some "answer"))
          "generate_response" (Some (promptOnly "")) "task-1"
          (DeepseekClaudeServer.new 1000) in
      run.1 = inr (inr (TaskIdResult "task-1"))
      /\ head (DeepseekClaudeServer.journal run.2)
         = Some (TaskWritten 1000 "task-1"
                   (TaskInfo.mk Pending "" None None None None 1000))
      /\ TaskInfo.prompt <$> DeepseekClaudeServer.activeTasks run.2 !! "task-1"
         = Some "")
  /\ (let run :=
        McpIndex.handleGenerateResponse (answeringWorld (Some "think") (Some "answer"))
          {| GenerateResponseArgs.prompt := "  ";
             GenerateResponseArgs.showReasoning := None;
             GenerateResponseArgs.clearContext := None;
             GenerateResponseArgs.includeHistory := None |}
          "task-1" (DeepseekClaudeServer.new 1000) in
      run.1 = inr "task-1"
      /\ head (DeepseekClaudeServer.journal run.2)
         = Some (TaskWritten 1000 "task-1"
                   (TaskInfo.mk Pending "  " None None None None 1000))
      /\ TaskInfo.prompt <$> DeepseekClaudeServer.activeTasks run.2 !! "task-1"
         = Some "  ").
Proof.
  split; [apply createTask_rejects_blank; reflexivity|].
  split; [apply createTask_rejects_blank; reflexivity|].
  split; vm_compute; repeat split; reflexivity.
Qed.



(** [updateTask] and [setTaskStatus] stamp the stored record with the
    clock reading of the call. *)
Lemma updateTask_timestamp (tasks tasks' : gmap string TaskInfo.t) (taskId : string)
    (updates : PartialTaskInfo.t) (now : Z) :
  TaskManager.updateTask tasks taskId updates now = inr tasks' ->
  TaskInfo.timestamp <$> tasks' !! taskId = Some now.
Proof.
  unfold TaskManager.updateTask.
  destruct (TaskManager.validateTaskId taskId); [discriminate|].
  destruct (tasks !! taskId) as [task|]; [|discriminate].
  intros [= <-]. rewrite lookup_insert_eq. reflexivity.
Qed.

Lemma setTaskStatus_timestamp (tasks tasks' : gmap string TaskInfo.t) (taskId : string)
    (status : TaskStatus) (additionalInfo : PartialTaskInfo.t) (now : Z) :
  TaskManager.setTaskStatus tasks taskId status additionalInfo now = inr tasks' ->
  TaskInfo.timestamp <$> tasks' !! taskId = Some now.
Proof.
  unfold TaskManager.setTaskStatus.
  destruct (TaskManager.validateTaskId taskId); [discriminate|].
  destruct (tasks !! taskId) as [task|]; [|discriminate].
  intros [= <-]. rewrite lookup_insert_eq. reflexivity.
Qed.

(** ** Journals of task runs *)

Lemma taskWrites_app (taskId : string) (j1 j2 : list Event) :
  taskWrites taskId (j1 ++ j2) = taskWrites taskId j1 ++ taskWrites taskId j2.
Proof.
  induction j1 as [|ev j1 IH]; [reflexivity|].
  destruct ev; simpl; rewrite ?IH; try reflexivity.
  destruct (String.eqb taskId0 taskId); simpl; rewrite ?IH; reflexivity.
Qed.

Lemma appendCount_app (j1 j2 : list Event) :
  appendCount (j1 ++ j2) = (appendCount j1 + appendCount j2)%nat.
Proof.
  induction j1 as [|ev j1 IH]; [reflexivity|].
  destruct ev; simpl; rewrite IH; reflexivity.
Qed.

Lemma eventsSince_app (before after : DeepseekClaudeServer.t) (added : list Event) :
  DeepseekClaudeServer.journal after = DeepseekClaudeServer.journal before ++ added ->
  eventsSince before after = added.
Proof. intros Heq. unfold eventsSince. rewrite Heq. apply drop_app_length. Qed.

(** Splits a goal about a run of [processTask] on a registered task into
    the three shapes of the run, with the events of the run spelled out. *)
Ltac run_cases fmt world taskId cc ih srv Htask :=
  let Hrun := fresh "Hrun" in
  let Hevents := fresh "Hevents" in
  pose proof (processTask_run fmt world taskId cc ih srv _ Htask) as Hrun;
  destruct (DeepseekClaudeServer.processTask fmt world taskId cc ih srv)
    as [result srv'];
  cbn [fst snd] in *;
  inversion Hrun as
      [ ? msgs t0 t1 error Hreasoning Hjournal Hclock Hstored
      | ? msgs msgs' t0 t1 t2 reasoning error Hreasoning Hresponse Hjournal Hclock Hstored
      | ? msgs msgs' t0 t1 t2 reasoning response Hreasoning Hresponse Hjournal Hclock Hstored ];
  subst;
  pose proof (eventsSince_app _ _ _ Hjournal) as Hevents.




(** A run on an id that is not registered throws before touching the
    stores. *)
Lemma processTask_unregistered fmt world taskId cc ih srv :
  DeepseekClaudeServer.activeTasks srv !! taskId = None ->
  DeepseekClaudeServer.processTask fmt world taskId cc ih srv
  = (inl (ErrorObject ("No task found with ID: " +:+ taskId)), srv).
Proof.
  intros Hnone. unfold DeepseekClaudeServer.processTask.
  cbv [DeepseekClaudeServer.bind DeepseekClaudeServer.getActiveTasks].
  rewrite Hnone. reflexivity.
Qed.

Lemma eventsSince_same (srv : DeepseekClaudeServer.t) : eventsSince srv srv = [].
Proof. unfold eventsSince. apply drop_all. Qed.

(** Number of appends of a run: one when it returns, none when it throws. *)
Lemma processTask_appendCount fmt world taskId cc ih srv :
  let run := DeepseekClaudeServer.processTask fmt world taskId cc ih srv in
  appendCount (eventsSince srv run.2)
  = match run.1 with inr _ => 1%nat | inl _ => 0%nat end.
Proof.
  intros run. subst run.
  destruct (DeepseekClaudeServer.activeTasks srv !! taskId) as [task|] eqn:Htask.
  - run_cases fmt world taskId cc ih srv Htask.
    all: rewrite Hevents, appendCount_app.
    all: destruct (default false cc); reflexivity.
  - rewrite processTask_unregistered by assumption. cbn [fst snd].
    rewrite eventsSince_same. reflexivity.
Qed.

Lemma answersFrom_app (model : string) (j1 j2 : list Event) :
  answersFrom model (j1 ++ j2) = answersFrom model j1 ++ answersFrom model j2.
Proof.
  induction j1 as [|ev j1 IH]; [reflexivity|].
  destruct ev; simpl; rewrite ?IH; try reflexivity.
  destruct (String.eqb model0 model); simpl; rewrite ?IH; reflexivity.
Qed.

(** Summary of a run on a registered task: the one request to the
    reasoning model, the request to the response model if the run gets
    that far, and for each outcome the value returned, the statuses
    stored, the record left in the registry and the number of appends. *)
Lemma processTask_outcome fmt world taskId cc ih srv task :
  DeepseekClaudeServer.activeTasks srv !! taskId = Some task ->
  let run := DeepseekClaudeServer.processTask fmt world taskId cc ih srv in
  let events := eventsSince srv run.2 in
  exists msgs : list ChatMessage,
    answersFrom DeepseekClaudeServer.DEEPSEEK_MODEL events = [deepseek world msgs]
    /\ match reasoningOf (deepseek world msgs) with
       | inl error =>
           run.1 = inl error
           /\ answersFrom DeepseekClaudeServer.CLAUDE_MODEL events = []
           /\ statusWrites taskId events = [Reasoning; Error]
           /\ DeepseekClaudeServer.activeTasks run.2 !! taskId
              = Some (failedRecord task error (DeepseekClaudeServer.clock run.2))
           /\ appendCount events = 0%nat
       | inr reasoning =>
           exists msgs' : list ChatMessage,
             answersFrom DeepseekClaudeServer.CLAUDE_MODEL events
             = [claude world msgs']
             /\ match responseOf (claude world msgs') with
                | inl error =>
                    run.1 = inl error
                    /\ statusWrites taskId events = [Reasoning; Responding; Error]
                    /\ DeepseekClaudeServer.activeTasks run.2 !! taskId
                       = Some (failedRecord task error
                                 (DeepseekClaudeServer.clock run.2))
                    /\ appendCount events = 0%nat
                | inr response =>
                    run.1 = inr tt
                    /\ statusWrites taskId events
                       = [Reasoning; Responding; Complete]
                    /\ DeepseekClaudeServer.activeTasks run.2 !! taskId
                       = Some (completeRecord task reasoning response
                                 (DeepseekClaudeServer.clock run.2))
                    /\ appendCount events = 1%nat
                end
       end.
Proof.
  intros Htask run events. subst events run.
  run_cases fmt world taskId cc ih srv Htask.
  all: exists msgs; rewrite Hreasoning.
  all: rewrite Hevents; unfold statusWrites;
       rewrite ?answersFrom_app, ?taskWrites_app, ?appendCount_app.
  all: destruct (default false cc);
       cbn [answersFrom taskWrites appendCount app];
       rewrite ?String.eqb_refl; cbn [map snd app].
  all: change (String.eqb DeepseekClaudeServer.CLAUDE_MODEL
                 DeepseekClaudeServer.DEEPSEEK_MODEL) with false;
       change (String.eqb DeepseekClaudeServer.DEEPSEEK_MODEL
                 DeepseekClaudeServer.CLAUDE_MODEL) with false;
       cbv iota.
  all: split; [reflexivity|].
  all: try (exists msgs'; rewrite Hresponse).
  all: repeat split; try reflexivity; try assumption.
Qed.

(** A run taken alone: when its reasoning request fails (the endpoint
    rejects it, or the answer has no reasoning text), the run throws that
    fault, the statuses stored are [reasoning] then [error], the record
    [processTask] stores carries the text of [faultText] and nothing is
    appended to the context buffer; a run appends once when it returns and
    never when it throws. *)
Lemma processTask_reasoning_failure fmt (world : World) (taskId : string)
    (cc ih : option bool) (srv : DeepseekClaudeServer.t) :
  let run := DeepseekClaudeServer.processTask fmt world taskId cc ih srv in
  let events := eventsSince srv run.2 in
  (forall (task : TaskInfo.t) (answer : Fault + Completion.t) (error : Fault),
      DeepseekClaudeServer.activeTasks srv !! taskId = Some task ->
      In answer (answersFrom DeepseekClaudeServer.DEEPSEEK_MODEL events) ->
      reasoningOf answer = inl error ->
      run.1 = inl error
      /\ statusWrites taskId events = [Reasoning; Error]
      /\ DeepseekClaudeServer.activeTasks run.2 !! taskId
         = Some (failedRecord task error (DeepseekClaudeServer.clock run.2))
      /\ TaskInfo.error (failedRecord task error (DeepseekClaudeServer.clock run.2))
         = Some (faultText error)
      /\ appendCount events = 0%nat)
  /\ (run.1 = inr tt -> appendCount events = 1%nat)
  /\ (forall error : Fault, run.1 = inl error -> appendCount events = 0%nat).
Proof.
  intros run events. split; [|split].
  - intros task answer error Htask Hin Hfailed.
    destruct (processTask_outcome fmt world taskId cc ih srv task Htask)
      as (msgs & Hanswers & Hcase).
    cbv zeta in Hanswers, Hcase.
    change (answersFrom DeepseekClaudeServer.DEEPSEEK_MODEL events
            = [deepseek world msgs]) in Hanswers.
    rewrite Hanswers in Hin. destruct Hin as [<-|[]].
    rewrite Hfailed in Hcase.
    destruct Hcase as (Hresult & _ & Hwrites & Hstored & Hcount).
    repeat split; assumption.
  - intros Hok.
    pose proof (processTask_appendCount fmt world taskId cc ih srv) as Hcount.
    change (appendCount events
            = match run.1 with inr _ => 1%nat | inl _ => 0%nat end) in Hcount.
    rewrite Hcount, Hok. reflexivity.
  - intros error Hfailed.
    pose proof (processTask_appendCount fmt world taskId cc ih srv) as Hcount.
    change (appendCount events
            = match run.1 with inr _ => 1%nat | inl _ => 0%nat end) in Hcount.
    rewrite Hcount, Hfailed. reflexivity.
Qed.

(** C8: a reasoning answer whose reasoning text is missing or empty makes
    the run throw and leaves the task in [error]; a response answer whose
    text is missing or empty lets the run return and leaves the task in
    [complete] with the placeholder as response. *)
Theorem empty_results_asymmetry fmt (world : World) (taskId : string)
    (cc ih : option bool) (srv : DeepseekClaudeServer.t) (task : TaskInfo.t) :
  DeepseekClaudeServer.activeTasks srv !! taskId = Some task ->
  let run := DeepseekClaudeServer.processTask fmt world taskId cc ih srv in
  let events := eventsSince srv run.2 in
  (forall completion : Completion.t,
      In (inr completion) (answersFrom DeepseekClaudeServer.DEEPSEEK_MODEL events) ->
      DeepseekClaudeServer.firstReasoning completion = None
      \/ DeepseekClaudeServer.firstReasoning completion = Some EmptyString ->
      run.1 = inl (ErrorObject "No reasoning received from DeepSeek")
      /\ (TaskInfo.status <$> DeepseekClaudeServer.activeTasks run.2 !! taskId)
         = Some Error
      /\ (TaskInfo.error <$> DeepseekClaudeServer.activeTasks run.2 !! taskId)
         = Some (Some "No reasoning received from DeepSeek"))
  /\ (forall completion : Completion.t,
        In (inr completion) (answersFrom DeepseekClaudeServer.CLAUDE_MODEL events) ->
        DeepseekClaudeServer.firstContent completion = inr None
        \/ DeepseekClaudeServer.firstContent completion = inr (Some EmptyString) ->
        run.1 = inr tt
        /\ (TaskInfo.status <$> DeepseekClaudeServer.activeTasks run.2 !! taskId)
           = Some Complete
        /\ (TaskInfo.response <$> DeepseekClaudeServer.activeTasks run.2 !! taskId)
           = Some (Some "Error: No response content")).
Proof.
  intros Htask run events.
  destruct (processTask_outcome fmt world taskId cc ih srv task Htask)
    as (msgs & Hanswers & Hcase).
  cbv zeta in Hanswers, Hcase.
  change (answersFrom DeepseekClaudeServer.DEEPSEEK_MODEL events
          = [deepseek world msgs]) in Hanswers.
  split.
  - intros completion Hin Hmissing.
    rewrite Hanswers in Hin. destruct Hin as [Hanswer|[]].
    assert (Hfailed : reasoningOf (deepseek world msgs)
                      = inl (ErrorObject "No reasoning received from DeepSeek")).
    { rewrite Hanswer. unfold reasoningOf. destruct Hmissing as [->| ->]; reflexivity. }
    rewrite Hfailed in Hcase. destruct Hcase as (Hresult & _ & _ & Hstored & _).
    split; [exact Hresult|].
    fold run in Hstored. rewrite Hstored. split; reflexivity.
  - intros completion Hin Hmissing.
    destruct (reasoningOf (deepseek world msgs)) as [error|reasoning].
    + destruct Hcase as (_ & Hnone & _).
      change (answersFrom DeepseekClaudeServer.CLAUDE_MODEL events = []) in Hnone.
      rewrite Hnone in Hin. destruct Hin.
    + destruct Hcase as (msgs' & Hanswers' & Hcase).
      change (answersFrom DeepseekClaudeServer.CLAUDE_MODEL events
              = [claude world msgs']) in Hanswers'.
      rewrite Hanswers' in Hin. destruct Hin as [Hanswer|[]].
      assert (Hplaceholder : responseOf (claude world msgs')
                             = inr "Error: No response content").
      { rewrite Hanswer. unfold responseOf. destruct Hmissing as [->| ->]; reflexivity. }
      rewrite Hplaceholder in Hcase. destruct Hcase as (Hresult & _ & Hstored & _).
      split; [exact Hresult|].
      fold run in Hstored. rewrite Hstored. split; reflexivity.
Qed.

Lemma empty_results_asymmetry_witness :
  (let run :=
     Index.processTask (answeringWorld (Some "") (Some "answer")) "task-1" None None
       (serverWith (taskIn Pending)) in
   run.1 = inl (ErrorObject "No reasoning received from DeepSeek")
   /\ (TaskInfo.status <$> DeepseekClaudeServer.activeTasks run.2 !! "task-1")
      = Some Error
   /\ (TaskInfo.error <$> DeepseekClaudeServer.activeTasks run.2 !! "task-1")
      = Some (Some "No reasoning received from DeepSeek"))
  /\ (let run :=
        Index.processTask (answeringWorld (Some "think") (Some "")) "task-1" None None
          (serverWith (taskIn Pending)) in
      run.1 = inr tt
      /\ (TaskInfo.status <$> DeepseekClaudeServer.activeTasks run.2 !! "task-1")
         = Some Complete
      /\ (TaskInfo.response <$> DeepseekClaudeServer.activeTasks run.2 !! "task-1")
         = Some (Some "Error: No response content")).
Proof.
  split.
  - apply (proj1 (empty_results_asymmetry Index.formatHistoryForModel
                    (answeringWorld (Some "") (Some "answer")) "task-1" None None
                    (serverWith (taskIn Pending)) (taskIn Pending) eq_refl)
             (completion (Some "") None)).
    + vm_compute. left. reflexivity.
    + right. reflexivity.
  - apply (proj2 (empty_results_asymmetry Index.formatHistoryForModel
                    (answeringWorld (Some "think") (Some "")) "task-1" None None
                    (serverWith (taskIn Pending)) (taskIn Pending) eq_refl)
             (completion None (Some ""))).
    + vm_compute. left. reflexivity.
    + right. reflexivity.
Defined.

(** ** Tool handlers *)

(** The two [catch]es around a run started by a handler: the call always
    returns; a fault of the run is either stored by the callback or, when
    the callback itself throws, recorded as an unhandled rejection. *)
Lemma caught_run (m : DeepseekClaudeServer.M unit) (taskId : string)
    (s : DeepseekClaudeServer.t) :
  let handled :=
    DeepseekClaudeServer.tryCatch
      (DeepseekClaudeServer.tryCatch m
         (fun error =>
            DeepseekClaudeServer.bind DeepseekClaudeServer.getActiveTasks
              (fun tasks =>
                 match tasks !! taskId with
                 | Some current =>
                     match errorMessage error with
                     | inr message =>
                         DeepseekClaudeServer.setTask taskId
                           (withError message (withStatus Error current))
                     | inl typeError => DeepseekClaudeServer.throw typeError
                     end
                 | None => DeepseekClaudeServer.ret tt
                 end)))
      DeepseekClaudeServer.unhandledRejection in
  (handled s).1 = inr tt
  /\ match (m s).1 with
     | inr _ => (handled s).2 = (m s).2
     | inl error =>
         match DeepseekClaudeServer.activeTasks (m s).2 !! taskId with
         | Some current =>
             match errorMessage error with
             | inr message =>
                 (handled s).2
                 = (DeepseekClaudeServer.setTask taskId
                      (withError message (withStatus Error current)) (m s).2).2
             | inl typeError =>
                 (handled s).2
                 = (DeepseekClaudeServer.unhandledRejection typeError (m s).2).2
             end
         | None => (handled s).2 = (m s).2
         end
     end.
Proof.
  cbv [DeepseekClaudeServer.tryCatch DeepseekClaudeServer.bind
       DeepseekClaudeServer.getActiveTasks DeepseekClaudeServer.ret
       DeepseekClaudeServer.throw].
  destruct (m s) as [[error|[]] s']; cbn [fst snd]; [|split; reflexivity].
  destruct (DeepseekClaudeServer.activeTasks s' !! taskId) as [current|];
    [|split; reflexivity].
  destruct (errorMessage error) as [typeError|message]; split; reflexivity.
Qed.

(** A run between the registration of a pending record and the end of the
    [catch] callback is a [StartedRun], whatever the formatter. *)
Lemma started_run fmt (world : World) (uuid : string) (cc ih : option bool)
    (srv : DeepseekClaudeServer.t) (pending : TaskInfo.t) :
  TaskInfo.status pending = Pending ->
  let s1 := (DeepseekClaudeServer.setTask uuid pending srv).2 in
  let handled :=
    DeepseekClaudeServer.tryCatch
      (DeepseekClaudeServer.tryCatch
         (DeepseekClaudeServer.processTask fmt world uuid cc ih)
         (fun error =>
            DeepseekClaudeServer.bind DeepseekClaudeServer.getActiveTasks
              (fun tasks =>
                 match tasks !! uuid with
                 | Some current =>
                     match errorMessage error with
                     | inr message =>
                         DeepseekClaudeServer.setTask uuid
                           (withError message (withStatus Error current))
                     | inl typeError => DeepseekClaudeServer.throw typeError
                     end
                 | None => DeepseekClaudeServer.ret tt
                 end)))
      DeepseekClaudeServer.unhandledRejection in
  (handled s1).1 = inr tt
  /\ StartedRun world uuid pending srv (handled s1).2.
Proof.
  intros Hpending s1 handled.
  assert (Htask : DeepseekClaudeServer.activeTasks s1 !! uuid = Some pending)
    by apply lookup_insert_eq.
  assert (Hregistered : DeepseekClaudeServer.journal s1
                        = DeepseekClaudeServer.journal srv
                          ++ [TaskWritten (DeepseekClaudeServer.clock srv) uuid pending])
    by reflexivity.
  destruct (caught_run (DeepseekClaudeServer.processTask fmt world uuid cc ih) uuid s1)
    as [Hresult Hfinal].
  fold handled in Hresult, Hfinal.
  split; [exact Hresult|]. clear Hresult.
  set (final := (handled s1).2) in *.
  clearbody final. clear handled. clearbody s1.
  unfold StartedRun. cbv zeta.
  run_cases fmt world uuid cc ih s1 Htask.
  all: rewrite ?Hstored in Hfinal.
  1,2: destruct error as [message|message| |]; cbn [errorMessage] in Hfinal.
  all: subst final.
  all: unfold HandlerCaught, statusWrites, eventsSince;
       cbn [DeepseekClaudeServer.setTask DeepseekClaudeServer.unhandledRejection
            snd DeepseekClaudeServer.journal DeepseekClaudeServer.activeTasks
            DeepseekClaudeServer.clock errorMessage faultText];
       rewrite ?lookup_insert_eq, ?Hstored, Hjournal, Hregistered;
       rewrite <- ?app_assoc, drop_app_length.
  all: destruct (default false cc);
       cbn [app taskWrites answersFrom appendCount unhandled];
       rewrite ?String.eqb_refl;
       change (String.eqb DeepseekClaudeServer.CLAUDE_MODEL
                 DeepseekClaudeServer.DEEPSEEK_MODEL) with false;
       change (String.eqb DeepseekClaudeServer.DEEPSEEK_MODEL
                 DeepseekClaudeServer.CLAUDE_MODEL) with false;
       cbv iota; cbn [map snd fmap option_fmap option_map last].
  all: split; [repeat constructor|].
  all: split; [eexists; split; [reflexivity|]; repeat split|].
  all: exists msgs; split; [reflexivity|]; rewrite Hreasoning.
  all: try (exists msgs'; split; [reflexivity|]; rewrite Hresponse).
  all: cbn [errorMessage faultText]; rewrite ?Hpending; repeat split.
Qed.

(** [handleGenerateResponse] returns the new id after a [StartedRun] on
    the record it registers. *)
Lemma handleGenerateResponse_run (world : World) (args : GenerateResponseArgs.t)
    (uuid : string) (srv : DeepseekClaudeServer.t) :
  let call := McpIndex.handleGenerateResponse world args uuid srv in
  call.1 = inr uuid
  /\ StartedRun world uuid
       (TaskInfo.mk Pending (GenerateResponseArgs.prompt args)
          (GenerateResponseArgs.showReasoning args) None None None
          (DeepseekClaudeServer.clock srv))
       srv call.2.
Proof.
  cbv zeta.
  destruct (started_run McpIndex.formatHistoryForModel world uuid
              (GenerateResponseArgs.clearContext args)
              (GenerateResponseArgs.includeHistory args) srv
              (TaskInfo.mk Pending (GenerateResponseArgs.prompt args)
                 (GenerateResponseArgs.showReasoning args) None None None
                 (DeepseekClaudeServer.clock srv)) eq_refl)
    as [Hresult Hstarted].
  match type of Hresult with
  | (?handled ?s1).1 = _ =>
      change (McpIndex.handleGenerateResponse world args uuid srv)
        with (match handled s1 with
              | (inl e, s') => (inl e, s')
              | (inr _, s') => (inr uuid, s')
              end);
      destruct (handled s1) as [result final]
  end.
  cbn [fst snd] in *. subst result. split; [reflexivity|exact Hstarted].
Qed.

(** The [generate_response] branch of the raw-protocol handler, on
    arguments that pass its guard, does the same. *)
Lemma callTool_generate_run (world : World) (a : ToolArguments.t)
    (uuid : string) (srv : DeepseekClaudeServer.t) :
  Index.isValidGenerateResponseArgs (Some a) = true ->
  let call := Index.callTool world "generate_response" (Some a) uuid srv in
  call.1 = inr (inr (TaskIdResult uuid))
  /\ StartedRun world uuid
       (TaskInfo.mk Pending (Index.asString (ToolArguments.prompt a))
          (Index.asBoolean (ToolArguments.showReasoning a)) None None None
          (DeepseekClaudeServer.clock srv))
       srv call.2.
Proof.
  intros Hvalid. cbv zeta.
  destruct (started_run Index.formatHistoryForModel world uuid
              (Index.asBoolean (ToolArguments.clearContext a))
              (Index.asBoolean (ToolArguments.includeHistory a)) srv
              (TaskInfo.mk Pending (Index.asString (ToolArguments.prompt a))
                 (Index.asBoolean (ToolArguments.showReasoning a)) None None None
                 (DeepseekClaudeServer.clock srv)) eq_refl)
    as [Hresult Hstarted].
  unfold Index.callTool.
  change (String.eqb "generate_response" "generate_response") with true.
  cbv iota. rewrite Hvalid. cbn [negb].
  match type of Hresult with
  | (?handled ?s1).1 = _ =>
      match goal with
      | |- (?call srv).1 = _ /\ _ =>
          change (call srv)
            with (match handled s1
                        return (Fault + (McpError + ToolResult))
                               * DeepseekClaudeServer.t
                  with
                  | (inl e, s') => (inl e, s')
                  | (inr _, s') => (inr (inr (TaskIdResult uuid)), s')
                  end)
      end;
      destruct (handled s1) as [result final]
  end.
  cbn [fst snd] in *. subst result. split; [reflexivity|exact Hstarted].
Qed.





(** C9, as the code has it.  The two servers agree on everything but the
    waiting of the status check.  Their history formatters return the
    same string on every history, and on a well-formed history
    [ConversationManager.formatHistoryForModel] returns that string too;
    a [generate_response] call with the same arguments, id and world
    leaves the two servers in the same state, with the same records
    stored and the same requests sent; and for a task that is terminal
    both status checks answer at once with the same status object. *)
Theorem formatters_agree (history : list ClaudeMessage) (isDeepSeek : bool) :
  Forall (fun msg => ConversationManager.isValidClaudeMessage msg = true) history ->
  McpIndex.formatHistoryForModel history isDeepSeek
  = Index.formatHistoryForModel history isDeepSeek
  /\ ConversationManager.formatHistoryForModel history isDeepSeek
     = inr (Index.formatHistoryForModel history isDeepSeek)
  /\ (forall (world : World) (a : ToolArguments.t) (uuid : string)
             (srv : DeepseekClaudeServer.t),
        Index.isValidGenerateResponseArgs (Some a) = true ->
        let call := Index.callTool world "generate_response" (Some a) uuid srv in
        let call' := McpIndex.handleGenerateResponse world (parsedArgs a) uuid srv in
        call.1 = inr (inr (TaskIdResult uuid))
        /\ call'.1 = inr uuid
        /\ call'.2 = call.2)
  /\ (forall (world : World) (taskId uuid : string) (srv : DeepseekClaudeServer.t)
             (task : TaskInfo.t) (future : Future),
        DeepseekClaudeServer.activeTasks srv !! taskId = Some task ->
        isTerminal (TaskInfo.status task) = true ->
        Index.callTool world "check_response_status" (Some (taskIdOnly taskId))
          uuid srv
        = (inr (inr (StatusResult (Index.statusReport task))), srv)
        /\ McpIndex.handleCheckResponseStatus (DeepseekClaudeServer.activeTasks srv)
             taskId future
           = (Immediate, inr (Index.statusReport task))).
Proof.
  intros Hvalid. split; [|split; [|split]].
  - apply McpIndex_formatHistoryForModel_eq.
  - unfold ConversationManager.formatHistoryForModel.
    assert (Hsome : existsb (fun msg => negb (ConversationManager.isValidClaudeMessage msg))
                      history = false).
    { induction Hvalid as [|msg rest Hmsg _ IH]; [reflexivity|].
      simpl. rewrite Hmsg, IH. reflexivity. }
    unfold ConversationManager.validateHistory. rewrite Hsome.
    rewrite Index_formatHistoryForModel_eq.
    destruct isDeepSeek; reflexivity.
  - intros world a uuid srv Hargs call call'.
    split; [apply (callTool_generate_run world a uuid srv Hargs)|].
    split; [apply (handleGenerateResponse_run world (parsedArgs a) uuid srv)|].
    subst call call'.
    unfold Index.callTool, McpIndex.handleGenerateResponse, Index.background,
      McpIndex.processTask, Index.processTask.
    change (String.eqb "generate_response" "generate_response") with true.
    cbv iota. rewrite Hargs. cbn [negb].
    cbv [DeepseekClaudeServer.bind DeepseekClaudeServer.tryCatch
         DeepseekClaudeServer.dateNow DeepseekClaudeServer.setTask
         DeepseekClaudeServer.ret parsedArgs
         GenerateResponseArgs.prompt GenerateResponseArgs.showReasoning
         GenerateResponseArgs.clearContext GenerateResponseArgs.includeHistory].
    rewrite (processTask_ext McpIndex.formatHistoryForModel
               Index.formatHistoryForModel world uuid _ _ _
               McpIndex_formatHistoryForModel_eq).
    destruct (DeepseekClaudeServer.processTask _ _ _ _ _ _) as [[error|[]] s'];
      [|reflexivity].
    destruct (DeepseekClaudeServer.getActiveTasks s') as [[e|tasks] s''];
      [reflexivity|].
    destruct (tasks !! uuid) as [current|]; [|reflexivity].
    destruct (errorMessage error) as [typeError|message]; reflexivity.
  - intros world taskId uuid srv task future Htask Hterminal. split.
    + unfold Index.callTool.
      change (String.eqb "check_response_status" "generate_response") with false.
      change (String.eqb "check_response_status" "check_response_status") with true.
      cbv iota. cbn [Index.isValidCheckResponseStatusArgs taskIdOnly
                     ToolArguments.taskId negb fmap option_fmap option_map default
                     Index.asString].
      unfold DeepseekClaudeServer.bind, DeepseekClaudeServer.getActiveTasks,
        DeepseekClaudeServer.ret.
      cbv [id]. cbn [Index.asString]. rewrite Htask. reflexivity.
    + unfold McpIndex.handleCheckResponseStatus.
      rewrite Htask, Hterminal. reflexivity.
Qed.

Lemma formatters_agree_witness :
  let history :=
    [ {| role := "user"; content := Text "List the files" |};
      {| role := "assistant";
         content := Parts [ {| part_type := Some "text"; part_text := Some "Here" |};
                            {| part_type := Some "text"; part_text := Some "they are" |} ] |} ] in
  let world := answeringWorld (Some "think") (Some "answer") in
  let srv := DeepseekClaudeServer.new 1000 in
  McpIndex.formatHistoryForModel history true
  = Index.formatHistoryForModel history true
  /\ ConversationManager.formatHistoryForModel history true
     = inr (Index.formatHistoryForModel history true)
  /\ ConversationManager.formatHistoryForModel history true
     = inr ("Human: List the files" +:+ blankLine +:+ "Assistant: Here"
            +:+ JS.LF +:+ "they are")
  /\ (McpIndex.handleGenerateResponse world (parsedArgs (promptOnly "Explain the build"))
        "task-1" srv).2
     = (Index.callTool world "generate_response" (Some (promptOnly "Explain the build"))
          "task-1" srv).2
  /\ McpIndex.handleCheckResponseStatus {[ "task-1" := taskIn Complete ]} "task-1"
       {| ticks := []; atTimeout := ∅ |}
     = (Immediate, inr (Index.statusReport (taskIn Complete))).
Proof.
  intros history world srv.
  destruct (formatters_agree history true) as (Hservers & Hmanager & Hcalls & Hchecks).
  - repeat constructor.
  - split; [exact Hservers|]. split; [exact Hmanager|].
    split; [rewrite Hmanager; reflexivity|].
    split.
    + apply (Hcalls world (promptOnly "Explain the build") "task-1" srv eq_refl).
    + apply (Hchecks world "task-1" "unused" (serverWith (taskIn Complete))
               (taskIn Complete) {| ticks := []; atTimeout := ∅ |} eq_refl eq_refl).
Defined.

(** C9 as stated fails on the status check: the two servers do not
    conform to one behaviour there.  Asked about the same pending task in
    the same registry, the raw-protocol server answers at once with the
    task as it stands, where the declarative-tool server polls and
    answers with what the task has become; and for an id that is not
    registered the first answers with an [McpError], the second throws a
    plain [Error]. *)
Lemma check_response_status_of_pending_task :
  let tasks : gmap string TaskInfo.t := {[ "task-1" := taskIn Pending ]} in
  let changed : gmap string TaskInfo.t := {[ "task-1" := taskIn Complete ]} in
  (Index.callTool (answeringWorld None None) "check_response_status"
     (Some (taskIdOnly "task-1")) "unused" (serverWith (taskIn Pending))).1
  = inr (inr (StatusResult (Index.statusReport (taskIn Pending))))
  /\ DeepseekClaudeServer.activeTasks (serverWith (taskIn Pending)) = tasks
  /\ McpIndex.handleCheckResponseStatus tasks "task-1"
       {| ticks := [changed]; atTimeout := changed |}
     = (Polled, inr (McpIndex.statusReport (taskIn Complete)))
  /\ Index.statusReport (taskIn Pending) <> McpIndex.statusReport (taskIn Complete)
  /\ (Index.callTool (answeringWorld None None) "check_response_status"
        (Some (taskIdOnly "task-2")) "unused" (serverWith (taskIn Pending))).1
     = inr (inl {| code := InvalidRequest;
                   mcp_message := "No task found with ID: task-2" |})
  /\ McpIndex.handleCheckResponseStatus tasks "task-2"
       {| ticks := [changed]; atTimeout := changed |}
     = (Immediate, inl (ErrorObject "No task found with ID: task-2")).
Proof.
  vm_compute. repeat split; try reflexivity. discriminate.
Qed.

(** The records [handleGenerateResponse] and the run it starts store under
    the new id all carry the prompt and the [showReasoning] flag of the
    call, and so does the record left in the registry. *)
Lemma handleGenerateResponse_writes (world : World) (args : GenerateResponseArgs.t)
    (uuid : string) (srv : DeepseekClaudeServer.t) :
  let run := McpIndex.handleGenerateResponse world args uuid srv in
  run.1 = inr uuid
  /\ Forall (fun w => TaskInfo.showReasoning (snd w)
                      = GenerateResponseArgs.showReasoning args
                      /\ TaskInfo.prompt (snd w) = GenerateResponseArgs.prompt args)
       (taskWrites uuid (eventsSince srv run.2))
  /\ (TaskInfo.showReasoning <$> DeepseekClaudeServer.activeTasks run.2 !! uuid)
     = Some (GenerateResponseArgs.showReasoning args).
Proof.
  intros run.
  destruct (handleGenerateResponse_run world args uuid srv)
    as (Hresult & Hwrites & (record & Hstored & Hflag & _) & _).
  fold run in Hresult, Hwrites, Hstored.
  split; [exact Hresult|]. split; [exact Hwrites|].
  rewrite Hstored. cbn. rewrite Hflag. reflexivity.
Qed.

(** The same for the [generate_response] branch of the raw-protocol
    handler, on arguments that pass its guard. *)
Lemma callTool_generate_writes (world : World) (a : ToolArguments.t)
    (uuid : string) (srv : DeepseekClaudeServer.t) :
  Index.isValidGenerateResponseArgs (Some a) = true ->
  let run := Index.callTool world "generate_response" (Some a) uuid srv in
  run.1 = inr (inr (TaskIdResult uuid))
  /\ Forall (fun w => TaskInfo.showReasoning (snd w)
                      = Index.asBoolean (ToolArguments.showReasoning a)
                      /\ TaskInfo.prompt (snd w)
                         = Index.asString (ToolArguments.prompt a))
       (taskWrites uuid (eventsSince srv run.2))
  /\ (TaskInfo.showReasoning <$> DeepseekClaudeServer.activeTasks run.2 !! uuid)
     = Some (Index.asBoolean (ToolArguments.showReasoning a)).
Proof.
  intros Hvalid run.
  destruct (callTool_generate_run world a uuid srv Hvalid)
    as (Hresult & Hwrites & (record & Hstored & Hflag & _) & _).
  fold run in Hresult, Hwrites, Hstored.
  split; [exact Hresult|]. split; [exact Hwrites|].
  rewrite Hstored. cbn. rewrite Hflag. reflexivity.
Qed.

(** C6: in the status object of either server the reasoning is present
    only for a record whose [showReasoning] flag is [true], and the
    response only for a record whose status is [complete]; every record a
    [generate_response] call and its run store carries the flag the call
    was made with, so the reasoning is reported only for a task created
    with [showReasoning] true. *)
Theorem status_report_fields (task : TaskInfo.t) :
  (is_Some (StatusReport.reasoning (Index.statusReport task)) ->
   TaskInfo.showReasoning task = Some true)
  /\ (is_Some (StatusReport.response (Index.statusReport task)) ->
      TaskInfo.status task = Complete)
  /\ (is_Some (StatusReport.reasoning (McpIndex.statusReport task)) ->
      TaskInfo.showReasoning task = Some true)
  /\ (is_Some (StatusReport.response (McpIndex.statusReport task)) ->
      TaskInfo.status task = Complete)
  /\ (forall (world : World) (a : ToolArguments.t) (uuid : string)
             (srv : DeepseekClaudeServer.t) (time : Z),
        Index.isValidGenerateResponseArgs (Some a) = true ->
        In (time, task)
           (taskWrites uuid
              (eventsSince srv
                 (Index.callTool world "generate_response" (Some a) uuid srv).2)) ->
        is_Some (StatusReport.reasoning (Index.statusReport task)) ->
        ToolArguments.showReasoning a = BooleanValue true)
  /\ (forall (world : World) (args : GenerateResponseArgs.t) (uuid : string)
             (srv : DeepseekClaudeServer.t) (time : Z),
        In (time, task)
           (taskWrites uuid
              (eventsSince srv
                 (McpIndex.handleGenerateResponse world args uuid srv).2)) ->
        is_Some (StatusReport.reasoning (McpIndex.statusReport task)) ->
        GenerateResponseArgs.showReasoning args = Some true).
Proof.
  assert (Hflag : forall t : TaskInfo.t,
             is_Some (if default false (TaskInfo.showReasoning t)
                      then TaskInfo.reasoning t else None) ->
             TaskInfo.showReasoning t = Some true).
  { intros t. destruct (TaskInfo.showReasoning t) as [[|]|]; cbn;
      try reflexivity; intros [x Hx]; discriminate. }
  assert (Hcomplete : forall t : TaskInfo.t,
             is_Some (if bool_decide (TaskInfo.status t = Complete)
                      then TaskInfo.response t else None) ->
             TaskInfo.status t = Complete).
  { intros t. case_bool_decide; [intros _; assumption|]. intros [x Hx]; discriminate. }
  repeat split.
  - apply Hflag.
  - apply Hcomplete.
  - apply Hflag.
  - apply Hcomplete.
  - intros world a uuid srv time Hvalid Hin Hshown.
    destruct (callTool_generate_writes world a uuid srv Hvalid) as (_ & Hall & _).
    apply list_elem_of_In in Hin.
    rewrite Forall_forall in Hall. destruct (Hall _ Hin) as [Hsame _].
    cbn [snd] in Hsame. apply Hflag in Hshown. rewrite Hshown in Hsame.
    destruct (ToolArguments.showReasoning a); cbn in Hsame; congruence.
  - intros world args uuid srv time Hin Hshown.
    destruct (handleGenerateResponse_writes world args uuid srv) as (_ & Hall & _).
    apply list_elem_of_In in Hin.
    rewrite Forall_forall in Hall. destruct (Hall _ Hin) as [Hsame _].
    cbn [snd] in Hsame. apply Hflag in Hshown. congruence.
Qed.

Lemma status_report_fields_witness :
  TaskInfo.showReasoning (taskIn Complete) = Some true
  /\ TaskInfo.status (taskIn Complete) = Complete.
Proof.
  destruct (status_report_fields (taskIn Complete)) as (Hreasoning & Hresponse & _).
  split.
  - apply Hreasoning. vm_compute. eexists. reflexivity.
  - apply Hresponse. vm_compute. eexists. reflexivity.
Defined.

(** ** Timestamps *)

(** The record a run stores with the status [reasoning] keeps the
    timestamp the task had before the run, whatever the clock reads. *)
Lemma processTask_first_write fmt world taskId cc ih srv task :
  DeepseekClaudeServer.activeTasks srv !! taskId = Some task ->
  let run := DeepseekClaudeServer.processTask fmt world taskId cc ih srv in
  head (taskWrites taskId (eventsSince srv run.2))
  = Some (DeepseekClaudeServer.clock srv, withStatus Reasoning task)
  /\ TaskInfo.timestamp (withStatus Reasoning task) = TaskInfo.timestamp task.
Proof.
  intros Htask run. subst run. split; [|reflexivity].
  run_cases fmt world taskId cc ih srv Htask.
  all: rewrite Hevents, taskWrites_app.
  all: destruct (default false cc); cbn [taskWrites app];
       rewrite ?String.eqb_refl; reflexivity.
Qed.

(** C4, at a run where the timestamp falls behind: a task created at
    clock reading 1000, with 50 ms spent on the history, 4000 ms on the
    reasoning request and 6000 ms on the response request.  The records
    stored under the task id are listed with the clock reading of each
    write: the record stored at 5050 with the status [responding] still
    carries the timestamp 1000 of the creation, as does the record stored
    with the status [reasoning]; only the [complete] record is stamped
    with the time of its write.  [TaskManager.updateTask] and
    [TaskManager.setTaskStatus] stamp every record they store. *)
Theorem status_updates_keep_creation_timestamp :
  let world := answeringWorld (Some "think") (Some "answer") in
  let run :=
    Index.callTool world "generate_response" (Some (promptOnly "Explain the build"))
      "task-1" (DeepseekClaudeServer.new 1000) in
  let run' :=
    McpIndex.handleGenerateResponse world
      {| GenerateResponseArgs.prompt := "Explain the build";
         GenerateResponseArgs.showReasoning := None;
         GenerateResponseArgs.clearContext := None;
         GenerateResponseArgs.includeHistory := None |}
      "task-1" (DeepseekClaudeServer.new 1000) in
  let writes :=
    [ (1000, TaskInfo.mk Pending "Explain the build" None None None None 1000);
      (1000, TaskInfo.mk Reasoning "Explain the build" None None None None 1000);
      (5050, TaskInfo.mk Responding "Explain the build" None (Some "think") None
               None 1000);
      (11050, TaskInfo.mk Complete "Explain the build" None (Some "think")
                (Some "answer") None 11050) ] in
  taskWrites "task-1" (DeepseekClaudeServer.journal run.2) = writes
  /\ taskWrites "task-1" (DeepseekClaudeServer.journal run'.2) = writes
  /\ (forall tasks tasks' taskId updates now,
        TaskManager.updateTask tasks taskId updates now = inr tasks' ->
        TaskInfo.timestamp <$> tasks' !! taskId = Some now)
  /\ (forall tasks tasks' taskId status info now,
        TaskManager.setTaskStatus tasks taskId status info now = inr tasks' ->
        TaskInfo.timestamp <$> tasks' !! taskId = Some now).
Proof.
  split; [vm_compute; reflexivity|].
  split; [vm_compute; reflexivity|].
  split.
  - intros tasks tasks' taskId updates now. apply updateTask_timestamp.
  - intros tasks tasks' taskId status info now. apply setTaskStatus_timestamp.
Qed.

(** ** Concrete scenarios *)

(** Scenario A: capacity 2 and the entries E1, E2, E3. *)
Lemma capacity_invariant_witness :
  exists ctx : ConversationContext,
    ConversationManager.addEntries {| entries := []; maxEntries := 2 |}
      [entryObject "E1"; entryObject "E2"; entryObject "E3"]
    = inr ctx
    /\ ConversationManager.getEntries ctx = [storedEntry "E2"; storedEntry "E3"]
    /\ length (ConversationManager.getEntries ctx) = 2%nat.
Proof.
  destruct (capacity_invariant 2
              [entryObject "E1"; entryObject "E2"; entryObject "E3"]
              [storedEntry "E1"; storedEntry "E2"; storedEntry "E3"])
    as [(ctx0 & ctx & Hnew & Hempty & Hadd & Hentries & Hlength & Hbound) _].
  - lia.
  - repeat constructor.
  - exists ctx. injection Hnew as <-.
    split; [exact Hadd|]. split; [exact Hentries|exact Hlength].
Defined.

(** Scenario B, with the bound of the buffer's formatter: of two messages
    rendered as 300 code units each only the later one fits 400. *)
Example formatMessagesWithinLimit_scenario :
  ConversationManager.formatMessagesWithinLimit
    [ {| role := "user"; content := Text (JS.repeat "a"%char 293) |};
      {| role := "assistant"; content := Text (JS.repeat "b"%char 289) |} ] 400
  = [ "Assistant: " +:+ JS.repeat "b"%char 289 ].
Proof. vm_compute. reflexivity. Qed.

(** Scenario E without the wall clock: a pending task that is found in
    [reasoning] at the second poll is returned in that state; one that
    never changes is returned as it is when the timeout fires. *)
Example waitForTaskUpdate_scenario :
  let tasks : gmap string TaskInfo.t := {[ "task-1" := taskIn Pending ]} in
  let changed : gmap string TaskInfo.t := {[ "task-1" := taskIn Reasoning ]} in
  TaskManager.waitForTaskUpdate tasks "task-1" 200
    {| ticks := [tasks; changed]; atTimeout := changed |}
  = (Polled, inr (taskIn Reasoning))
  /\ TaskManager.waitForTaskUpdate tasks "task-1" 200
       {| ticks := [tasks]; atTimeout := tasks |}
     = (Polled, inr (taskIn Pending))
  /\ TaskManager.waitForTaskUpdate tasks "task-1" 0
       {| ticks := [tasks]; atTimeout := tasks |}
     = (Immediate, inl (TaskManager.Throw "Timeout must be a positive number"))
  /\ TaskManager.waitForTaskUpdate tasks "task-2" 200
       {| ticks := [tasks]; atTimeout := tasks |}
     = (Immediate, inl (TaskManager.Throw "Task task-2 not found")).
Proof. vm_compute. repeat split; reflexivity. Qed.

(** * Further properties of the code *)

(** ** [TaskManager] *)

Lemma trimEnd_empty_iff (s : string) :
  JS.trimEnd s = EmptyString <-> JS.allWhiteSpace s = true.
Proof.
  induction s as [|c s IH]; [split; reflexivity|].
  cbn [JS.trimEnd JS.allWhiteSpace].
  destruct (JS.trimEnd s) as [|c' kept] eqn:Hend.
  - destruct (JS.isWhiteSpace c); cbn [andb].
    + split; intros _; [apply IH|]; reflexivity.
    + split; discriminate.
  - split; [discriminate|].
    intros [_ Hs]%andb_prop. apply IH in Hs. discriminate.
Qed.

Lemma trimStart_head (s : string) :
  match JS.trimStart s with
  | EmptyString => JS.allWhiteSpace s = true
  | String c _ => JS.isWhiteSpace c = false /\ JS.allWhiteSpace s = false
  end.
Proof.
  induction s as [|c s IH]; [reflexivity|].
  cbn [JS.trimStart JS.allWhiteSpace].
  destruct (JS.isWhiteSpace c) eqn:Hc; cbn [andb].
  - exact IH.
  - split; [exact Hc|reflexivity].
Qed.

(** [trim] leaves nothing exactly of the strings made of white space. *)
Lemma trim_empty_iff (s : string) :
  JS.trim s = EmptyString <-> JS.allWhiteSpace s = true.
Proof.
  unfold JS.trim. rewrite trimEnd_empty_iff.
  pose proof (trimStart_head s) as Hhead.
  destruct (JS.trimStart s) as [|c rest].
  - split; [intros _; exact Hhead|reflexivity].
  - destruct Hhead as [Hc Hs]. cbn [JS.allWhiteSpace]. rewrite Hc, Hs.
    split; discriminate.
Qed.

(** X1: [createTask] throws exactly on the prompts made of white space
    only; every other prompt is stored as given (not trimmed) in a pending
    record stamped with the time of the call. *)
Theorem createTask_rejects_exactly_blank (tasks : gmap string TaskInfo.t)
    (prompt : string) (showReasoning : option bool) (uuid : string) (now : Z) :
  TaskManager.createTask tasks prompt showReasoning uuid now
  = if JS.allWhiteSpace prompt
    then inl (TaskManager.Throw "Prompt cannot be empty")
    else inr (uuid,
              <[uuid := TaskInfo.mk Pending prompt showReasoning None None None now]>
                tasks).
Proof.
  unfold TaskManager.createTask.
  destruct (JS.allWhiteSpace prompt) eqn:Hblank.
  - apply trim_empty_iff in Hblank. rewrite Hblank. reflexivity.
  - destruct (JS.trim prompt) as [|c rest] eqn:Htrim; [|reflexivity].
    apply trim_empty_iff in Htrim. congruence.
Qed.

(** X2: a task created under a non-empty id is what [getTask] returns for
    that id, and the tasks stored under other ids are as before. *)
Theorem createTask_getTask (tasks : gmap string TaskInfo.t) (prompt : string)
    (showReasoning : option bool) (uuid : string) (now : Z) :
  JS.allWhiteSpace prompt = false ->
  uuid <> EmptyString ->
  exists tasks' : gmap string TaskInfo.t,
    TaskManager.createTask tasks prompt showReasoning uuid now = inr (uuid, tasks')
    /\ TaskManager.getTask tasks' uuid
       = inr (Some (TaskInfo.mk Pending prompt showReasoning None None None now))
    /\ (forall other : string,
          other <> uuid ->
          other <> EmptyString ->
          TaskManager.getTask tasks' other = TaskManager.getTask tasks other).
Proof.
  intros Hprompt Hid.
  unfold TaskManager.createTask.
  destruct (JS.trim prompt) as [|first others] eqn:Htrim;
    [apply trim_empty_iff in Htrim; congruence|].
  eexists. split; [reflexivity|].
  assert (Hvalid : forall id, id <> EmptyString ->
                              TaskManager.validateTaskId id = inr tt).
  { intros [|c rest] Hne; [congruence|reflexivity]. }
  unfold TaskManager.getTask. split.
  - rewrite Hvalid by assumption. rewrite lookup_insert_eq. reflexivity.
  - intros other Hother Hne. rewrite Hvalid by assumption.
    rewrite lookup_insert_ne by congruence. reflexivity.
Qed.

Lemma createTask_getTask_witness :
  exists tasks' : gmap string TaskInfo.t,
    TaskManager.createTask ∅ "  Explain  " (Some true) "task-1" 1000
    = inr ("task-1", tasks')
    /\ TaskManager.getTask tasks' "task-1"
       = inr (Some (TaskInfo.mk Pending "  Explain  " (Some true) None None None 1000)).
Proof.
  destruct (createTask_getTask ∅ "  Explain  " (Some true) "task-1" 1000)
    as (tasks' & Hcreate & Hget & _).
  - reflexivity.
  - discriminate.
  - exists tasks'. split; assumption.
Defined.

(** X3: [setTaskStatus] is [updateTask] with the status added to the
    updates, the given status winning over one in [additionalInfo]. *)
Theorem setTaskStatus_as_updateTask (tasks : gmap string TaskInfo.t)
    (taskId : string) (status : TaskStatus) (additionalInfo : PartialTaskInfo.t)
    (now : Z) :
  TaskManager.setTaskStatus tasks taskId status additionalInfo now
  = TaskManager.updateTask tasks taskId
      (PartialTaskInfo.mk (Some status)
         (PartialTaskInfo.prompt additionalInfo)
         (PartialTaskInfo.showReasoning additionalInfo)
         (PartialTaskInfo.reasoning additionalInfo)
         (PartialTaskInfo.response additionalInfo)
         (PartialTaskInfo.error additionalInfo)
         (PartialTaskInfo.timestamp additionalInfo))
      now.
Proof.
  unfold TaskManager.setTaskStatus, TaskManager.updateTask.
  destruct (TaskManager.validateTaskId taskId); [reflexivity|].
  destruct (tasks !! taskId) as [task|]; reflexivity.
Qed.

(** X4: a successful [updateTask] changes one record only: no id is added
    or removed, the other records are untouched, and in the updated record
    the properties absent from the updates are kept while the timestamp is
    the time of the call, also when the updates carry a timestamp. *)
Theorem updateTask_frame (tasks tasks' : gmap string TaskInfo.t) (taskId : string)
    (updates : PartialTaskInfo.t) (now : Z) :
  TaskManager.updateTask tasks taskId updates now = inr tasks' ->
  dom tasks' = dom tasks
  /\ (forall other : string, other <> taskId -> tasks' !! other = tasks !! other)
  /\ exists before after : TaskInfo.t,
       tasks !! taskId = Some before
       /\ tasks' !! taskId = Some after
       /\ TaskInfo.timestamp after = now
       /\ (PartialTaskInfo.status updates = None ->
           TaskInfo.status after = TaskInfo.status before)
       /\ (PartialTaskInfo.prompt updates = None ->
           TaskInfo.prompt after = TaskInfo.prompt before)
       /\ (PartialTaskInfo.showReasoning updates = None ->
           TaskInfo.showReasoning after = TaskInfo.showReasoning before)
       /\ (PartialTaskInfo.reasoning updates = None ->
           TaskInfo.reasoning after = TaskInfo.reasoning before)
       /\ (PartialTaskInfo.response updates = None ->
           TaskInfo.response after = TaskInfo.response before)
       /\ (PartialTaskInfo.error updates = None ->
           TaskInfo.error after = TaskInfo.error before).
Proof.
  unfold TaskManager.updateTask.
  destruct (TaskManager.validateTaskId taskId); [discriminate|].
  destruct (tasks !! taskId) as [task|] eqn:Htask; [|discriminate].
  intros [= <-]. split; [|split].
  - rewrite dom_insert_L.
    assert (Hin : taskId ∈ dom tasks) by (apply elem_of_dom; eauto).
    apply set_eq. intros x. rewrite elem_of_union, elem_of_singleton.
    split; [intros [->|Hx]; assumption|intros Hx; right; exact Hx].
  - intros other Hother. apply lookup_insert_ne. congruence.
  - exists task, (withTimestamp now (spread task updates)).
    split; [reflexivity|]. split; [apply lookup_insert_eq|].
    split; [reflexivity|].
    repeat split; intros Habsent; cbn; rewrite Habsent; reflexivity.
Qed.

Lemma updateTask_frame_witness :
  exists after : TaskInfo.t,
    <[ "task-1" :=
         TaskInfo.mk Reasoning "Explain the build" (Some true) (Some "think")
           (Some "answer") None 2000 ]>
      ({[ "task-1" := taskIn Pending ]} : gmap string TaskInfo.t)
    !! "task-1" = Some after
    /\ TaskInfo.timestamp after = 2000
    /\ TaskInfo.prompt after = TaskInfo.prompt (taskIn Pending).
Proof.
  destruct (updateTask_frame
              {[ "task-1" := taskIn Pending ]}
              (<[ "task-1" :=
                    TaskInfo.mk Reasoning "Explain the build" (Some true)
                      (Some "think") (Some "answer") None 2000 ]>
                 {[ "task-1" := taskIn Pending ]})
              "task-1"
              (PartialTaskInfo.mk (Some Reasoning) None None None None None (Some 5))
              2000)
    as (_ & _ & before & after & Hbefore & Hafter & Htime & _ & Hprompt & _).
  - reflexivity.
  - exists after. split; [exact Hafter|]. split; [exact Htime|].
    rewrite Hprompt by reflexivity.
    rewrite lookup_singleton_eq in Hbefore. injection Hbefore as <-. reflexivity.
Defined.

(** X5: how the registry answers a bad id.  An empty id makes every
    operation throw ['Invalid task ID'], whatever the registry holds; an id
    that is not registered makes [updateTask], [setTaskStatus] and
    [waitForTaskUpdate] throw ['Task ... not found'], while [getTask]
    returns [undefined] without throwing; and [waitForTaskUpdate] checks
    its timeout before it looks the task up, so a timeout that is not
    positive throws even for a task that is already terminal. *)
Theorem registry_rejects_bad_arguments (tasks : gmap string TaskInfo.t)
    (taskId : string) (status : TaskStatus) (updates : PartialTaskInfo.t)
    (now timeout : Z) (future : Future) :
  (TaskManager.getTask tasks EmptyString
   = inl (TaskManager.Throw "Invalid task ID")
   /\ TaskManager.updateTask tasks EmptyString updates now
      = inl (TaskManager.Throw "Invalid task ID")
   /\ TaskManager.setTaskStatus tasks EmptyString status updates now
      = inl (TaskManager.Throw "Invalid task ID")
   /\ TaskManager.waitForTaskUpdate tasks EmptyString timeout future
      = (Immediate, inl (TaskManager.Throw "Invalid task ID")))
  /\ (taskId <> EmptyString ->
      tasks !! taskId = None ->
      TaskManager.getTask tasks taskId = inr None
      /\ TaskManager.updateTask tasks taskId updates now
         = inl (TaskManager.Throw ("Task " +:+ taskId +:+ " not found"))
      /\ TaskManager.setTaskStatus tasks taskId status updates now
         = inl (TaskManager.Throw ("Task " +:+ taskId +:+ " not found"))
      /\ (0 < timeout ->
          TaskManager.waitForTaskUpdate tasks taskId timeout future
          = (Immediate,
             inl (TaskManager.Throw ("Task " +:+ taskId +:+ " not found")))))
  /\ (taskId <> EmptyString ->
      timeout <= 0 ->
      TaskManager.waitForTaskUpdate tasks taskId timeout future
      = (Immediate, inl (TaskManager.Throw "Timeout must be a positive number"))).
Proof.
  split; [repeat split; reflexivity|].
  assert (Hvalid : taskId <> EmptyString ->
                   TaskManager.validateTaskId taskId = inr tt).
  { destruct taskId; [congruence|reflexivity]. }
  split.
  - intros Hid Hnone. specialize (Hvalid Hid).
    unfold TaskManager.getTask, TaskManager.updateTask, TaskManager.setTaskStatus,
      TaskManager.waitForTaskUpdate.
    rewrite Hvalid, Hnone. repeat split.
    intros Htimeout. unfold TaskManager.validateTimeout.
    destruct (Z.leb_spec timeout 0); [lia|reflexivity].
  - intros Hid Htimeout. specialize (Hvalid Hid).
    unfold TaskManager.waitForTaskUpdate, TaskManager.validateTimeout.
    rewrite Hvalid. destruct (Z.leb_spec timeout 0); [reflexivity|lia].
Qed.

Lemma registry_rejects_bad_arguments_witness :
  TaskManager.getTask {[ "task-1" := taskIn Complete ]} "task-2" = inr None
  /\ TaskManager.updateTask {[ "task-1" := taskIn Complete ]} "task-2"
       PartialTaskInfo.empty 2000
     = inl (TaskManager.Throw "Task task-2 not found")
  /\ TaskManager.waitForTaskUpdate {[ "task-1" := taskIn Complete ]} "task-1" 0
       {| ticks := []; atTimeout := ∅ |}
     = (Immediate, inl (TaskManager.Throw "Timeout must be a positive number")).
Proof.
  destruct (registry_rejects_bad_arguments
              {[ "task-1" := taskIn Complete ]} "task-2" Pending
              PartialTaskInfo.empty 2000 0 {| ticks := []; atTimeout := ∅ |})
    as (_ & Hunknown & _).
  destruct Hunknown as (Hget & Hupdate & _); [discriminate|reflexivity|].
  destruct (registry_rejects_bad_arguments
              {[ "task-1" := taskIn Complete ]} "task-1" Pending
              PartialTaskInfo.empty 2000 0 {| ticks := []; atTimeout := ∅ |})
    as (_ & _ & Htimeout).
  split; [exact Hget|]. split; [exact Hupdate|].
  apply Htimeout; [discriminate|lia].
Defined.

(** While the polled status is the initial one and not terminal, the
    interval callback keeps waiting. *)
Lemma poll_quiet (taskId : string) (initialStatus : TaskStatus)
    (quiet rest : list (gmap string TaskInfo.t)) (atTimeout : gmap string TaskInfo.t) :
  isTerminal initialStatus = false ->
  Forall (fun tasks => exists t, tasks !! taskId = Some t
                                 /\ TaskInfo.status t = initialStatus) quiet ->
  TaskManager.poll taskId initialStatus (quiet ++ rest) atTimeout
  = TaskManager.poll taskId initialStatus rest atTimeout.
Proof.
  intros Hinitial Hquiet.
  induction Hquiet as [|tasks quiet (t & Ht & Hstatus) _ IH]; [reflexivity|].
  cbn [app TaskManager.poll]. rewrite Ht, Hstatus.
  unfold TaskManager.isTaskComplete. rewrite Hinitial.
  rewrite bool_decide_eq_false_2 by (intros Hne; apply Hne; reflexivity).
  exact IH.
Qed.

(** X6: a wait on a task that is not terminal and whose status stays the
    same at every poll ends with the timeout and returns the record found
    in the registry then, whatever its status; the wait throws if the task
    is gone by then. *)
Theorem waitForTaskUpdate_timeout (tasks : gmap string TaskInfo.t) (taskId : string)
    (task : TaskInfo.t) (timeout : Z) (quiet : list (gmap string TaskInfo.t))
    (final : gmap string TaskInfo.t) :
  taskId <> EmptyString ->
  0 < timeout ->
  tasks !! taskId = Some task ->
  isTerminal (TaskInfo.status task) = false ->
  Forall (fun polled => exists t, polled !! taskId = Some t
                                  /\ TaskInfo.status t = TaskInfo.status task) quiet ->
  TaskManager.waitForTaskUpdate tasks taskId timeout
    {| ticks := quiet; atTimeout := final |}
  = (Polled,
     match final !! taskId with
     | Some finalTask => inr finalTask
     | None => inl (TaskManager.Throw ("Task " +:+ taskId +:+ " no longer exists"))
     end).
Proof.
  intros Hid Htimeout Htask Hrunning Hquiet.
  unfold TaskManager.waitForTaskUpdate, TaskManager.validateTaskId,
    TaskManager.validateTimeout, TaskManager.isTaskComplete.
  destruct taskId as [|c rest]; [congruence|]. cbn [JS.truthy].
  destruct (Z.leb_spec timeout 0); [lia|].
  rewrite Htask, Hrunning. cbn [ticks atTimeout].
  rewrite <- (app_nil_r quiet), poll_quiet by assumption.
  cbn [TaskManager.poll]. destruct (final !! String c rest); reflexivity.
Qed.

Lemma waitForTaskUpdate_timeout_witness :
  TaskManager.waitForTaskUpdate {[ "task-1" := taskIn Pending ]} "task-1" 200
    {| ticks := [ {[ "task-1" := taskIn Pending ]} ];
       atTimeout := {[ "task-1" := taskIn Reasoning ]} |}
  = (Polled, inr (taskIn Reasoning)).
Proof.
  assert (Hwait := waitForTaskUpdate_timeout
           {[ "task-1" := taskIn Pending ]} "task-1" (taskIn Pending) 200
           [ {[ "task-1" := taskIn Pending ]} ] {[ "task-1" := taskIn Reasoning ]}).
  apply Hwait; clear Hwait.
  - discriminate.
  - lia.
  - reflexivity.
  - reflexivity.
  - repeat constructor. exists (taskIn Pending). split; reflexivity.
Defined.

(** X7: a wait on a task that is not terminal returns at the first poll
    that finds the status changed, with the record of that poll; what the
    registry holds at later polls or at the timeout does not matter.  If
    that poll finds the task gone, the wait throws. *)
Theorem waitForTaskUpdate_change (tasks : gmap string TaskInfo.t) (taskId : string)
    (task : TaskInfo.t) (timeout : Z) (quiet later : list (gmap string TaskInfo.t))
    (changed final : gmap string TaskInfo.t) :
  taskId <> EmptyString ->
  0 < timeout ->
  tasks !! taskId = Some task ->
  isTerminal (TaskInfo.status task) = false ->
  Forall (fun polled => exists t, polled !! taskId = Some t
                                  /\ TaskInfo.status t = TaskInfo.status task) quiet ->
  (forall t, changed !! taskId = Some t -> TaskInfo.status t <> TaskInfo.status task) ->
  TaskManager.waitForTaskUpdate tasks taskId timeout
    {| ticks := quiet ++ changed :: later; atTimeout := final |}
  = (Polled,
     match changed !! taskId with
     | Some finalTask => inr finalTask
     | None => inl (TaskManager.Throw ("Task " +:+ taskId +:+ " no longer exists"))
     end).
Proof.
  intros Hid Htimeout Htask Hrunning Hquiet Hchanged.
  unfold TaskManager.waitForTaskUpdate, TaskManager.validateTaskId,
    TaskManager.validateTimeout, TaskManager.isTaskComplete.
  destruct taskId as [|c rest]; [congruence|]. cbn [JS.truthy].
  destruct (Z.leb_spec timeout 0); [lia|].
  rewrite Htask, Hrunning. cbn [ticks atTimeout].
  rewrite poll_quiet by assumption.
  cbn [TaskManager.poll].
  destruct (changed !! String c rest) as [t|] eqn:Hfound; [|reflexivity].
  rewrite bool_decide_eq_true_2 by (apply Hchanged; reflexivity).
  cbn [orb]. rewrite Hfound. reflexivity.
Qed.

Lemma waitForTaskUpdate_change_witness :
  TaskManager.waitForTaskUpdate {[ "task-1" := taskIn Pending ]} "task-1" 200
    {| ticks := [ {[ "task-1" := taskIn Pending ]};
                  {[ "task-1" := taskIn Reasoning ]};
                  {[ "task-1" := taskIn Complete ]} ];
       atTimeout := {[ "task-1" := taskIn Complete ]} |}
  = (Polled, inr (taskIn Reasoning)).
Proof.
  assert (Hwait := waitForTaskUpdate_change
           {[ "task-1" := taskIn Pending ]} "task-1" (taskIn Pending) 200
           [ {[ "task-1" := taskIn Pending ]} ]
           [ {[ "task-1" := taskIn Complete ]} ]
           {[ "task-1" := taskIn Reasoning ]} {[ "task-1" := taskIn Complete ]}).
  apply Hwait; clear Hwait.
  - discriminate.
  - lia.
  - reflexivity.
  - reflexivity.
  - repeat constructor. exists (taskIn Pending). split; reflexivity.
  - intros t Ht. vm_compute in Ht. injection Ht as <-. discriminate.
Defined.

Lemma McpIndex_poll_eq (taskId : string) (initialStatus : TaskStatus)
    (polls : list (gmap string TaskInfo.t)) (atTimeout : gmap string TaskInfo.t) :
  match TaskManager.poll taskId initialStatus polls atTimeout with
  | TaskManager.Resolved tasks =>
      McpIndex.poll taskId initialStatus polls atTimeout = McpIndex.Resolved tasks
  | TaskManager.Rejected e =>
      McpIndex.poll taskId initialStatus polls atTimeout
      = McpIndex.Rejected (ErrorObject (TaskManager.message e))
  end.
Proof.
  induction polls as [|tasks polls IH]; [reflexivity|].
  cbn [TaskManager.poll McpIndex.poll].
  destruct (tasks !! taskId) as [t|]; [|reflexivity].
  unfold TaskManager.isTaskComplete.
  destruct (TaskInfo.status t), initialStatus; cbn; try reflexivity; exact IH.
Qed.

(** X8: the status handler of the declarative-tool server waits the way
    [TaskManager.waitForTaskUpdate] does: on the same registry and the
    same polls, for a registered task, it takes the same path and reports
    the record the registry call returns, and it throws where that call
    throws. *)
Theorem handleCheckResponseStatus_as_waitForTaskUpdate
    (tasks : gmap string TaskInfo.t) (taskId : string) (timeout : Z)
    (future : Future) :
  taskId <> EmptyString ->
  0 < timeout ->
  is_Some (tasks !! taskId) ->
  match TaskManager.waitForTaskUpdate tasks taskId timeout future with
  | (path, inr task) =>
      McpIndex.handleCheckResponseStatus tasks taskId future
      = (path, inr (McpIndex.statusReport task))
  | (path, inl e) =>
      McpIndex.handleCheckResponseStatus tasks taskId future
      = (path, inl (ErrorObject (TaskManager.message e)))
  end.
Proof.
  intros Hid Htimeout [task Htask].
  unfold TaskManager.waitForTaskUpdate, McpIndex.handleCheckResponseStatus,
    TaskManager.validateTaskId, TaskManager.validateTimeout,
    TaskManager.isTaskComplete.
  destruct taskId as [|c rest]; [congruence|]. cbn [JS.truthy].
  destruct (Z.leb_spec timeout 0); [lia|].
  rewrite Htask.
  destruct (isTerminal (TaskInfo.status task)); [reflexivity|].
  pose proof (McpIndex_poll_eq (String c rest) (TaskInfo.status task)
                (ticks future) (atTimeout future)) as Hpoll.
  destruct (TaskManager.poll (String c rest) (TaskInfo.status task)
              (ticks future) (atTimeout future)) as [e|tasks'];
    rewrite Hpoll; [reflexivity|].
  destruct (tasks' !! String c rest); reflexivity.
Qed.

Lemma handleCheckResponseStatus_as_waitForTaskUpdate_witness :
  McpIndex.handleCheckResponseStatus {[ "task-1" := taskIn Pending ]} "task-1"
    {| ticks := [ {[ "task-1" := taskIn Responding ]} ]; atTimeout := ∅ |}
  = (Polled, inr (McpIndex.statusReport (taskIn Responding))).
Proof.
  assert (Hsame : "task-1" <> EmptyString -> 0 < 10000 ->
                  is_Some (({[ "task-1" := taskIn Pending ]}
                            : gmap string TaskInfo.t) !! "task-1") ->
                  McpIndex.handleCheckResponseStatus
                    {[ "task-1" := taskIn Pending ]} "task-1"
                    {| ticks := [ {[ "task-1" := taskIn Responding ]} ];
                       atTimeout := ∅ |}
                  = (Polled, inr (McpIndex.statusReport (taskIn Responding))))
    by exact (handleCheckResponseStatus_as_waitForTaskUpdate
                {[ "task-1" := taskIn Pending ]} "task-1" 10000
                {| ticks := [ {[ "task-1" := taskIn Responding ]} ];
                   atTimeout := ∅ |}).
  apply Hsame.
  - discriminate.
  - lia.
  - eexists. reflexivity.
Defined.

(** ** [ConversationManager] *)

(** X9: a buffer built with a capacity [K > 0] keeps that capacity and
    never holds more than [K] entries, whatever sequence of [addEntry]
    calls (with complete or incomplete objects) and [clearContext] calls
    it receives. *)
Theorem bufferCalls_within_capacity (K : Z) (calls : list BufferCall) :
  0 < K ->
  exists ctx0 : ConversationContext,
    ConversationManager.new K = inr ctx0
    /\ maxEntries (bufferCalls ctx0 calls) = K
    /\ Z.of_nat (length (ConversationManager.getEntries (bufferCalls ctx0 calls)))
       <= K.
Proof.
  intros HK. exists {| entries := []; maxEntries := K |}. split.
  { unfold ConversationManager.new, ConversationManager.validateMaxEntries.
    destruct (Z.leb_spec K 0); [lia|reflexivity]. }
  assert (Hinv : forall ctx : ConversationContext,
             maxEntries ctx = K ->
             Z.of_nat (length (entries ctx)) <= K ->
             maxEntries (bufferCalls ctx calls) = K
             /\ Z.of_nat (length (entries (bufferCalls ctx calls))) <= K).
  { induction calls as [|call calls IH]; intros ctx Hmax Hlen; [split; assumption|].
    cbn [bufferCalls foldl]. apply IH.
    - destruct call as [entry|]; cbn [bufferCall]; [|exact Hmax].
      unfold ConversationManager.addEntry.
      destruct (ConversationManager.validateEntry entry) as [e|e]; [exact Hmax|].
      rewrite <- Hmax in Hlen.
      destruct (pushBounded_within_capacity ctx e Hlen) as (_ & Hsame & _).
      congruence.
    - destruct call as [entry|]; cbn [bufferCall].
      + unfold ConversationManager.addEntry.
        destruct (ConversationManager.validateEntry entry) as [e|e]; [exact Hlen|].
        rewrite <- Hmax in Hlen |- *.
        apply (pushBounded_within_capacity ctx e Hlen).
      + cbn. lia. }
  apply Hinv; [reflexivity|cbn; lia].
Qed.

Lemma bufferCalls_within_capacity_witness :
  exists ctx0 : ConversationContext,
    ConversationManager.new 1 = inr ctx0
    /\ maxEntries
         (bufferCalls ctx0
            [AddEntry (entryObject "E1"); AddEntry None; ClearContext;
             AddEntry (entryObject "E2"); AddEntry (entryObject "E3")])
       = 1
    /\ Z.of_nat
         (length
            (ConversationManager.getEntries
               (bufferCalls ctx0
                  [AddEntry (entryObject "E1"); AddEntry None; ClearContext;
                   AddEntry (entryObject "E2"); AddEntry (entryObject "E3")])))
       <= 1.
Proof.
  apply (bufferCalls_within_capacity 1
           [AddEntry (entryObject "E1"); AddEntry None; ClearContext;
            AddEntry (entryObject "E2"); AddEntry (entryObject "E3")]).
  lia.
Defined.

(** X10: the buffer renders the same text for a prompt in
    [ConversationManager] and in the servers, the empty buffer included
    (the class tests for it, the servers rely on [join]). *)
Theorem formatContextForPrompt_agree (ctx : ConversationContext) :
  ConversationManager.formatContextForPrompt ctx
  = DeepseekClaudeServer.formatContextForPrompt ctx
  /\ (entries ctx = [] ->
      DeepseekClaudeServer.formatContextForPrompt ctx = EmptyString)
  /\ (forall e : ConversationEntry.t,
        entries ctx = [e] ->
        DeepseekClaudeServer.formatContextForPrompt ctx
        = "Question: " +:+ ConversationEntry.prompt e +:+ JS.LF
          +:+ "Reasoning: " +:+ ConversationEntry.reasoning e +:+ JS.LF
          +:+ "Answer: " +:+ ConversationEntry.response e).
Proof.
  unfold ConversationManager.formatContextForPrompt,
    DeepseekClaudeServer.formatContextForPrompt, ConversationManager.formatEntry.
  split; [|split].
  - destruct (entries ctx); reflexivity.
  - intros ->. reflexivity.
  - intros e ->. reflexivity.
Qed.

Lemma formatContextForPrompt_agree_witness :
  DeepseekClaudeServer.formatContextForPrompt
    {| entries := [storedEntry "Explain the build"]; maxEntries := 10 |}
  = "Question: Explain the build" +:+ JS.LF
    +:+ "Reasoning: because" +:+ JS.LF +:+ "Answer: done".
Proof.
  apply (proj2 (proj2 (formatContextForPrompt_agree
                         {| entries := [storedEntry "Explain the build"];
                            maxEntries := 10 |}))
           (storedEntry "Explain the build")).
  reflexivity.
Defined.

(** ** The history formatter *)

Lemma totalLength_take_le (parts : list string) (k : nat) :
  totalLength (take k parts) <= totalLength parts.
Proof.
  revert k. induction parts as [|s parts IH]; intros [|k]; simpl;
    try lia.
  - pose proof (totalLength_nonneg parts). pose proof (JS_length_nonneg s). lia.
  - specialize (IH k). lia.
Qed.

(** The loop stops at the first message that does not fit. *)
Lemma withinLimitLoop_stop L pending acc total :
  exists k : nat,
    ConversationManager.withinLimitLoop L pending acc total
    = acc ++ map ConversationManager.formatMessage (take k pending)
    /\ (total <= L ->
        total + totalLength (map ConversationManager.formatMessage (take k pending))
        <= L)
    /\ (forall msg : ClaudeMessage,
          pending !! k = Some msg ->
          total + totalLength (map ConversationManager.formatMessage (take k pending))
          + JS.length (ConversationManager.formatMessage msg) > L).
Proof.
  revert acc total.
  induction pending as [|msg older IH]; intros acc total.
  - exists 0%nat. simpl. rewrite app_nil_r.
    split; [reflexivity|]. split; [lia|]. intros m Hm. discriminate.
  - simpl.
    destruct (Z.gtb_spec (total + JS.length (ConversationManager.formatMessage msg)) L)
      as [Hover|Hfits].
    + exists 0%nat. simpl. rewrite app_nil_r.
      split; [reflexivity|]. split; [lia|].
      intros m [= <-]. lia.
    + destruct (IH (acc ++ [ConversationManager.formatMessage msg])
                   (total + JS.length (ConversationManager.formatMessage msg)))
        as (k & Heq & Hsum & Hstop).
      exists (S k). simpl. rewrite Heq, <- app_assoc. simpl.
      split; [reflexivity|]. split.
      * intros _. specialize (Hsum Hfits). lia.
      * intros m Hm. specialize (Hstop m Hm). lia.
Qed.

(** The rendered messages are a suffix of the history that fits the bound
    and cannot be extended by the message before it. *)
Lemma formatMessagesWithinLimit_split (history : list ClaudeMessage) (L : Z) :
  0 <= L ->
  exists dropped kept : list ClaudeMessage,
    history = dropped ++ kept
    /\ ConversationManager.formatMessagesWithinLimit history L
       = map ConversationManager.formatMessage kept
    /\ totalLength (map ConversationManager.formatMessage kept) <= L
    /\ (forall msg : ClaudeMessage,
          last dropped = Some msg ->
          totalLength (map ConversationManager.formatMessage kept)
          + JS.length (ConversationManager.formatMessage msg) > L).
Proof.
  intros HL. unfold ConversationManager.formatMessagesWithinLimit.
  destruct (withinLimitLoop_stop L (reverse history) [] 0) as (k & Heq & Hsum & Hstop).
  exists (take (length history - k) history), (drop (length history - k) history).
  split; [symmetry; apply take_drop|].
  rewrite Heq. simpl.
  rewrite take_reverse in *. rewrite map_reverse in *.
  rewrite reverse_involutive. rewrite totalLength_reverse in *.
  split; [reflexivity|]. split; [lia|].
  intros msg Hlast. apply Z.lt_gt.
  assert (Hk : reverse history !! k = Some msg).
  { rewrite last_lookup in Hlast. rewrite length_take in Hlast.
    apply lookup_take_Some in Hlast as [Hlook Hlt].
    assert (k < length history)%nat by lia.
    rewrite reverse_lookup by assumption.
    rewrite <- Hlook. f_equal. lia. }
  specialize (Hstop msg Hk). lia.
Qed.

(** X11: [formatMessagesWithinLimit] splits the history in two: the
    messages it renders are the suffix [kept], they fit the bound
    together, and the message just before them, if there is one, would
    not have fitted with them. *)
Theorem formatMessagesWithinLimit_maximal (history : list ClaudeMessage) (L : Z) :
  0 <= L ->
  exists dropped kept : list ClaudeMessage,
    history = dropped ++ kept
    /\ ConversationManager.formatMessagesWithinLimit history L
       = map ConversationManager.formatMessage kept
    /\ totalLength (map ConversationManager.formatMessage kept) <= L
    /\ (forall msg : ClaudeMessage,
          last dropped = Some msg ->
          totalLength (map ConversationManager.formatMessage kept)
          + JS.length (ConversationManager.formatMessage msg) > L).
Proof.
  exact (formatMessagesWithinLimit_split history L).
Qed.

Lemma formatMessagesWithinLimit_maximal_witness :
  exists dropped kept : list ClaudeMessage,
    [longMessage 293; longMessage 100; longMessage 150] = dropped ++ kept
    /\ ConversationManager.formatMessagesWithinLimit
         [longMessage 293; longMessage 100; longMessage 150] 400
       = map ConversationManager.formatMessage kept
    /\ totalLength (map ConversationManager.formatMessage kept) <= 400
    /\ (forall msg : ClaudeMessage,
          last dropped = Some msg ->
          totalLength (map ConversationManager.formatMessage kept)
          + JS.length (ConversationManager.formatMessage msg) > 400).
Proof.
  apply (formatMessagesWithinLimit_maximal
           [longMessage 293; longMessage 100; longMessage 150] 400).
  lia.
Defined.

(** X12: two edge cases of the formatter.  A history whose renderings fit
    the bound together is rendered whole; a history whose most recent
    message alone exceeds the bound is rendered as nothing, however short
    the earlier messages are. *)
Theorem formatMessagesWithinLimit_edges (history : list ClaudeMessage) (L : Z) :
  0 <= L ->
  (totalLength (map ConversationManager.formatMessage history) <= L ->
   ConversationManager.formatMessagesWithinLimit history L
   = map ConversationManager.formatMessage history)
  /\ (forall msg : ClaudeMessage,
        last history = Some msg ->
        JS.length (ConversationManager.formatMessage msg) > L ->
        ConversationManager.formatMessagesWithinLimit history L = []).
Proof.
  intros HL.
  destruct (formatMessagesWithinLimit_split history L HL)
    as (dropped & kept & Hsplit & Heq & Hsum & Hstop).
  split.
  - intros Hfits. rewrite Heq.
    destruct (last dropped) as [msg|] eqn:Hlast.
    + exfalso. specialize (Hstop msg eq_refl).
      apply last_Some in Hlast as [earlier ->].
      rewrite Hsplit in Hfits.
      rewrite !map_app, !totalLength_app in Hfits. simpl in Hfits.
      pose proof (totalLength_nonneg
                    (map ConversationManager.formatMessage earlier)). lia.
    + apply last_None in Hlast. subst dropped. rewrite Hsplit. reflexivity.
  - intros msg Hlast Hlong. rewrite Heq.
    destruct kept as [|m kept] using rev_ind; [reflexivity|].
    exfalso. rewrite Hsplit, app_assoc, last_snoc in Hlast.
    injection Hlast as ->.
    rewrite map_app, totalLength_app in Hsum. simpl in Hsum.
    pose proof (totalLength_nonneg (map ConversationManager.formatMessage kept)).
    lia.
Qed.

Lemma formatMessagesWithinLimit_edges_witness :
  ConversationManager.formatMessagesWithinLimit
    [longMessage 10; longMessage 20] 400
  = map ConversationManager.formatMessage [longMessage 10; longMessage 20]
  /\ ConversationManager.formatMessagesWithinLimit
       [longMessage 10; longMessage 394] 400
     = [].
Proof.
  split.
  - apply (proj1 (formatMessagesWithinLimit_edges
                    [longMessage 10; longMessage 20] 400 ltac:(lia))).
    vm_compute. discriminate.
  - apply (proj2 (formatMessagesWithinLimit_edges
                    [longMessage 10; longMessage 394] 400 ltac:(lia))
             (longMessage 394)).
    + reflexivity.
    + vm_compute. reflexivity.
Defined.

Lemma withinLimitLoop_mono L1 L2 pending acc1 acc2 total :
  L1 <= L2 ->
  exists k1 k2 : nat,
    (k1 <= k2)%nat
    /\ ConversationManager.withinLimitLoop L1 pending acc1 total
       = acc1 ++ map ConversationManager.formatMessage (take k1 pending)
    /\ ConversationManager.withinLimitLoop L2 pending acc2 total
       = acc2 ++ map ConversationManager.formatMessage (take k2 pending).
Proof.
  intros Hle. revert acc1 acc2 total.
  induction pending as [|msg older IH]; intros acc1 acc2 total.
  - exists 0%nat, 0%nat. simpl. rewrite !app_nil_r. repeat split. lia.
  - simpl.
    destruct (Z.gtb_spec (total + JS.length (ConversationManager.formatMessage msg)) L1)
      as [Hover1|Hfits1].
    + destruct (withinLimitLoop_stop L2 (msg :: older) acc2 total)
        as (k2 & Heq2 & _).
      exists 0%nat, k2. simpl in Heq2 |- *. rewrite app_nil_r.
      split; [lia|]. split; [reflexivity|exact Heq2].
    + destruct (Z.gtb_spec (total + JS.length (ConversationManager.formatMessage msg)) L2)
        as [Hover2|Hfits2]; [lia|].
      destruct (IH (acc1 ++ [ConversationManager.formatMessage msg])
                   (acc2 ++ [ConversationManager.formatMessage msg])
                   (total + JS.length (ConversationManager.formatMessage msg)))
        as (k1 & k2 & Hk & Heq1 & Heq2).
      exists (S k1), (S k2). simpl. rewrite Heq1, Heq2, <- !app_assoc. simpl.
      split; [lia|]. split; reflexivity.
Qed.

(** X13: what the formatter keeps grows with the bound, so the messages
    a server renders for the reasoning stage (bound 50000) are a suffix of
    the messages it renders for the response stage (bound 600000), which
    are a suffix of the history. *)
Theorem formatHistoryForModel_stages (history : list ClaudeMessage) :
  exists keptForReasoning keptForResponse : list ClaudeMessage,
    keptForReasoning `suffix_of` keptForResponse
    /\ keptForResponse `suffix_of` history
    /\ Index.formatHistoryForModel history true
       = JS.join blankLine (map ConversationManager.formatMessage keptForReasoning)
    /\ Index.formatHistoryForModel history false
       = JS.join blankLine (map ConversationManager.formatMessage keptForResponse).
Proof.
  destruct (withinLimitLoop_mono 50000 600000 (reverse history) [] [] 0)
    as (k1 & k2 & Hk & Heq1 & Heq2); [lia|].
  exists (drop (length history - k1) history), (drop (length history - k2) history).
  split.
  { replace (length history - k1)%nat
      with ((length history - k2) + ((length history - k1) - (length history - k2)))%nat
      by lia.
    rewrite <- drop_drop. apply suffix_drop. }
  split; [apply suffix_drop|].
  rewrite !Index_formatHistoryForModel_eq.
  unfold ConversationManager.formatMessagesWithinLimit.
  rewrite Heq1, Heq2. simpl.
  rewrite !take_reverse, !map_reverse, !reverse_involutive.
  split; reflexivity.
Qed.

(** ** The history source *)

Lemma insertByMtime_In (stat x : ConversationStats) (sorted : list ConversationStats) :
  In x (insertByMtime stat sorted) <-> x = stat \/ In x sorted.
Proof.
  induction sorted as [|other later IH]; simpl.
  - intuition congruence.
  - destruct (stats_mtime other >? stats_mtime stat); simpl; rewrite ?IH;
      intuition congruence.
Qed.

Lemma sortByMtime_In (x : ConversationStats) (stats : list ConversationStats) :
  In x (sortByMtime stats) <-> In x stats.
Proof.
  induction stats as [|stat stats IH]; [reflexivity|].
  cbn [sortByMtime foldr]. fold (sortByMtime stats).
  rewrite insertByMtime_In, IH. simpl. intuition congruence.
Qed.

(** The first element after sorting is one of the newest. *)
Lemma sortByMtime_head (stats : list ConversationStats) :
  match head (sortByMtime stats) with
  | None => stats = []
  | Some first =>
      In first stats
      /\ forall other, In other stats -> stats_mtime other <= stats_mtime first
  end.
Proof.
  induction stats as [|stat stats IH]; [reflexivity|].
  cbn [sortByMtime foldr]. fold (sortByMtime stats).
  destruct (sortByMtime stats) as [|other later] eqn:Hsorted; cbn [head] in IH.
  - subst stats. cbn. split; [left; reflexivity|].
    intros other [<-|[]]. lia.
  - destruct IH as [Hin Hmax]. cbn [insertByMtime].
    destruct (Z.gtb_spec (stats_mtime other) (stats_mtime stat)) as [Hnewer|Holder];
      cbn [head].
    + split; [right; exact Hin|].
      intros x [<-|Hx]; [lia|apply Hmax, Hx].
    + split; [left; reflexivity|].
      intros x [<-|Hx]; [lia|]. specialize (Hmax x Hx). lia.
Qed.

Lemma activeStats_In (stat : ConversationStats) (dirs : list TaskFolder) :
  In stat (activeStats (map folderStats dirs))
  <-> exists folder, In folder dirs
                     /\ folderStats folder = Some stat
                     /\ hasEnded stat = false.
Proof.
  induction dirs as [|folder dirs IH]; simpl.
  - split; [intros []|intros (f & [] & _)].
  - destruct (folderStats folder) as [s|] eqn:Hstats.
    + destruct (hasEnded s) eqn:Hended; simpl; rewrite IH.
      * split.
        -- intros (f & Hf & Hs & He). exists f. auto.
        -- intros (f & [<-|Hf] & Hs & He); [congruence|eauto].
      * split.
        -- intros [<-|(f & Hf & Hs & He)]; [exists folder; auto|exists f; auto].
        -- intros (f & [<-|Hf] & Hs & He); [left; congruence|right; eauto].
    + rewrite IH. split.
      * intros (f & Hf & Hs & He). exists f. auto.
      * intros (f & [<-|Hf] & Hs & He); [congruence|eauto].
Qed.

Lemma folderStats_dir (folder : TaskFolder) (stat : ConversationStats) :
  folderStats folder = Some stat -> stats_dir stat = dir folder.
Proof.
  unfold folderStats.
  destruct (mtime folder); [|discriminate].
  destruct (uiMessages folder); [|discriminate].
  intros [= <-]. reflexivity.
Qed.

(** X14: the history the server reads is that of a newest active
    conversation.  With no folder that has a readable, not ended
    conversation the result is [null]; otherwise the history file read is
    the one of an active folder whose modification time no active folder
    exceeds, and the result is [null] again when that file cannot be read
    or parsed: the reader does not fall back on an older conversation. *)
Theorem findActiveConversation_latest (dirs : list TaskFolder)
    (history : string -> HistoryFile) :
  Forall (fun folder => dir folder <> EmptyString) dirs ->
  ((forall folder, In folder dirs -> ~ isActive folder) ->
   IndexHistory.findActiveConversation (Listing dirs history) = None)
  /\ ((exists folder, In folder dirs /\ isActive folder) ->
      exists (folder : TaskFolder) (stat : ConversationStats),
        In folder dirs
        /\ folderStats folder = Some stat
        /\ hasEnded stat = false
        /\ (forall other otherStat,
              In other dirs ->
              folderStats other = Some otherStat ->
              hasEnded otherStat = false ->
              stats_mtime otherStat <= stats_mtime stat)
        /\ IndexHistory.findActiveConversation (Listing dirs history)
           = match history (dir folder) with
             | Parsed messages => Some messages
             | _ => None
             end).
Proof.
  intros Hnames. unfold IndexHistory.findActiveConversation.
  pose proof (sortByMtime_head (activeStats (map folderStats dirs))) as Hhead.
  destruct (head (sortByMtime (activeStats (map folderStats dirs))))
    as [first|] eqn:Hfirst.
  - destruct Hhead as [Hin Hmax].
    apply activeStats_In in Hin as (folder & Hfolder & Hstats & Hactive).
    split.
    + intros Hnone. exfalso. apply (Hnone folder Hfolder).
      exists first. split; assumption.
    + intros _. exists folder, first.
      split; [exact Hfolder|]. split; [exact Hstats|]. split; [exact Hactive|].
      split.
      * intros other otherStat Hother HotherStats HotherActive.
        apply Hmax, activeStats_In. exists other. auto.
      * rewrite (folderStats_dir folder first Hstats).
        rewrite Forall_forall in Hnames.
        apply list_elem_of_In in Hfolder. specialize (Hnames folder Hfolder).
        destruct (dir folder) as [|c rest]; [congruence|]. reflexivity.
  - split; [reflexivity|].
    intros (folder & Hfolder & stat & Hstats & Hactive). exfalso.
    assert (Hin : In stat (activeStats (map folderStats dirs)))
      by (apply activeStats_In; exists folder; auto).
    rewrite Hhead in Hin. destruct Hin.
Qed.

Lemma findActiveConversation_latest_witness :
  exists (folder : TaskFolder) (stat : ConversationStats),
    In folder sampleFolders
    /\ folderStats folder = Some stat
    /\ hasEnded stat = false
    /\ (forall other otherStat,
          In other sampleFolders ->
          folderStats other = Some otherStat ->
          hasEnded otherStat = false ->
          stats_mtime otherStat <= stats_mtime stat)
    /\ IndexHistory.findActiveConversation (Listing sampleFolders sampleHistory)
       = match sampleHistory (dir folder) with
         | Parsed messages => Some messages
         | _ => None
         end.
Proof.
  apply (proj2 (findActiveConversation_latest sampleFolders sampleHistory
                  ltac:(repeat constructor; discriminate))).
  exists {| dir := "older"; mtime := Some 100; uiMessages := Some [uiMessage "say"] |}.
  split; [left; reflexivity|].
  eexists. split; reflexivity.
Defined.

(** The sample directory: the newer active conversation is read, the
    ended one is passed over although it is the newest. *)
Example findActiveConversation_sample :
  IndexHistory.findActiveConversation (Listing sampleFolders sampleHistory)
  = Some [ {| role := "user"; content := Text "List the files" |} ]
  /\ ConversationHistory.findActiveConversation "/home/u/.config/Code/tasks"
       (Listing sampleFolders sampleHistory)
     = inr (Some [ {| role := "user"; content := Text "List the files" |} ]).
Proof. vm_compute. split; reflexivity. Qed.

(** X15: the reader of [ConversationManager] refines the reader of the
    server.  Whenever it returns instead of throwing, the server's reader
    returns the same value on the same directory, and a history it returns
    has passed [validateHistory]; it throws ['Directory not found: ...']
    where the directory is missing, a case in which the server's reader
    returns [null]. *)
Theorem ConversationHistory_refines_IndexHistory (tasksPath : string)
    (tasks : TasksDirectory) :
  (forall result : option (list ClaudeMessage),
      ConversationHistory.findActiveConversation tasksPath tasks = inr result ->
      IndexHistory.findActiveConversation tasks = result
      /\ (forall messages, result = Some messages ->
                           ConversationManager.validateHistory messages = inr tt))
  /\ (tasks = Missing ->
      ConversationHistory.findActiveConversation tasksPath tasks
      = inl (ConversationManager.Throw ("Directory not found: " +:+ tasksPath))
      /\ IndexHistory.findActiveConversation tasks = None).
Proof.
  split.
  - intros result.
    unfold ConversationHistory.findActiveConversation,
      IndexHistory.findActiveConversation,
      ConversationHistory.validateDirectoryExists,
      ConversationHistory.getConversationStats,
      ConversationHistory.findMostRecentActiveConversation.
    destruct tasks as [|message|dirs history]; [discriminate|discriminate|].
    cbv zeta.
    destruct (head (sortByMtime (activeStats (map folderStats dirs)))) as [first|].
    + destruct (JS.truthy (stats_dir first)); cbn [negb].
      * unfold ConversationHistory.parseClaudeMessages.
        destruct (history (stats_dir first)) as [message| |messages];
          [discriminate|discriminate|].
        destruct (ConversationManager.validateHistory messages) as [e|[]] eqn:Hvalid;
          [discriminate|].
        intros [= <-]. split; [reflexivity|]. intros ? [= <-]. exact Hvalid.
      * intros [= <-]. split; [reflexivity|discriminate].
    + intros [= <-]. split; [reflexivity|discriminate].
  - intros ->. split; reflexivity.
Qed.

Lemma ConversationHistory_refines_IndexHistory_witness :
  IndexHistory.findActiveConversation (Listing sampleFolders sampleHistory)
  = Some [ {| role := "user"; content := Text "List the files" |} ]
  /\ ConversationManager.validateHistory
       [ {| role := "user"; content := Text "List the files" |} ]
     = inr tt.
Proof.
  destruct (proj1 (ConversationHistory_refines_IndexHistory
                     "/home/u/.config/Code/tasks"
                     (Listing sampleFolders sampleHistory))
              (Some [ {| role := "user"; content := Text "List the files" |} ]))
    as [Hsame Hvalid].
  - reflexivity.
  - split; [exact Hsame|]. apply Hvalid. reflexivity.
Defined.

Lemma validateHistory_invalid (messages : list ClaudeMessage) :
  Exists (fun msg => ConversationManager.isValidClaudeMessage msg = false) messages ->
  existsb (fun msg => negb (ConversationManager.isValidClaudeMessage msg)) messages
  = true.
Proof.
  intros Hinvalid.
  induction Hinvalid as [msg rest Hmsg|msg rest _ IH]; simpl.
  - rewrite Hmsg. reflexivity.
  - rewrite IH. apply orb_true_r.
Qed.

(** The conversation both readers pick: an active folder that is newer
    than every other active folder. *)
Lemma newest_active_is_first (dirs : list TaskFolder) (folder : TaskFolder)
    (stat : ConversationStats) :
  In folder dirs ->
  folderStats folder = Some stat ->
  hasEnded stat = false ->
  (forall other otherStat,
      In other dirs ->
      folderStats other = Some otherStat ->
      hasEnded otherStat = false ->
      otherStat = stat \/ stats_mtime otherStat < stats_mtime stat) ->
  head (sortByMtime (activeStats (map folderStats dirs))) = Some stat.
Proof.
  intros Hfolder Hstats Hactive Hnewest.
  assert (Hin : In stat (activeStats (map folderStats dirs)))
    by (apply activeStats_In; exists folder; auto).
  pose proof (sortByMtime_head (activeStats (map folderStats dirs))) as Hhead.
  destruct (head (sortByMtime (activeStats (map folderStats dirs)))) as [first|].
  - destruct Hhead as [Hfirst Hmax].
    apply activeStats_In in Hfirst as (other & Hother & HotherStats & HotherActive).
    destruct (Hnewest other first Hother HotherStats HotherActive) as [->|Holder];
      [reflexivity|].
    specialize (Hmax stat Hin). lia.
  - rewrite Hhead in Hin. destruct Hin.
Qed.

(** X16: when the history file of the newest active conversation of the
    tasks directory holds a message that fails the validator, the reader
    of [ConversationManager] throws ['Failed to parse Claude messages'],
    where the reader of the server hands the messages on unchecked. *)
Theorem invalid_history_is_rejected_by_the_manager_only (tasksPath : string)
    (dirs : list TaskFolder) (folder : TaskFolder) (stat : ConversationStats)
    (history : string -> HistoryFile) (messages : list ClaudeMessage) :
  In folder dirs ->
  dir folder <> EmptyString ->
  folderStats folder = Some stat ->
  hasEnded stat = false ->
  (forall other otherStat,
      In other dirs ->
      folderStats other = Some otherStat ->
      hasEnded otherStat = false ->
      otherStat = stat \/ stats_mtime otherStat < stats_mtime stat) ->
  history (dir folder) = Parsed messages ->
  Exists (fun msg => ConversationManager.isValidClaudeMessage msg = false) messages ->
  ConversationHistory.findActiveConversation tasksPath (Listing dirs history)
  = inl (ConversationManager.Throw "Failed to parse Claude messages")
  /\ IndexHistory.findActiveConversation (Listing dirs history) = Some messages.
Proof.
  intros Hfolder Hname Hstats Hactive Hnewest Hfile Hinvalid.
  unfold ConversationHistory.findActiveConversation,
    IndexHistory.findActiveConversation,
    ConversationHistory.validateDirectoryExists,
    ConversationHistory.getConversationStats,
    ConversationHistory.findMostRecentActiveConversation.
  cbv zeta.
  rewrite (newest_active_is_first dirs folder stat Hfolder Hstats Hactive Hnewest).
  rewrite (folderStats_dir folder stat Hstats).
  destruct (dir folder) as [|c rest] eqn:Hdir; [congruence|].
  cbn [JS.truthy negb]. rewrite Hfile.
  split; [|reflexivity].
  unfold ConversationHistory.parseClaudeMessages, ConversationManager.validateHistory.
  rewrite (validateHistory_invalid messages Hinvalid). reflexivity.
Qed.

Lemma invalid_history_is_rejected_by_the_manager_only_witness :
  let messages := [ {| role := "system"; content := Text "You are helpful" |} ] in
  let history (name : string) :=
    if String.eqb name "newer" then Parsed messages else sampleHistory name in
  ConversationHistory.findActiveConversation "/tasks" (Listing sampleFolders history)
  = inl (ConversationManager.Throw "Failed to parse Claude messages")
  /\ IndexHistory.findActiveConversation (Listing sampleFolders history)
     = Some messages.
Proof.
  intros messages history.
  apply (invalid_history_is_rejected_by_the_manager_only "/tasks" sampleFolders
           {| dir := "newer"; mtime := Some 200; uiMessages := Some [] |}
           {| stats_dir := "newer"; stats_mtime := 200; hasEnded := false |}
           history messages).
  - right. right. left. reflexivity.
  - discriminate.
  - reflexivity.
  - reflexivity.
  - intros other otherStat [<-|[<-|[<-|[<-|[]]]]] Hstats Hactive;
      vm_compute in Hstats; try discriminate;
      injection Hstats as <-; try discriminate.
    + right. vm_compute. reflexivity.
    + left. reflexivity.
  - reflexivity.
  - constructor. reflexivity.
Defined.

(** X17: the two files build the same path to the tasks directory for
    every platform and home directory; platforms other than [win32] and
    [darwin] use the [.config] path of [linux]. *)
Theorem getClaudePath_agree (homeDir : string) (platform : Platform) :
  ConversationHistory.getClaudePath homeDir platform
  = IndexHistory.getClaudePath homeDir platform
  /\ (platform <> Win32 -> platform <> Darwin ->
      IndexHistory.getClaudePath homeDir platform
      = IndexHistory.getClaudePath homeDir Linux)
  /\ last (IndexHistory.getClaudePath homeDir platform) = Some "tasks"
  /\ head (IndexHistory.getClaudePath homeDir platform) = Some homeDir.
Proof.
  destruct platform; repeat split; try reflexivity; congruence.
Qed.

Lemma getClaudePath_agree_witness :
  IndexHistory.getClaudePath "/home/u" Freebsd
  = IndexHistory.getClaudePath "/home/u" Linux.
Proof.
  apply (proj1 (proj2 (getClaudePath_agree "/home/u" Freebsd))); discriminate.
Defined.

(** ** The task pipeline and the two stores *)

Section Stores.

Import DeepseekClaudeServer.

(** What a run on a registered task does to the registry and to the
    context buffer. *)
Lemma processTask_stores fmt (world : World) (taskId : string) (cc ih : option bool)
    (srv : t) (task : TaskInfo.t) :
  activeTasks srv !! taskId = Some task ->
  let run := processTask fmt world taskId cc ih srv in
  let base :=
    if default false cc then ConversationManager.clearContext (context srv)
    else context srv in
  (forall other : string,
      other <> taskId -> activeTasks run.2 !! other = activeTasks srv !! other)
  /\ match run.1 with
     | inl _ => context run.2 = base
     | inr _ =>
         exists reasoning response : string,
           context run.2
           = ConversationManager.pushBounded base
               (ConversationEntry.mk (clock run.2) (TaskInfo.prompt task)
                  reasoning response CLAUDE_MODEL)
           /\ activeTasks run.2 !! taskId
              = Some (completeRecord task reasoning response (clock run.2))
     end.
Proof.
  intros Htask run base. subst run base.
  unfold processTask.
  cbv [bind getActiveTasks]. rewrite Htask.
  cbv [tryCatch bind ret throw clearEntries setTask dateNow addToContext await].
  set (history := if bool_decide (ih ≠ Some false) then _ else _).
  assert (Hhistory : forall s : t, exists (h : option (list ClaudeMessage)) (ms : Z),
             history s = (inr h, mk (context s) (activeTasks s) (clock s + ms) (journal s))).
  { intros [c a k j]. subst history. destruct (bool_decide (ih ≠ Some false)).
    - eexists _, _. reflexivity.
    - exists None, 0. cbn. rewrite Z.add_0_r. reflexivity. }
  clearbody history.
  destruct (default false cc) eqn:Hcc.
  all: cbv beta iota.
  all: match goal with
       | Hh : (forall s : t, exists h ms, ?f s = _) |- context [?f ?s0] =>
           destruct (Hh s0) as (h & ms & ->)
       end.
  all: cbv beta iota; cbn [context activeTasks clock journal].
  all: match goal with
       | |- context [getDeepseekReasoning ?w ?p ?s] =>
           destruct (getDeepseekReasoning_run w p s) as (msgs & ->)
       end.
  all: cbn [context activeTasks clock journal].
  all: destruct (reasoningOf (deepseek world msgs)) as [error|reasoning].
  all: try match goal with
       | |- context [getFinalResponse ?w ?p ?r ?s] =>
           destruct (getFinalResponse_run w p r s) as (msgs' & ->)
       end.
  all: cbn [context activeTasks clock journal].
  all: try destruct (responseOf (claude world msgs')) as [error|response].
  all: cbn [fst snd context activeTasks clock journal].
  all: split; [intros other Hother; rewrite ?lookup_insert_ne by congruence; reflexivity|].
  all: try reflexivity.
  all: exists reasoning, response; split; [|apply lookup_insert_eq].
  all: unfold ConversationManager.pushBounded, ConversationManager.clearContext;
       cbn [entries maxEntries];
       match goal with |- context [if ?b then _ else _] => destruct b end;
       reflexivity.
Qed.

End Stores.

(** X18: a run of [processTask] writes to the registry under its own task
    id only: the record of every other task is after the run what it was
    before, whether the run returns or throws. *)
Theorem processTask_touches_one_task fmt (world : World) (taskId other : string)
    (cc ih : option bool) (srv : DeepseekClaudeServer.t) :
  other <> taskId ->
  DeepseekClaudeServer.activeTasks
    (DeepseekClaudeServer.processTask fmt world taskId cc ih srv).2 !! other
  = DeepseekClaudeServer.activeTasks srv !! other.
Proof.
  intros Hother.
  destruct (DeepseekClaudeServer.activeTasks srv !! taskId) as [task|] eqn:Htask.
  - apply (processTask_stores fmt world taskId cc ih srv task Htask). exact Hother.
  - rewrite processTask_unregistered by assumption. reflexivity.
Qed.

Lemma processTask_touches_one_task_witness :
  DeepseekClaudeServer.activeTasks
    (Index.processTask (answeringWorld (Some "think") (Some "answer")) "task-1"
       None None
       (DeepseekClaudeServer.mk {| entries := []; maxEntries := 10 |}
          (<[ "task-2" := taskIn Reasoning ]> {[ "task-1" := taskIn Pending ]})
          1000 [])).2 !! "task-2"
  = Some (taskIn Reasoning).
Proof.
  rewrite (processTask_touches_one_task Index.formatHistoryForModel
             (answeringWorld (Some "think") (Some "answer")) "task-1" "task-2")
    by discriminate.
  reflexivity.
Defined.



(** X20: with [includeHistory] false a run consults neither the history
    source nor the history formatter: it runs the same in any two worlds
    that agree on the two model endpoints and their latencies, with any
    two formatters. *)
Theorem processTask_without_history
    (fmt fmt' : list ClaudeMessage -> bool -> string) (world world' : World)
    (taskId : string) (cc : option bool) (srv : DeepseekClaudeServer.t) :
  deepseek world' = deepseek world ->
  claude world' = claude world ->
  deepseekLatency world' = deepseekLatency world ->
  claudeLatency world' = claudeLatency world ->
  DeepseekClaudeServer.processTask fmt' world' taskId cc (Some false) srv
  = DeepseekClaudeServer.processTask fmt world taskId cc (Some false) srv.
Proof.
  intros Hdeepseek Hclaude HdeepseekLatency HclaudeLatency.
  unfold DeepseekClaudeServer.processTask,
    DeepseekClaudeServer.getDeepseekReasoning,
    DeepseekClaudeServer.getFinalResponse,
    DeepseekClaudeServer.createCompletion.
  rewrite Hdeepseek, Hclaude, HdeepseekLatency, HclaudeLatency.
  rewrite (bool_decide_eq_false_2 (Some false ≠ Some false))
    by (intros Hne; apply Hne; reflexivity).
  reflexivity.
Qed.


Lemma processTask_without_history_witness :
  DeepseekClaudeServer.processTask McpIndex.formatHistoryForModel
    {| findActiveConversation := Some [longMessage 10];
       deepseek := fun _ => inr (completion (Some "think") None);
       claude := fun _ => inr (completion None (Some "answer"));
       historyLatency := 9000;
       deepseekLatency := 4000;
       claudeLatency := 6000 |}
    "task-1" None (Some false) (serverWith (taskIn Pending))
  = DeepseekClaudeServer.processTask Index.formatHistoryForModel
      (answeringWorld (Some "think") (Some "answer")) "task-1" None (Some false)
      (serverWith (taskIn Pending)).
Proof.
  apply processTask_without_history; reflexivity.
Defined.

(** ** The requests sent to the response model *)

Lemma contextMessages_shape (es : list ConversationEntry.t) :
  let msgs :=
    flat_map (fun entry =>
                [ {| chat_role := "user";
                     chat_content := ConversationEntry.prompt entry |};
                  {| chat_role := "assistant";
                     chat_content := ConversationEntry.response entry |} ]) es in
  length msgs = (2 * length es)%nat
  /\ forall i m, msgs !! i = Some m ->
                 chat_role m = if Nat.even i then "user" else "assistant".
Proof.
  induction es as [|e es [IHlen IHroles]]; cbn zeta.
  - split; [reflexivity|]. intros i m Hm. destruct i; discriminate.
  - cbn [flat_map app]. split.
    + simpl length. rewrite IHlen. lia.
    + intros [|[|i]] m Hm; cbn in Hm.
      * injection Hm as <-. reflexivity.
      * injection Hm as <-. reflexivity.
      * change (Nat.even (S (S i))) with (Nat.even i). apply IHroles. exact Hm.
Qed.


(** X21: the request of the response stage.  It is sent once, to the
    response model; its messages are one user/assistant pair per buffered
    turn (that turn's prompt and response, oldest turn first), followed by
    the prompt as a user message and the reasoning wrapped in
    [<thinking>] tags as an assistant message, so roles alternate from
    [user] on.  Sending it changes neither the buffer nor the registry. *)
Theorem getFinalResponse_request (world : World) (prompt reasoning : string)
    (s : DeepseekClaudeServer.t) :
  let run := DeepseekClaudeServer.getFinalResponse world prompt reasoning s in
  let n := length (entries (DeepseekClaudeServer.context s)) in
  exists msgs : list ChatMessage,
    eventsSince s run.2
    = [CompletionRequested (DeepseekClaudeServer.clock s)
         DeepseekClaudeServer.CLAUDE_MODEL msgs (claude world msgs)]
    /\ length msgs = (2 * n + 2)%nat
    /\ (forall i m, msgs !! i = Some m ->
                    chat_role m = if Nat.even i then "user" else "assistant")
    /\ drop (2 * n) msgs
       = [ {| chat_role := "user"; chat_content := prompt |};
           {| chat_role := "assistant";
              chat_content := "<thinking>" +:+ reasoning +:+ "</thinking>" |} ]
    /\ (forall i entry,
          entries (DeepseekClaudeServer.context s) !! i = Some entry ->
          msgs !! (2 * i)%nat
          = Some {| chat_role := "user";
                    chat_content := ConversationEntry.prompt entry |}
          /\ msgs !! (2 * i + 1)%nat
             = Some {| chat_role := "assistant";
                       chat_content := ConversationEntry.response entry |})
    /\ DeepseekClaudeServer.context run.2 = DeepseekClaudeServer.context s
    /\ DeepseekClaudeServer.activeTasks run.2 = DeepseekClaudeServer.activeTasks s.
Proof.
  intros run n. subst run.
  set (final := [ {| chat_role := "user"; chat_content := prompt |};
                  {| chat_role := "assistant";
                     chat_content := "<thinking>" +:+ reasoning +:+ "</thinking>" |} ]).
  set (turns := flat_map (fun entry =>
                  [ {| chat_role := "user";
                       chat_content := ConversationEntry.prompt entry |};
                    {| chat_role := "assistant";
                       chat_content := ConversationEntry.response entry |} ])
                  (entries (DeepseekClaudeServer.context s))).
  assert (Hrun : DeepseekClaudeServer.getFinalResponse world prompt reasoning s
                 = (responseOf (claude world (turns ++ final)),
                    DeepseekClaudeServer.mk (DeepseekClaudeServer.context s)
                      (DeepseekClaudeServer.activeTasks s)
                      (DeepseekClaudeServer.clock s + claudeLatency world)
                      (DeepseekClaudeServer.journal s
                       ++ [CompletionRequested (DeepseekClaudeServer.clock s)
                             DeepseekClaudeServer.CLAUDE_MODEL (turns ++ final)
                             (claude world (turns ++ final))]))).
  { unfold DeepseekClaudeServer.getFinalResponse.
    cbv [DeepseekClaudeServer.bind DeepseekClaudeServer.getContext
         DeepseekClaudeServer.tryCatch DeepseekClaudeServer.createCompletion
         DeepseekClaudeServer.throw DeepseekClaudeServer.ret].
    fold final. fold turns.
    replace (if Z.of_nat (length (entries (DeepseekClaudeServer.context s))) >? 0
             then turns ++ final else final)
      with (turns ++ final)
      by (subst turns; destruct (entries (DeepseekClaudeServer.context s));
          reflexivity).
    unfold responseOf.
    destruct (claude world (turns ++ final)) as [fault|completion]; [reflexivity|].
    destruct (DeepseekClaudeServer.firstContent completion)
      as [typeError|[[|c rest]|]]; reflexivity. }
  rewrite Hrun. cbn [snd].
  destruct (contextMessages_shape (entries (DeepseekClaudeServer.context s)))
    as [Hlen Hroles].
  fold turns in Hlen, Hroles. fold n in Hlen.
  exists (turns ++ final).
  split; [apply eventsSince_app; reflexivity|].
  split; [rewrite length_app, Hlen; reflexivity|].
  split.
  { intros i m Hm. apply lookup_app_Some in Hm as [Hm|[Hge Hm]].
    - apply Hroles, Hm.
    - rewrite Hlen in Hm, Hge.
      assert (Heven : Nat.even i = Nat.even (i - 2 * n)).
      { replace i with ((i - 2 * n) + 2 * n)%nat at 1 by lia.
        rewrite Nat.even_add_mul_2. reflexivity. }
      rewrite Heven.
      destruct (i - 2 * n)%nat as [|[|k]]; cbn in Hm; try discriminate;
        injection Hm as <-; reflexivity. }
  split; [rewrite <- Hlen; apply drop_app_length|].
  split; [|split; reflexivity].
  intros i entry Hentry. subst turns.
  clear Hlen Hroles Hrun. revert i Hentry.
  generalize (entries (DeepseekClaudeServer.context s)) as es.
  induction es as [|e es IH]; intros i Hentry; [discriminate|].
  destruct i as [|i].
  - injection Hentry as <-. split; reflexivity.
  - cbn in Hentry. specialize (IH i Hentry).
    replace (2 * S i)%nat with (S (S (2 * i))) by lia.
    replace (S (S (2 * i)) + 1)%nat with (S (S (2 * i + 1))) by lia.
    exact IH.
Qed.

Lemma getFinalResponse_request_witness :
  let s :=
    DeepseekClaudeServer.mk
      {| entries := [storedEntry "Explain the build"]; maxEntries := 10 |}
      (∅ : gmap string TaskInfo.t) 1000 [] in
  let run :=
    DeepseekClaudeServer.getFinalResponse (answeringWorld None (Some "answer"))
      "And the tests?" "think" s in
  exists msgs : list ChatMessage,
    eventsSince s run.2
    = [CompletionRequested 1000 DeepseekClaudeServer.CLAUDE_MODEL msgs
         (claude (answeringWorld None (Some "answer")) msgs)]
    /\ msgs !! 0%nat
       = Some {| chat_role := "user"; chat_content := "Explain the build" |}
    /\ msgs !! 1%nat = Some {| chat_role := "assistant"; chat_content := "done" |}
    /\ drop 2 msgs
       = [ {| chat_role := "user"; chat_content := "And the tests?" |};
           {| chat_role := "assistant";
              chat_content := "<thinking>think</thinking>" |} ].
Proof.
  intros s run.
  destruct (getFinalResponse_request (answeringWorld None (Some "answer"))
              "And the tests?" "think" s)
    as (msgs & Hevents & _ & _ & Hlast & Hturns & _).
  destruct (Hturns 0%nat (storedEntry "Explain the build") eq_refl)
    as [Huser Hassistant].
  exists msgs. split; [exact Hevents|].
  split; [exact Huser|]. split; [exact Hassistant|exact Hlast].
Defined.

(** ** Tool calls *)



(** X23: a response completion in which the path [choices[0].message]
    does not exist (no [choices], an empty [choices], or a first choice
    without [message]) makes the run throw a [TypeError]: the task ends in
    [error] with that error's message and nothing is appended to the
    buffer. *)
Theorem malformed_response_fails fmt (world : World) (taskId : string)
    (cc ih : option bool) (srv : DeepseekClaudeServer.t) (task : TaskInfo.t)
    (answer : Completion.t) :
  DeepseekClaudeServer.activeTasks srv !! taskId = Some task ->
  let run := DeepseekClaudeServer.processTask fmt world taskId cc ih srv in
  let events := eventsSince srv run.2 in
  In (inr answer) (answersFrom DeepseekClaudeServer.CLAUDE_MODEL events) ->
  Completion.choices answer = None
  \/ Completion.choices answer = Some []
  \/ (exists first rest,
        Completion.choices answer = Some (first :: rest)
        /\ Completion.message first = None) ->
  exists message : string,
    String.prefix "Cannot read properties of undefined" message = true
    /\ run.1 = inl (ErrorObject message)
    /\ (TaskInfo.status <$> DeepseekClaudeServer.activeTasks run.2 !! taskId)
       = Some Error
    /\ (TaskInfo.error <$> DeepseekClaudeServer.activeTasks run.2 !! taskId)
       = Some (Some message)
    /\ appendCount events = 0%nat.
Proof.
  intros Htask run events Hin Hmalformed.
  destruct (processTask_outcome fmt world taskId cc ih srv task Htask)
    as (msgs & _ & Hcase).
  cbv zeta in Hcase.
  destruct (reasoningOf (deepseek world msgs)) as [error|reasoning].
  - destruct Hcase as (_ & Hnone & _).
    change (answersFrom DeepseekClaudeServer.CLAUDE_MODEL events = []) in Hnone.
    rewrite Hnone in Hin. destruct Hin.
  - destruct Hcase as (msgs' & Hanswers & Hcase).
    change (answersFrom DeepseekClaudeServer.CLAUDE_MODEL events
            = [claude world msgs']) in Hanswers.
    rewrite Hanswers in Hin. destruct Hin as [Hanswer|[]].
    assert (Hfault : exists message,
               String.prefix "Cannot read properties of undefined" message = true
               /\ responseOf (claude world msgs') = inl (ErrorObject message)).
    { rewrite Hanswer. unfold responseOf, DeepseekClaudeServer.firstContent.
      destruct Hmalformed as [->|[->|(first & rest & -> & Hmessage)]].
      - eexists. split; [|reflexivity]. reflexivity.
      - eexists. split; [|reflexivity]. reflexivity.
      - cbn. rewrite Hmessage. eexists. split; [|reflexivity]. reflexivity. }
    destruct Hfault as (message & Hprefix & Hfault).
    rewrite Hfault in Hcase. destruct Hcase as (Hresult & _ & Hstored & Hcount).
    exists message. split; [exact Hprefix|]. split; [exact Hresult|].
    fold run in Hstored. rewrite Hstored.
    split; [reflexivity|]. split; [reflexivity|exact Hcount].
Qed.

Lemma malformed_response_fails_witness :
  let world :=
    {| findActiveConversation := None;
       deepseek := fun _ => inr (completion (Some "think") None);
       claude := fun _ => inr {| Completion.choices := Some [] |};
       historyLatency := 50;
       deepseekLatency := 4000;
       claudeLatency := 6000 |} in
  let run := Index.processTask world "task-1" None None (serverWith (taskIn Pending)) in
  exists message : string,
    String.prefix "Cannot read properties of undefined" message = true
    /\ run.1 = inl (ErrorObject message)
    /\ (TaskInfo.status <$> DeepseekClaudeServer.activeTasks run.2 !! "task-1")
       = Some Error
    /\ (TaskInfo.error <$> DeepseekClaudeServer.activeTasks run.2 !! "task-1")
       = Some (Some message)
    /\ appendCount (eventsSince (serverWith (taskIn Pending)) run.2) = 0%nat.
Proof.
  intros world run.
  apply (malformed_response_fails Index.formatHistoryForModel world "task-1"
           None None (serverWith (taskIn Pending)) (taskIn Pending)
           {| Completion.choices := Some [] |} eq_refl).
  - vm_compute. left. reflexivity.
  - right. left. reflexivity.
Defined.

(** X24: the calls the raw-protocol handler refuses leave the server as
    it was.  Arguments that fail the guard of [generate_response] or of
    [check_response_status] are answered with [InvalidParams], an id that
    is not registered with [InvalidRequest], an unknown tool name with
    [MethodNotFound]; in none of these cases is a task registered or a
    record changed, and [check_response_status] never changes the server
    whatever it answers. *)
Theorem callTool_refusals (world : World) (name : string)
    (arguments : option ToolArguments.t) (uuid : string)
    (srv : DeepseekClaudeServer.t) :
  (Index.isValidGenerateResponseArgs arguments = false ->
   Index.callTool world "generate_response" arguments uuid srv
   = (inr (inl {| code := InvalidParams;
                  mcp_message := "Invalid generate_response arguments" |}), srv))
  /\ (Index.isValidCheckResponseStatusArgs arguments = false ->
      Index.callTool world "check_response_status" arguments uuid srv
      = (inr (inl {| code := InvalidParams;
                     mcp_message := "Invalid check_response_status arguments" |}),
         srv))
  /\ (forall (a : ToolArguments.t) (taskId : string),
        arguments = Some a ->
        ToolArguments.taskId a = StringValue taskId ->
        DeepseekClaudeServer.activeTasks srv !! taskId = None ->
        Index.callTool world "check_response_status" arguments uuid srv
        = (inr (inl {| code := InvalidRequest;
                       mcp_message := "No task found with ID: " +:+ taskId |}),
           srv))
  /\ (name <> "generate_response" ->
      name <> "check_response_status" ->
      Index.callTool world name arguments uuid srv
      = (inr (inl {| code := MethodNotFound;
                     mcp_message := "Unknown tool: " +:+ name |}), srv))
  /\ (Index.callTool world "check_response_status" arguments uuid srv).2 = srv.
Proof.
  unfold Index.callTool.
  change (String.eqb "generate_response" "generate_response") with true.
  change (String.eqb "check_response_status" "generate_response") with false.
  change (String.eqb "check_response_status" "check_response_status") with true.
  cbv iota.
  split; [|split; [|split; [|split]]].
  - intros ->. reflexivity.
  - intros ->. reflexivity.
  - intros a taskId -> Hid Hnone.
    cbn [Index.isValidCheckResponseStatusArgs]. rewrite Hid. cbn [negb].
    cbv [fmap option_fmap option_map default]. rewrite Hid.
    cbv [Index.asString DeepseekClaudeServer.bind id
         DeepseekClaudeServer.getActiveTasks DeepseekClaudeServer.ret].
    rewrite Hnone. reflexivity.
  - intros Hgenerate Hcheck.
    apply String.eqb_neq in Hgenerate, Hcheck. rewrite Hgenerate, Hcheck.
    reflexivity.
  - destruct (Index.isValidCheckResponseStatusArgs arguments); cbn [negb];
      [|reflexivity].
    cbv [DeepseekClaudeServer.bind DeepseekClaudeServer.getActiveTasks
         DeepseekClaudeServer.ret].
    match goal with
    | |- context [DeepseekClaudeServer.activeTasks srv !! ?k] =>
        destruct (DeepseekClaudeServer.activeTasks srv !! k)
    end; reflexivity.
Qed.

Lemma callTool_refusals_witness :
  Index.callTool (answeringWorld None None) "generate_response"
    (Some (taskIdOnly "task-1")) "task-9" (serverWith (taskIn Pending))
  = (inr (inl {| code := InvalidParams;
                 mcp_message := "Invalid generate_response arguments" |}),
     serverWith (taskIn Pending))
  /\ Index.callTool (answeringWorld None None) "check_response_status"
       (Some (taskIdOnly "task-2")) "task-9" (serverWith (taskIn Pending))
     = (inr (inl {| code := InvalidRequest;
                    mcp_message := "No task found with ID: task-2" |}),
        serverWith (taskIn Pending))
  /\ Index.callTool (answeringWorld None None) "list_tasks"
       None "task-9" (serverWith (taskIn Pending))
     = (inr (inl {| code := MethodNotFound;
                    mcp_message := "Unknown tool: list_tasks" |}),
        serverWith (taskIn Pending)).
Proof.
  split; [|split].
  - apply (proj1 (callTool_refusals (answeringWorld None None) "generate_response"
                    (Some (taskIdOnly "task-1")) "task-9"
                    (serverWith (taskIn Pending)))).
    reflexivity.
  - apply (proj1 (proj2 (proj2
             (callTool_refusals (answeringWorld None None) "check_response_status"
                (Some (taskIdOnly "task-2")) "task-9"
                (serverWith (taskIn Pending))))) (taskIdOnly "task-2") "task-2");
      reflexivity.
  - apply (proj1 (proj2 (proj2 (proj2
             (callTool_refusals (answeringWorld None None) "list_tasks"
                None "task-9" (serverWith (taskIn Pending)))))));
      discriminate.
Defined.
